(** * Snacka capture pipeline: a shallow embedding of the Windows capturers

    The development follows the C++ sources of [SnackaCaptureWindows]:
    - [AudioCapturer.cpp]   (WASAPI loopback, normalisation to 48 kHz
                             16-bit stereo, packet framing),
    - [ColorConverter.cpp]  (BGRA to NV12 read-back),
    - [DisplayCapturer.cpp] (desktop duplication, access-loss recovery),
    - [WindowCapturer.cpp]  (Windows.Graphics.Capture frame delivery),
    - [main.cpp]            (command line, [Capture], the write loops),
    - [SourceLister.cpp]    (source listing and its JSON output),
    and of the two renderers, [SnackaWindowsRenderer] (Media Foundation
    decoder and its C interface) and [SnackaLinuxRenderer] (VA-API
    decoder, EGL renderer, overlay window and C interface).

    Integers are [Z] with the wrap-around of their C++ type written out,
    [float] and [double] are IEEE 754 binary32 and binary64 values computed
    with the executable specification of [SpecFloat], [std::vector] is a
    list updated by index, threads are an interleaving of atomic steps. *)

From Stdlib Require Import ZArith Lia Bool.
From Stdlib.Strings Require Import Byte.
From Stdlib Require Import SpecFloat.
From Stdlib Require Import Ascii DecimalString DecimalZ.
From stdpp Require Import list strings gmap.

Local Open Scope Z_scope.

(** ** Machine integers *)

Module Int.
(** Unsigned wrap-around of a [w]-bit integer. *)
Definition wrap (w : Z) (z : Z) : Z := z mod 2 ^ w.

(** Two's complement reading of the low [w] bits. *)
Definition swrap (w : Z) (z : Z) : Z :=
  let u := wrap w z in
  if u <? 2 ^ (w - 1) then u else u - 2 ^ w.

Definition u32 := wrap 32.
Definition u64 := wrap 64.
Definition i16 := swrap 16.
Definition i32 := swrap 32.
End Int.

(** ** IEEE 754 arithmetic *)

Module IEEE.
(** Truncation toward zero of a finite value; [None] on NaN and
    infinities. *)
Definition trunc (f : spec_float) : option Z :=
  match f with
  | S754_zero _ => Some 0
  | S754_finite s m e =>
      let v := if 0 <=? e then Z.shiftl (Zpos m) e
               else Z.shiftr (Zpos m) (- e) in
      Some (if s then - v else v)
  | S754_infinity _ | S754_nan => None
  end.

(** Re-rounding of a value to the format [prec], [emax] (round to nearest,
    ties to even). *)
Definition round_to (prec emax : Z) (f : spec_float) : spec_float :=
  match f with
  | S754_finite s m e => binary_round prec emax s m e
  | _ => f
  end.
End IEEE.

(** [double]: binary64. *)
Module F64.
Definition prec : Z := 53.
Definition emax : Z := 1024.
Definition of_Z (z : Z) : spec_float := binary_normalize prec emax z 0 false.
Definition of_float (f : spec_float) : spec_float := IEEE.round_to prec emax f.
Definition add := SFadd prec emax.
Definition sub := SFsub prec emax.
Definition mul := SFmul prec emax.
Definition div := SFdiv prec emax.
Definition one : spec_float := of_Z 1.
End F64.

(** [float]: binary32. *)
Module F32.
Definition prec : Z := 24.
Definition emax : Z := 128.
Definition of_Z (z : Z) : spec_float := binary_normalize prec emax z 0 false.
Definition of_double (f : spec_float) : spec_float := IEEE.round_to prec emax f.
Definition mul := SFmul prec emax.
Definition div := SFdiv prec emax.
Definition ltb := SFltb.
Definition zero : spec_float := S754_zero false.
Definition one : spec_float := of_Z 1.
Definition minus_one : spec_float := of_Z (-1).

(** The value whose IEEE 754 binary32 encoding is the 32-bit word [w]. *)
Definition of_bits (w : Z) : spec_float :=
  let s := Z.testbit w 31 in
  let e := Z.land (Z.shiftr w 23) 255 in
  let m := Z.land w (2 ^ 23 - 1) in
  if e =? 0 then
    match m with
    | Zpos p => S754_finite s p (-149)
    | _ => S754_zero s
    end
  else if e =? 255 then
    (if m =? 0 then S754_infinity s else S754_nan)
  else
    match m + 2 ^ 23 with
    | Zpos p => S754_finite s p (e - 150)
    | _ => S754_nan
    end.

(** [std::clamp(v, lo, hi)]: [(v < lo) ? lo : (hi < v) ? hi : v]. *)
Definition clamp (v lo hi : spec_float) : spec_float :=
  if ltb v lo then lo else if ltb hi v then hi else v.
End F32.

(** Conversions from floating point to integers.  C++ leaves a conversion
    undefined when the truncated value does not fit the target (and on NaN);
    the model returns there what the x86-64 conversion instructions return,
    the "integer indefinite" value with only the top bit set. *)
Module Cast.
Definition size_t_indefinite : Z := 2 ^ 63.

(** [static_cast<size_t>(d)] *)
Definition size_t_of_double (d : spec_float) : Z :=
  match IEEE.trunc d with
  | Some v => if (0 <=? v) && (v <? 2 ^ 64) then v else size_t_indefinite
  | None => size_t_indefinite
  end.

(** [static_cast<int16_t>(f)]: conversion to [int], then narrowing. *)
Definition int16_of_float (f : spec_float) : Z :=
  match IEEE.trunc f with
  | Some v => if (- 2 ^ 31 <=? v) && (v <? 2 ^ 31) then Int.i16 v
              else Int.i16 (- 2 ^ 31)
  | None => Int.i16 (- 2 ^ 31)
  end.
End Cast.

(** ** Loops *)

(** [for (i = 0; i < n; i++) s = body i s] *)
Fixpoint for_loop {S : Type} (n : nat) (body : nat -> S -> S) (s : S) : S :=
  match n with
  | O => s
  | Datatypes.S k => body k (for_loop k body s)
  end.

(** ** std::vector and raw buffers

    [operator[]] does not check its index: an access past the end is
    undefined in C++.  In the model such a read yields a default value and
    such a store leaves the vector as it is. *)

Module Vec.
Definition get {A : Type} (d : A) (v : list A) (k : Z) : A :=
  if (0 <=? k) && (k <? Z.of_nat (length v))
  then default d (v !! Z.to_nat k)
  else d.

Definition set {A : Type} (v : list A) (k : Z) (x : A) : list A :=
  if (0 <=? k) && (k <? Z.of_nat (length v))
  then <[Z.to_nat k := x]> v
  else v.

(** Every even slot holds what the odd slot after it holds. *)
Definition paired {A : Type} (d : A) (v : list A) : Prop :=
  forall j, 0 <= j -> get d v (2 * j) = get d v (2 * j + 1).

(** The store of one value at [2 * (i mod M)] and at the slot after it:
    what a loop over interleaved pairs does when both channels are
    equal, with the index arithmetic of a type of [2 * M] values. *)
Definition store_pair {A : Type} (M : Z) (f : nat -> A) (i : nat)
    (buf : list A) : list A :=
  set (set buf (2 * (Z.of_nat i mod M)) (f i))
      (2 * (Z.of_nat i mod M) + 1) (f i).

End Vec.

(** ** Outcomes of code that may dereference a null handle *)

(** A [ComPtr], [unique_ptr] or WinRT reference is either null or not; a
    member call through a null one has no defined result. *)
Inductive Outcome (A : Type) : Type :=
  | Done (a : A)
  | NullDereference.
Arguments Done {A} a.
Arguments NullDereference {A}.

(** ** AudioCapturer.cpp *)

Module Audio.

(** The mix format read in [AudioCapturer::Initialize]. *)
Record WaveFormat := {
  m_isFloat : bool;
  m_bitsPerSample : Z;
  m_channels : Z;
  m_sampleRate : Z
}.

(** *** Reading the capture buffer *)

Definition byte_at (data : list byte) (k : Z) : Z :=
  Z.of_N (Byte.to_N (Vec.get x00 data k)).

Definition read_u16 (data : list byte) (k : Z) : Z :=
  byte_at data k + 256 * byte_at data (k + 1).

Definition read_u32 (data : list byte) (k : Z) : Z :=
  read_u16 data k + 65536 * read_u16 data (k + 2).

Definition read_i16 (data : list byte) (k : Z) : Z := Int.i16 (read_u16 data k).
Definition read_i32 (data : list byte) (k : Z) : Z := Int.i32 (read_u32 data k).
Definition read_f32 (data : list byte) (k : Z) : spec_float :=
  F32.of_bits (read_u32 data k).

(** [(frame[2] << 24) | (frame[1] << 16) | (frame[0] << 8)] as [int32_t]. *)
Definition read_i24 (data : list byte) (k : Z) : Z :=
  Int.i32 (Z.lor (Z.lor (Z.shiftl (byte_at data (k + 2)) 24)
                        (Z.shiftl (byte_at data (k + 1)) 16))
                 (Z.shiftl (byte_at data k) 8)).

Definition bytesPerSample (fmt : WaveFormat) : Z := Z.quot (m_bitsPerSample fmt) 8.
Definition bytesPerFrame (fmt : WaveFormat) : Z := bytesPerSample fmt * m_channels fmt.

(** [inputData + i * bytesPerFrame], the product taken in [UINT32]. *)
Definition frame_at (fmt : WaveFormat) (i : Z) : Z := Int.u32 (i * bytesPerFrame fmt).

Definition f32768 : spec_float := F32.of_Z 32768.
Definition f2147483648 : spec_float := F32.of_Z 2147483648.
Definition f32767 : spec_float := F32.of_Z 32767.

(** One iteration of the first loop of [NormalizeAudio]: the pair
    [(left, right)] of frame [i]. *)
Definition convert_frame (fmt : WaveFormat) (data : list byte) (i : Z)
  : spec_float * spec_float :=
  let frame := frame_at fmt i in
  if m_isFloat fmt && (m_bitsPerSample fmt =? 32) then
    let left := read_f32 data frame in
    (left, if 2 <=? m_channels fmt then read_f32 data (frame + 4) else left)
  else if m_bitsPerSample fmt =? 16 then
    let left := F32.div (F32.of_Z (read_i16 data frame)) f32768 in
    (left, if 2 <=? m_channels fmt
           then F32.div (F32.of_Z (read_i16 data (frame + 2))) f32768
           else left)
  else if (m_bitsPerSample fmt =? 32) && negb (m_isFloat fmt) then
    let left := F32.div (F32.of_Z (read_i32 data frame)) f2147483648 in
    (left, if 2 <=? m_channels fmt
           then F32.div (F32.of_Z (read_i32 data (frame + 4))) f2147483648
           else left)
  else if m_bitsPerSample fmt =? 24 then
    let left := F32.div (F32.of_Z (read_i24 data frame)) f2147483648 in
    (left, if 2 <=? m_channels fmt
           then F32.div (F32.of_Z (read_i24 data (frame + 3))) f2147483648
           else left)
  else (F32.zero, F32.zero).

(** *** Frame counts *)

(** [outputFrames] of [NormalizeAudio]. *)
Definition outputFrames (fmt : WaveFormat) (numFrames : Z) : Z :=
  if m_sampleRate fmt =? 48000 then numFrames
  else
    let ratio := F64.div (F64.of_Z 48000) (F64.of_Z (m_sampleRate fmt)) in
    Cast.size_t_of_double (F64.mul (F64.of_Z numFrames) ratio).

(** [outputFrames] of the silent branch of [CaptureLoop]:
    [numFrames * 48000.0 / m_sampleRate]. *)
Definition silentFrames (fmt : WaveFormat) (numFrames : Z) : Z :=
  if negb (m_sampleRate fmt =? 48000) then
    Cast.size_t_of_double
      (F64.div (F64.mul (F64.of_Z numFrames) (F64.of_Z 48000))
               (F64.of_Z (m_sampleRate fmt)))
  else numFrames.

(** *** NormalizeAudio *)

(** [m_resampleBuffer[k]].  The code does not check [k]: a read outside
    the vector is undefined there, and [F32.zero] here.  The reads of the
    two loops are inside the vector for [2 <= numFrames < 2 ^ 31]
    ([clamp_index_range], [resample_buffer_length]), and with one frame
    at a rate below 48000 Hz they are not ([src_index] is then
    [2 ^ 32 - 1]); the theorems on the resampled output are stated for
    [2 <= numFrames < 2 ^ 31]. *)
Definition float_at (buf : list spec_float) (k : Z) : spec_float :=
  Vec.get F32.zero buf k.

(** First loop: every frame converted to a stereo pair of floats, stored
    at [i * 2] and [i * 2 + 1] ([UINT32] arithmetic). *)
Definition convert_loop (fmt : WaveFormat) (data : list byte) (numFrames : Z)
    (buf : list spec_float) : list spec_float :=
  for_loop (Z.to_nat numFrames)
    (fun i buf =>
       let lr := convert_frame fmt data (Z.of_nat i) in
       Vec.set (Vec.set buf (Int.u32 (Z.of_nat i * 2)) (fst lr))
               (Int.u32 (Z.of_nat i * 2 + 1)) (snd lr))
    buf.

(** [clamp] to [-1, 1], scale by [32767.0f], convert to [int16_t]. *)
Definition to_int16 (sample : spec_float) : Z :=
  Cast.int16_of_float (F32.mul (F32.clamp sample F32.minus_one F32.one) f32767).

(** Direct conversion, taken when the native rate is 48000 Hz. *)
Definition direct_loop (rs : list spec_float) (outFrames : Z) (out : list Z)
  : list Z :=
  for_loop (Z.to_nat (Int.u64 (outFrames * 2)))
    (fun i out => Vec.set out (Z.of_nat i) (to_int16 (float_at rs (Z.of_nat i))))
    out.

(** [static_cast<double>(numFrames - 1) / (outputFrames - 1)] *)
Definition resample_ratio (numFrames outFrames : Z) : spec_float :=
  F64.div (F64.of_Z (Int.u32 (numFrames - 1))) (F64.of_Z (Int.u64 (outFrames - 1))).

Definition srcPos (ratio : spec_float) (i : Z) : spec_float :=
  F64.mul (F64.of_Z i) ratio.

(** The "clamp to valid range" step: source index and fraction used by
    the interpolation, given the unclamped index and fraction. *)
Definition clamp_index (numFrames : Z) (srcIndex : Z) (frac : spec_float)
  : Z * spec_float :=
  if Int.u32 (numFrames - 1) <=? srcIndex
  then (Int.u32 (numFrames - 2), F64.one)
  else (srcIndex, frac).

(** Source index and fraction of output frame [i]. *)
Definition src_index (numFrames : Z) (ratio : spec_float) (i : Z)
  : Z * spec_float :=
  let pos := srcPos ratio i in
  let srcIndex := Cast.size_t_of_double pos in
  let frac := F64.sub pos (F64.of_Z srcIndex) in
  clamp_index numFrames srcIndex frac.

(** [static_cast<float>(a * (1.0 - frac) + b * frac)] *)
Definition lerp (a b frac : spec_float) : spec_float :=
  F32.of_double
    (F64.add (F64.mul (F64.of_float a) (F64.sub F64.one frac))
             (F64.mul (F64.of_float b) frac)).

(** The pair of samples written for output frame [i]. *)
Definition resample_frame (rs : list spec_float) (numFrames : Z)
    (ratio : spec_float) (i : Z) : Z * Z :=
  let sf := src_index numFrames ratio i in
  let srcIndex := fst sf in
  let frac := snd sf in
  let left := lerp (float_at rs (Int.u64 (srcIndex * 2)))
                   (float_at rs (Int.u64 ((srcIndex + 1) * 2))) frac in
  let right := lerp (float_at rs (Int.u64 (srcIndex * 2 + 1)))
                    (float_at rs (Int.u64 ((srcIndex + 1) * 2 + 1))) frac in
  (to_int16 left, to_int16 right).

(** Linear interpolation, taken when the native rate is not 48000 Hz. *)
Definition resample_loop (rs : list spec_float) (numFrames outFrames : Z)
    (out : list Z) : list Z :=
  let ratio := resample_ratio numFrames outFrames in
  for_loop (Z.to_nat outFrames)
    (fun i out =>
       let lr := resample_frame rs numFrames ratio (Z.of_nat i) in
       Vec.set (Vec.set out (Int.u64 (Z.of_nat i * 2)) (fst lr))
               (Int.u64 (Z.of_nat i * 2 + 1)) (snd lr))
    out.

(** The two vectors that live across calls. *)
Record Buffers := {
  m_resampleBuffer : list spec_float;
  m_outputBuffer : list Z
}.

(** [AudioCapturer::NormalizeAudio(inputData, numFrames, m_outputBuffer)].
    [resize] keeps the elements already there.  The function is total
    here; the code has no defined result when an index leaves a vector,
    which [2 <= numFrames < 2 ^ 31] excludes (see [float_at]). *)
Definition NormalizeAudio (fmt : WaveFormat) (inputData : list byte)
    (numFrames : Z) (b : Buffers) : Buffers :=
  let rs := convert_loop fmt inputData numFrames
              (resize (Z.to_nat (Int.u32 (numFrames * 2))) F32.zero
                      (m_resampleBuffer b)) in
  let outFrames := outputFrames fmt numFrames in
  let out0 := resize (Z.to_nat (Int.u64 (outFrames * 2))) 0 (m_outputBuffer b) in
  {| m_resampleBuffer := rs;
     m_outputBuffer :=
       if m_sampleRate fmt =? 48000 then direct_loop rs outFrames out0
       else resample_loop rs numFrames outFrames out0 |}.

(** The silent branch of [CaptureLoop]: [resize], then [std::fill] with 0. *)
Definition silence (fmt : WaveFormat) (numFrames : Z) (b : Buffers) : Buffers :=
  let n := Z.to_nat (Int.u64 (silentFrames fmt numFrames * 2)) in
  {| m_resampleBuffer := m_resampleBuffer b;
     m_outputBuffer := replicate n 0 |}.

(** *** Packets *)

(** Modelled from the spec: [AudioPacketHeader] is declared in
    [Protocol.h], which is not among the sources.  The spec gives its
    fields, [frameCount : uint32] and [timestampMs : uint64], and the call
    site gives the constructor's argument order; its size in bytes is
    left as the parameter [sizeof_header] below. *)
Record AudioPacketHeader := {
  frameCount : Z;
  timestampMs : Z
}.

(** One invocation of [m_callback(packet.data(), packet.size(), timestamp)].
    The packet is the header followed by the samples of the output buffer. *)
Record CallbackCall := {
  packet_header : AudioPacketHeader;
  packet_samples : list Z;
  arg_size : Z;
  arg_timestamp : Z
}.

(** The capturer.  Null-able handles are booleans (non-null or not); the
    audio client also records whether [IAudioClient::Initialize] has
    succeeded on it. *)
Record AudioCapturer := {
  m_running : bool;
  m_captureThread : bool;            (* joinable *)
  m_deviceEnumerator : bool;
  m_device : bool;
  m_audioClient : option bool;       (* null, or a client and "initialized" *)
  m_captureClient : bool;
  format : WaveFormat;
  buffers : Buffers;
  m_callback : bool
}.

(** The default-constructed capturer. *)
Definition fresh : AudioCapturer :=
  {| m_running := false; m_captureThread := false;
     m_deviceEnumerator := false; m_device := false;
     m_audioClient := None; m_captureClient := false;
     format := {| m_isFloat := false; m_bitsPerSample := 0;
                  m_channels := 0; m_sampleRate := 0 |};
     buffers := {| m_resampleBuffer := []; m_outputBuffer := [] |};
     m_callback := false |}.

Definition with_running (b : bool) (c : AudioCapturer) : AudioCapturer :=
  {| m_running := b; m_captureThread := m_captureThread c;
     m_deviceEnumerator := m_deviceEnumerator c; m_device := m_device c;
     m_audioClient := m_audioClient c; m_captureClient := m_captureClient c;
     format := format c; buffers := buffers c; m_callback := m_callback c |}.

Definition with_callback (b : bool) (c : AudioCapturer) : AudioCapturer :=
  {| m_running := m_running c; m_captureThread := m_captureThread c;
     m_deviceEnumerator := m_deviceEnumerator c; m_device := m_device c;
     m_audioClient := m_audioClient c; m_captureClient := m_captureClient c;
     format := format c; buffers := buffers c; m_callback := b |}.

Definition with_thread (b : bool) (c : AudioCapturer) : AudioCapturer :=
  {| m_running := m_running c; m_captureThread := b;
     m_deviceEnumerator := m_deviceEnumerator c; m_device := m_device c;
     m_audioClient := m_audioClient c; m_captureClient := m_captureClient c;
     format := format c; buffers := buffers c; m_callback := m_callback c |}.

Definition with_buffers (b : Buffers) (c : AudioCapturer) : AudioCapturer :=
  {| m_running := m_running c; m_captureThread := m_captureThread c;
     m_deviceEnumerator := m_deviceEnumerator c; m_device := m_device c;
     m_audioClient := m_audioClient c; m_captureClient := m_captureClient c;
     format := format c; buffers := b; m_callback := m_callback c |}.

(** What the system answers during [Initialize]. *)
Record AudioSetup := {
  enumerator_ok : bool;        (* CoCreateInstance *)
  endpoint_ok : bool;          (* GetDefaultAudioEndpoint *)
  activate_ok : bool;          (* IMMDevice::Activate *)
  mix_format : option WaveFormat;  (* GetMixFormat *)
  client_init_ok : bool;       (* IAudioClient::Initialize *)
  service_ok : bool            (* GetService(IAudioCaptureClient) *)
}.

(** [AudioCapturer::Initialize] *)
Definition Initialize (os : AudioSetup) (c : AudioCapturer)
  : bool * AudioCapturer :=
  let mk enum dev client cap fmt :=
    {| m_running := m_running c; m_captureThread := m_captureThread c;
       m_deviceEnumerator := enum; m_device := dev;
       m_audioClient := client; m_captureClient := cap;
       format := fmt; buffers := buffers c; m_callback := m_callback c |} in
  if negb (enumerator_ok os) then
    (false, mk false (m_device c) (m_audioClient c) (m_captureClient c) (format c))
  else if negb (endpoint_ok os) then
    (false, mk true false (m_audioClient c) (m_captureClient c) (format c))
  else if negb (activate_ok os) then
    (false, mk true true None (m_captureClient c) (format c))
  else
    match mix_format os with
    | None => (false, mk true true (Some false) (m_captureClient c) (format c))
    | Some fmt =>
        if negb (client_init_ok os) then
          (false, mk true true (Some false) (m_captureClient c) fmt)
        else if negb (service_ok os) then
          (false, mk true true (Some true) false fmt)
        else (true, mk true true (Some true) true fmt)
    end.

(** [AudioCapturer::Start(callback)]: the capturer afterwards and whether
    the capture thread was spawned.  [start_ok] is the answer of
    [IAudioClient::Start] on an initialized client; on a client that was
    never initialized the call fails. *)
Definition Start (start_ok : bool) (c : AudioCapturer)
  : Outcome (AudioCapturer * bool) :=
  if m_running c then Done (c, false)
  else
    let c1 := with_running true (with_callback true c) in
    match m_audioClient c1 with
    | None => NullDereference
    | Some initialized =>
        if negb (initialized && start_ok) then Done (with_running false c1, false)
        else Done (with_thread true c1, true)
    end.

(** A buffer returned by [GetBuffer], with the timestamp computed for it. *)
Record CaptureBuffer := {
  data : list byte;
  numFrames : Z;
  silent : bool;
  timestamp : Z
}.

(** The body of the inner loop of [CaptureLoop] after a successful
    [GetBuffer]: the new capturer and the callback invocation, if any. *)
Definition on_buffer (sizeof_header : Z) (c : AudioCapturer) (p : CaptureBuffer)
  : AudioCapturer * option CallbackCall :=
  let b := if silent p then silence (format c) (numFrames p) (buffers c)
           else NormalizeAudio (format c) (data p) (numFrames p) (buffers c) in
  let c' := with_buffers b c in
  let out := m_outputBuffer b in
  if m_callback c && negb (bool_decide (out = [])) then
    let header := {| frameCount := Int.u32 (Z.of_nat (length out) / 2);
                     timestampMs := timestamp p |} in
    let totalSize := Int.u64 (sizeof_header + Int.u64 (Z.of_nat (length out) * 2)) in
    (c', Some {| packet_header := header;
                 packet_samples := out;
                 arg_size := totalSize;
                 arg_timestamp := timestamp p |})
  else (c', None).

(** *** Reference values and sample data *)

(** Spec: [round(nativeFrames * 48000 / nativeRate)], the integer nearest
    to the exact ratio (halves upward). *)
Definition spec_outputFrames (nativeFrames nativeRate : Z) : Z :=
  (2 * (nativeFrames * 48000) + nativeRate) / (2 * nativeRate).

(** Frames in an interleaved stereo buffer. *)
Definition frames_in (out : list Z) : Z := Z.of_nat (length out) / 2.

Definition no_buffers : Buffers :=
  {| m_resampleBuffer := []; m_outputBuffer := [] |}.

Definition pcm16 (channels rate : Z) : WaveFormat :=
  {| m_isFloat := false; m_bitsPerSample := 16;
     m_channels := channels; m_sampleRate := rate |}.

Definition four_mono_frames : list byte :=
  [x00; x40; x00; x20; x00; xc0; xff; x7f].

Definition ready_capturer : AudioCapturer :=
  {| m_running := true; m_captureThread := true;
     m_deviceEnumerator := true; m_device := true;
     m_audioClient := Some true; m_captureClient := true;
     format := pcm16 1 44100; buffers := no_buffers; m_callback := true |}.

Definition four_frames_at_7ms : CaptureBuffer :=
  {| data := four_mono_frames; numFrames := 4; silent := false; timestamp := 7 |}.

End Audio.

(** ** ColorConverter.cpp *)

Module Color.

Record GpuColorConverter := {
  m_width : Z;
  m_height : Z;
  m_nv12Size : Z;
  m_nv12Buffer : list byte
}.

(** The default-constructed converter. *)
Definition fresh : GpuColorConverter :=
  {| m_width := 0; m_height := 0; m_nv12Size := 0; m_nv12Buffer := [] |}.

(** What the device answers during [Initialize]. *)
Record DeviceSetup := {
  video_processor_ok : bool;   (* CreateVideoProcessor *)
  output_textures_ok : bool    (* CreateOutputTextures *)
}.

(** [static_cast<size_t>(width) * height * 3 / 2] *)
Definition nv12_size (width height : Z) : Z :=
  Int.u64 (Int.u64 (Int.u64 width * Int.u64 height) * 3) / 2.

(** [GpuColorConverter::Initialize(device, width, height)] *)
Definition Initialize (dev : DeviceSetup) (width height : Z)
    (c : GpuColorConverter) : bool * GpuColorConverter :=
  let c' := {| m_width := width;
               m_height := height;
               m_nv12Size := nv12_size width height;
               m_nv12Buffer := resize (Z.to_nat (nv12_size width height)) x00
                                      (m_nv12Buffer c) |} in
  if negb (video_processor_ok dev) then (false, c')
  else if negb (output_textures_ok dev) then (false, c')
  else (true, c').

(** What the device answers during one [Convert]: a failure of one of the
    three fallible calls, or the mapped staging texture. *)
Inductive DeviceResult :=
  | InputViewFailed
  | BltFailed
  | MapFailed
  | Mapped (pData : list byte) (RowPitch : Z).

(** [memcpy(dst + d, src + s, n)] on a destination vector. *)
Definition memcpy (dst : list byte) (d : Z) (src : list byte) (s : Z) (n : Z)
  : list byte :=
  for_loop (Z.to_nat n)
    (fun k dst => Vec.set dst (d + Z.of_nat k) (Vec.get x00 src (s + Z.of_nat k)))
    dst.

(** The two plane copies of [Convert].  The destination offsets
    [y * m_width] and [m_width * m_height] are products of [int] in the
    code; they are the products written here as long as
    [m_width * m_height < 2 ^ 31], which [main] guarantees (at most
    4096 x 4096) and the theorem on the layout assumes. *)
Definition copy_planes (c : GpuColorConverter) (src : list byte) (RowPitch : Z)
  : list byte :=
  let w := m_width c in
  let h := m_height c in
  let dst :=
    for_loop (Z.to_nat h)
      (fun y dst => memcpy dst (Z.of_nat y * w) src (Int.u32 (Z.of_nat y * RowPitch)) w)
      (m_nv12Buffer c) in
  let uvSrc := Int.u32 (RowPitch * h) in
  let uvDst := w * h in
  let uvHeight := Z.quot h 2 in
  for_loop (Z.to_nat uvHeight)
    (fun y dst =>
       memcpy dst (uvDst + Z.of_nat y * w) src (uvSrc + Int.u32 (Z.of_nat y * RowPitch)) w)
    dst.

(** [GpuColorConverter::Convert]: whether the returned pointer is non-null
    ([m_nv12Buffer.data()]), and the converter afterwards. *)
Definition Convert (r : DeviceResult) (c : GpuColorConverter)
  : bool * GpuColorConverter :=
  match r with
  | InputViewFailed | BltFailed | MapFailed => (false, c)
  | Mapped pData RowPitch =>
      (true, {| m_width := m_width c;
                m_height := m_height c;
                m_nv12Size := m_nv12Size c;
                m_nv12Buffer := copy_planes c pData RowPitch |})
  end.

(** One invocation of the frame callback:
    [m_callback(nv12Data, m_colorConverter->GetNV12Size(), timestamp)].
    The bytes are the [size] bytes that start at [nv12Data]. *)
Record VideoFrame := {
  frame_bytes : list byte;
  frame_size : Z;
  frame_timestamp : Z
}.

(** [Convert] followed by the guarded callback invocation, as both video
    capturers do it. *)
Definition convert_and_deliver (has_callback : bool) (r : DeviceResult)
    (timestamp : Z) (c : GpuColorConverter)
  : GpuColorConverter * option VideoFrame :=
  let '(nv12Data, c') := Convert r c in
  if nv12Data && has_callback then
    (c', Some {| frame_bytes := take (Z.to_nat (m_nv12Size c')) (m_nv12Buffer c');
                 frame_size := m_nv12Size c';
                 frame_timestamp := timestamp |})
  else (c', None).

(** A run of conversions on one converter: the frames delivered. *)
Fixpoint deliveries (has_callback : bool) (rs : list (DeviceResult * Z))
    (c : GpuColorConverter) : list VideoFrame :=
  match rs with
  | [] => []
  | (r, ts) :: rs' =>
      let '(c', f) := convert_and_deliver has_callback r ts c in
      match f with
      | Some fr => fr :: deliveries has_callback rs' c'
      | None => deliveries has_callback rs' c'
      end
  end.

(** The converter holds a buffer of [m_nv12Size] bytes, and that size is
    the one computed from the dimensions given to [Initialize]. *)
Definition sized (width height : Z) (c : GpuColorConverter) : Prop :=
  m_nv12Size c = nv12_size width height /\
  length (m_nv12Buffer c) = Z.to_nat (m_nv12Size c).

Definition working_device : DeviceSetup :=
  {| video_processor_ok := true; output_textures_ok := true |}.

(** A mapped 4 x 2 NV12 staging texture with a row pitch of 8 bytes. *)
Definition mapped_4x2 : DeviceResult :=
  Mapped [x10; x11; x12; x13; x00; x00; x00; x00;
          x14; x15; x16; x17; x00; x00; x00; x00;
          x80; x81; x82; x83; x00; x00; x00; x00] 8.

End Color.

(** ** Textures *)

Module Texture.

(** A 2D BGRA texture: its size and its texels. *)
Record Texture2D := {
  Width : Z;
  Height : Z;
  pixels : Z -> Z -> Z
}.

(** The texel at column [x] and row [y], if there is one. *)
Definition texel (t : Texture2D) (x y : Z) : option Z :=
  if (0 <=? x) && (x <? Width t) && (0 <=? y) && (y <? Height t)
  then Some (pixels t x y) else None.

(** [CreateTexture2D] without initial data. *)
Definition blank (w h : Z) : Texture2D :=
  {| Width := w; Height := h; pixels := fun _ _ => 0 |}.

Record D3D11_BOX := {
  left : Z; top : Z; front : Z;
  right : Z; bottom : Z; back : Z
}.

(** The box lies within the source and its image within the destination. *)
Definition box_fits (dst : Texture2D) (dstX dstY : Z) (src : Texture2D)
    (b : D3D11_BOX) : bool :=
  (0 <=? left b) && (left b <=? right b) && (right b <=? Width src)
  && (0 <=? top b) && (top b <=? bottom b) && (bottom b <=? Height src)
  && (0 <=? dstX) && (dstX + (right b - left b) <=? Width dst)
  && (0 <=? dstY) && (dstY + (bottom b - top b) <=? Height dst).

(** [ID3D11DeviceContext::CopySubresourceRegion(dst, 0, dstX, dstY, 0,
    src, 0, &box)].  Direct3D leaves the call undefined when the box
    exceeds the source or its image exceeds the destination; the model
    takes the "no copy" behaviour its documentation lists. *)
Definition CopySubresourceRegion (dst : Texture2D) (dstX dstY : Z)
    (src : Texture2D) (b : D3D11_BOX) : Texture2D :=
  if box_fits dst dstX dstY src b then
    {| Width := Width dst;
       Height := Height dst;
       pixels := fun x y =>
         if (dstX <=? x) && (x <? dstX + (right b - left b))
            && (dstY <=? y) && (y <? dstY + (bottom b - top b))
         then pixels src (x - dstX + left b) (y - dstY + top b)
         else pixels dst x y |}
  else dst.

(** A fresh texture with the description of [src], then [CopyResource]. *)
Definition copy_of (src : Texture2D) : Texture2D :=
  {| Width := Width src; Height := Height src; pixels := pixels src |}.

(** [srcBox = { 0, 0, 0, (UINT)m_width, (UINT)m_height, 1 }] *)
Definition srcBox (m_width m_height : Z) : D3D11_BOX :=
  {| left := 0; top := 0; front := 0;
     right := Int.u32 m_width; bottom := Int.u32 m_height; back := 1 |}.

(** [frame] is the [w] x [h] region of [native] that starts at its
    top-left corner, texel for texel. *)
Definition top_left_crop (w h : Z) (native frame : Texture2D) : Prop :=
  Width frame = w /\ Height frame = h /\
  forall x y, 0 <= x < w -> 0 <= y < h -> texel frame x y = texel native x y.

End Texture.

(** ** DisplayCapturer.cpp *)

Module Display.
Import Texture.

Record DisplayCapturer := {
  m_width : Z;
  m_height : Z;
  m_fps : Z;
  m_running : bool;
  m_device : bool;                   (* with m_context *)
  m_duplication : bool;
  m_output : bool;
  m_scaledTexture : option Texture2D;
  m_needsScaling : bool;
  m_colorConverter : option Color.GpuColorConverter;
  m_callback : bool
}.

(** The default-constructed capturer. *)
Definition fresh : DisplayCapturer :=
  {| m_width := 0; m_height := 0; m_fps := 30; m_running := false;
     m_device := false; m_duplication := false; m_output := false;
     m_scaledTexture := None; m_needsScaling := false;
     m_colorConverter := None; m_callback := false |}.

Definition with_running (b : bool) (c : DisplayCapturer) : DisplayCapturer :=
  {| m_width := m_width c; m_height := m_height c; m_fps := m_fps c;
     m_running := b; m_device := m_device c;
     m_duplication := m_duplication c; m_output := m_output c;
     m_scaledTexture := m_scaledTexture c; m_needsScaling := m_needsScaling c;
     m_colorConverter := m_colorConverter c; m_callback := m_callback c |}.

Definition with_callback (b : bool) (c : DisplayCapturer) : DisplayCapturer :=
  {| m_width := m_width c; m_height := m_height c; m_fps := m_fps c;
     m_running := m_running c; m_device := m_device c;
     m_duplication := m_duplication c; m_output := m_output c;
     m_scaledTexture := m_scaledTexture c; m_needsScaling := m_needsScaling c;
     m_colorConverter := m_colorConverter c; m_callback := b |}.

Definition with_duplication (b : bool) (c : DisplayCapturer) : DisplayCapturer :=
  {| m_width := m_width c; m_height := m_height c; m_fps := m_fps c;
     m_running := m_running c; m_device := m_device c;
     m_duplication := b; m_output := m_output c;
     m_scaledTexture := m_scaledTexture c; m_needsScaling := m_needsScaling c;
     m_colorConverter := m_colorConverter c; m_callback := m_callback c |}.

Definition with_scaledTexture (t : option Texture2D) (c : DisplayCapturer)
  : DisplayCapturer :=
  {| m_width := m_width c; m_height := m_height c; m_fps := m_fps c;
     m_running := m_running c; m_device := m_device c;
     m_duplication := m_duplication c; m_output := m_output c;
     m_scaledTexture := t; m_needsScaling := m_needsScaling c;
     m_colorConverter := m_colorConverter c; m_callback := m_callback c |}.

Definition with_colorConverter (k : option Color.GpuColorConverter)
    (c : DisplayCapturer) : DisplayCapturer :=
  {| m_width := m_width c; m_height := m_height c; m_fps := m_fps c;
     m_running := m_running c; m_device := m_device c;
     m_duplication := m_duplication c; m_output := m_output c;
     m_scaledTexture := m_scaledTexture c; m_needsScaling := m_needsScaling c;
     m_colorConverter := k; m_callback := m_callback c |}.

(** The calls to the duplication API, in the order they are made. *)
Inductive OsCall := DuplicateOutput | AcquireFrame | ReleaseFrame.

(** [DisplayCapturer::ReinitializeDuplication]; [dup_ok] is the answer of
    [IDXGIOutput1::DuplicateOutput]. *)
Definition ReinitializeDuplication (dup_ok : bool) (c : DisplayCapturer)
  : Outcome (bool * DisplayCapturer) :=
  let c1 := with_duplication false c in
  if negb (m_output c1) then NullDereference
  else if negb dup_ok then Done (false, c1)
  else Done (true, with_duplication true c1).

(** What the system answers during [Initialize]. *)
Record DisplaySetup := {
  create_device_ok : bool;     (* D3D11CreateDevice *)
  dxgi_device_ok : bool;       (* QueryInterface(IDXGIDevice) *)
  adapter_ok : bool;           (* GetAdapter *)
  output_found : bool;         (* EnumOutputs reaches displayIndex *)
  output1_ok : bool;           (* QueryInterface(IDXGIOutput1) *)
  nativeWidth : Z;
  nativeHeight : Z;
  scaled_texture_ok : bool;    (* CreateTexture2D *)
  duplicate_output_ok : bool;  (* DuplicateOutput *)
  converter_setup : Color.DeviceSetup
}.

(** [DisplayCapturer::Initialize(displayIndex, width, height, fps)] *)
Definition Initialize (os : DisplaySetup) (width height fps : Z)
    (c : DisplayCapturer) : bool * DisplayCapturer :=
  let mk dev out scaled needs :=
    {| m_width := width; m_height := height; m_fps := fps;
       m_running := m_running c; m_device := dev;
       m_duplication := m_duplication c; m_output := out;
       m_scaledTexture := scaled; m_needsScaling := needs;
       m_colorConverter := m_colorConverter c; m_callback := m_callback c |} in
  let c0 := mk (m_device c) (m_output c) (m_scaledTexture c) (m_needsScaling c) in
  if negb (create_device_ok os) then (false, c0)
  else
    let c1 := mk true (m_output c) (m_scaledTexture c) (m_needsScaling c) in
    if negb (dxgi_device_ok os) then (false, c1)
    else if negb (adapter_ok os) then (false, c1)
    else if negb (output_found os) then (false, c1)
    else if negb (output1_ok os) then (false, c1)
    else
      let differs := negb (width =? nativeWidth os) || negb (height =? nativeHeight os) in
      let c2 := mk true true (m_scaledTexture c) (differs || m_needsScaling c) in
      if differs && negb (scaled_texture_ok os) then (false, c2)
      else
        let c3 := if differs
                  then with_scaledTexture
                         (Some (blank (Int.u32 width) (Int.u32 height))) c2
                  else c2 in
        match ReinitializeDuplication (duplicate_output_ok os) c3 with
        | NullDereference => (false, c3)
        | Done (false, c4) => (false, c4)
        | Done (true, c4) =>
            let '(ok, k) := Color.Initialize (converter_setup os) width height
                                             Color.fresh in
            (ok, with_colorConverter (Some k) c4)
        end.

(** [DisplayCapturer::Start(callback)]: the capturer afterwards and whether
    the capture thread was spawned. *)
Definition Start (c : DisplayCapturer) : Outcome (DisplayCapturer * bool) :=
  if m_running c then Done (c, false)
  else Done (with_running true (with_callback true c), true).

(** [DisplayCapturer::Stop] *)
Definition Stop (c : DisplayCapturer) : DisplayCapturer := with_running false c.

(** The answer of [IDXGIOutputDuplication::AcquireNextFrame]; an acquired
    frame carries the desktop texture, unless the [QueryInterface] for it
    fails. *)
Inductive AcquireResult :=
  | WaitTimeout
  | AccessLost
  | AcquireFailed
  | Acquired (desktopTexture : option Texture2D).

(** What the system answers during one tick of the capture loop. *)
Record TickOS := {
  duplicate_ok : bool;             (* DuplicateOutput, if it is called *)
  acquire : AcquireResult;         (* AcquireNextFrame, if it is called *)
  copy_texture_ok : bool;          (* CreateTexture2D of the copy *)
  convert : Color.DeviceResult;    (* the device during Convert *)
  now : Z                          (* the timestamp, in ms *)
}.

(** [DisplayCapturer::AcquireNextFrame(outTexture)]: the API calls made,
    and the texture handed out (when the function returns true) with the
    capturer afterwards. *)
Definition AcquireNextFrame (os : TickOS) (c : DisplayCapturer)
  : list OsCall * Outcome (option Texture2D * DisplayCapturer) :=
  let reinit :=
    if negb (m_duplication c) then
      match ReinitializeDuplication (duplicate_ok os) c with
      | NullDereference => ([], NullDereference)
      | Done r => ([DuplicateOutput], Done r)
      end
    else ([], Done (true, c)) in
  match reinit with
  | (calls, NullDereference) => (calls, NullDereference)
  | (calls, Done (false, c1)) => (calls, Done (None, c1))
  | (calls, Done (true, c1)) =>
      match acquire os with
      | WaitTimeout => (calls ++ [AcquireFrame], Done (None, c1))
      | AccessLost =>
          (calls ++ [AcquireFrame], Done (None, with_duplication false c1))
      | AcquireFailed => (calls ++ [AcquireFrame], Done (None, c1))
      | Acquired None =>
          (calls ++ [AcquireFrame; ReleaseFrame], Done (None, c1))
      | Acquired (Some desktopTexture) =>
          if m_needsScaling c1 then
            match m_scaledTexture c1 with
            | None => (calls ++ [AcquireFrame], NullDereference)
            | Some scaled =>
                let scaled' :=
                  CopySubresourceRegion scaled 0 0 desktopTexture
                    (srcBox (m_width c1) (m_height c1)) in
                (calls ++ [AcquireFrame; ReleaseFrame],
                 Done (Some scaled', with_scaledTexture (Some scaled') c1))
            end
          else if negb (copy_texture_ok os) then
            (calls ++ [AcquireFrame; ReleaseFrame], Done (None, c1))
          else
            (calls ++ [AcquireFrame; ReleaseFrame],
             Done (Some (copy_of desktopTexture), c1))
      end
  end.

(** One iteration of [CaptureLoop] up to the frame-rate limiting: the API
    calls made, the frame handed to the callback, the capturer afterwards. *)
Definition tick (os : TickOS) (c : DisplayCapturer)
  : list OsCall * Outcome (option Color.VideoFrame * DisplayCapturer) :=
  match AcquireNextFrame os c with
  | (calls, NullDereference) => (calls, NullDereference)
  | (calls, Done (None, c1)) => (calls, Done (None, c1))
  | (calls, Done (Some _, c1)) =>
      match m_colorConverter c1 with
      | None => (calls, NullDereference)
      | Some k =>
          let '(k', f) := Color.convert_and_deliver (m_callback c1)
                            (convert os) (now os) k in
          (calls, Done (f, with_colorConverter (Some k') c1))
      end
  end.

(** How often a tick calls [DuplicateOutput]. *)
Fixpoint recreations (calls : list OsCall) : nat :=
  match calls with
  | [] => O
  | DuplicateOutput :: rest => Datatypes.S (recreations rest)
  | _ :: rest => recreations rest
  end.

(** The capturers of a session: what a successful [Initialize] at
    [width] x [height] on a new object returns, and what [Start], [Stop]
    and the ticks of the capture loop make of it. *)
Inductive session (os : DisplaySetup) (width height : Z)
  : DisplayCapturer -> Prop :=
  | session_Initialize fps c :
      Initialize os width height fps fresh = (true, c) ->
      session os width height c
  | session_Start c c' spawned :
      session os width height c ->
      Start c = Done (c', spawned) ->
      session os width height c'
  | session_Stop c :
      session os width height c ->
      session os width height (Stop c)
  | session_tick tos c calls frame c' :
      session os width height c ->
      tick tos c = (calls, Done (frame, c')) ->
      session os width height c'.

(** The requested size is not the native one. *)
Definition differs (os : DisplaySetup) (width height : Z) : bool :=
  negb (width =? nativeWidth os) || negb (height =? nativeHeight os).

(** What holds of every capturer of a session. *)
Definition ready (os : DisplaySetup) (width height : Z) (c : DisplayCapturer)
  : Prop :=
  m_width c = width /\ m_height c = height /\
  m_output c = true /\
  (exists k, m_colorConverter c = Some k /\ Color.sized width height k) /\
  m_needsScaling c = differs os width height /\
  (differs os width height = true ->
   exists scaled, m_scaledTexture c = Some scaled /\
                  Width scaled = Int.u32 width /\
                  Height scaled = Int.u32 height).

End Display.

(** ** WindowCapturer.cpp *)

Module Window.
Import Texture.

Record WindowCapturer := {
  m_width : Z;
  m_height : Z;
  m_fps : Z;
  m_running : bool;
  m_device : bool;                   (* with m_context *)
  m_captureItem : bool;
  m_framePool : bool;
  m_session : bool;
  m_scaledTexture : option Texture2D;
  m_needsScaling : bool;
  m_colorConverter : option Color.GpuColorConverter;
  m_callback : bool
}.

(** The default-constructed capturer. *)
Definition fresh : WindowCapturer :=
  {| m_width := 0; m_height := 0; m_fps := 30; m_running := false;
     m_device := false; m_captureItem := false; m_framePool := false;
     m_session := false; m_scaledTexture := None; m_needsScaling := false;
     m_colorConverter := None; m_callback := false |}.

Definition with_running (b : bool) (c : WindowCapturer) : WindowCapturer :=
  {| m_width := m_width c; m_height := m_height c; m_fps := m_fps c;
     m_running := b; m_device := m_device c;
     m_captureItem := m_captureItem c; m_framePool := m_framePool c;
     m_session := m_session c; m_scaledTexture := m_scaledTexture c;
     m_needsScaling := m_needsScaling c;
     m_colorConverter := m_colorConverter c; m_callback := m_callback c |}.

Definition with_callback (b : bool) (c : WindowCapturer) : WindowCapturer :=
  {| m_width := m_width c; m_height := m_height c; m_fps := m_fps c;
     m_running := m_running c; m_device := m_device c;
     m_captureItem := m_captureItem c; m_framePool := m_framePool c;
     m_session := m_session c; m_scaledTexture := m_scaledTexture c;
     m_needsScaling := m_needsScaling c;
     m_colorConverter := m_colorConverter c; m_callback := b |}.

Definition with_scaledTexture (t : option Texture2D) (c : WindowCapturer)
  : WindowCapturer :=
  {| m_width := m_width c; m_height := m_height c; m_fps := m_fps c;
     m_running := m_running c; m_device := m_device c;
     m_captureItem := m_captureItem c; m_framePool := m_framePool c;
     m_session := m_session c; m_scaledTexture := t;
     m_needsScaling := m_needsScaling c;
     m_colorConverter := m_colorConverter c; m_callback := m_callback c |}.

Definition with_colorConverter (k : option Color.GpuColorConverter)
    (c : WindowCapturer) : WindowCapturer :=
  {| m_width := m_width c; m_height := m_height c; m_fps := m_fps c;
     m_running := m_running c; m_device := m_device c;
     m_captureItem := m_captureItem c; m_framePool := m_framePool c;
     m_session := m_session c; m_scaledTexture := m_scaledTexture c;
     m_needsScaling := m_needsScaling c;
     m_colorConverter := k; m_callback := m_callback c |}.

(** What the system answers during [Initialize]. *)
Record WindowSetup := {
  is_supported : bool;         (* GraphicsCaptureSession::IsSupported *)
  create_device_ok : bool;     (* D3D11CreateDevice *)
  capture_item_ok : bool;      (* CreateForWindow gives an item *)
  windowWidth : Z;
  windowHeight : Z;
  scaled_texture_ok : bool;    (* CreateTexture2D *)
  converter_setup : Color.DeviceSetup
}.

(** [WindowCapturer::Initialize(hwnd, width, height, fps)] *)
Definition Initialize (os : WindowSetup) (width height fps : Z)
    (c : WindowCapturer) : bool * WindowCapturer :=
  if negb (is_supported os) then (false, c)
  else
    let mk dev item pool session scaled needs :=
      {| m_width := width; m_height := height; m_fps := fps;
         m_running := m_running c; m_device := dev;
         m_captureItem := item; m_framePool := pool; m_session := session;
         m_scaledTexture := scaled; m_needsScaling := needs;
         m_colorConverter := m_colorConverter c; m_callback := m_callback c |} in
    if negb (create_device_ok os) then
      (false, mk (m_device c) (m_captureItem c) (m_framePool c) (m_session c)
                 (m_scaledTexture c) (m_needsScaling c))
    else if negb (capture_item_ok os) then
      (false, mk true false (m_framePool c) (m_session c)
                 (m_scaledTexture c) (m_needsScaling c))
    else
      let differs := negb (width =? windowWidth os) || negb (height =? windowHeight os) in
      let needs := differs || m_needsScaling c in
      if differs && negb (scaled_texture_ok os) then
        (false, mk true true (m_framePool c) (m_session c) (m_scaledTexture c) needs)
      else
        let scaled := if differs
                      then Some (blank (Int.u32 width) (Int.u32 height))
                      else m_scaledTexture c in
        let c1 := mk true true true true scaled needs in
        let '(ok, k) := Color.Initialize (converter_setup os) width height
                                         Color.fresh in
        (ok, with_colorConverter (Some k) c1).

(** [WindowCapturer::Start(callback)]: the capturer afterwards and whether
    capture was started. *)
Definition Start (c : WindowCapturer) : Outcome (WindowCapturer * bool) :=
  if m_running c then Done (c, false)
  else
    let c1 := with_running true (with_callback true c) in
    if negb (m_session c1) then NullDereference
    else Done (c1, true).

(** [WindowCapturer::Stop] *)
Definition Stop (c : WindowCapturer) : WindowCapturer :=
  if negb (m_running c) then c
  else
    {| m_width := m_width c; m_height := m_height c; m_fps := m_fps c;
       m_running := false; m_device := m_device c;
       m_captureItem := false; m_framePool := false; m_session := false;
       m_scaledTexture := m_scaledTexture c;
       m_needsScaling := m_needsScaling c;
       m_colorConverter := m_colorConverter c; m_callback := m_callback c |}.

(** What the system answers during one [OnFrameArrived]. *)
Record FrameOS := {
  next_frame : option (option Texture2D);  (* TryGetNextFrame, then its texture *)
  copy_texture_ok : bool;                  (* CreateTexture2D of the copy *)
  convert : Color.DeviceResult;
  now : Z
}.

(** The first half of [WindowCapturer::OnFrameArrived]: the texture handed
    to the color converter ([processTexture], possibly null), if the
    handler gets that far, and the capturer afterwards. *)
Definition process_texture (os : FrameOS) (c : WindowCapturer)
  : Outcome (option (option Texture2D) * WindowCapturer) :=
  if negb (m_running c) then Done (None, c)
  else
    match next_frame os with
    | None => Done (None, c)
    | Some None => Done (None, c)
    | Some (Some texture) =>
        if m_needsScaling c then
          match m_scaledTexture c with
          | None => NullDereference
          | Some scaled =>
              let scaled' :=
                CopySubresourceRegion scaled 0 0 texture
                  (srcBox (m_width c) (m_height c)) in
              Done (Some (Some scaled'), with_scaledTexture (Some scaled') c)
          end
        else if negb (copy_texture_ok os) then
          (* the result of CreateTexture2D is not checked: CopyResource
             and Convert receive a null texture *)
          Done (Some None, c)
        else Done (Some (Some (copy_of texture)), c)
    end.

(** [WindowCapturer::OnFrameArrived]: the frame handed to the callback and
    the capturer afterwards. *)
Definition OnFrameArrived (os : FrameOS) (c : WindowCapturer)
  : Outcome (option Color.VideoFrame * WindowCapturer) :=
  match process_texture os c with
  | NullDereference => NullDereference
  | Done (None, c1) => Done (None, c1)
  | Done (Some _, c1) =>
      match m_colorConverter c1 with
      | None => NullDereference
      | Some k =>
          let '(k', f) := Color.convert_and_deliver (m_callback c1)
                            (convert os) (now os) k in
          Done (f, with_colorConverter (Some k') c1)
      end
  end.

(** The capturers of a session, as for the display capturer. *)
Inductive session (os : WindowSetup) (width height : Z)
  : WindowCapturer -> Prop :=
  | session_Initialize fps c :
      Initialize os width height fps fresh = (true, c) ->
      session os width height c
  | session_Start c c' started :
      session os width height c ->
      Start c = Done (c', started) ->
      session os width height c'
  | session_Stop c :
      session os width height c ->
      session os width height (Stop c)
  | session_frame fos c frame c' :
      session os width height c ->
      OnFrameArrived fos c = Done (frame, c') ->
      session os width height c'.

(** The requested size is not that of the window. *)
Definition differs (os : WindowSetup) (width height : Z) : bool :=
  negb (width =? windowWidth os) || negb (height =? windowHeight os).

(** What holds of every capturer of a session. *)
Definition ready (os : WindowSetup) (width height : Z) (c : WindowCapturer)
  : Prop :=
  m_width c = width /\ m_height c = height /\
  (exists k, m_colorConverter c = Some k /\ Color.sized width height k) /\
  m_needsScaling c = differs os width height /\
  (differs os width height = true ->
   exists scaled, m_scaledTexture c = Some scaled /\
                  Width scaled = Int.u32 width /\
                  Height scaled = Int.u32 height).

End Window.

(** ** Sample systems *)

Module Scenario.
Import Texture.

Definition fine_converter : Color.DeviceSetup :=
  {| Color.video_processor_ok := true; Color.output_textures_ok := true |}.

(** A display of [w] x [h] on which every call succeeds. *)
Definition display_of (w h : Z) : Display.DisplaySetup :=
  {| Display.create_device_ok := true; Display.dxgi_device_ok := true;
     Display.adapter_ok := true; Display.output_found := true;
     Display.output1_ok := true;
     Display.nativeWidth := w; Display.nativeHeight := h;
     Display.scaled_texture_ok := true; Display.duplicate_output_ok := true;
     Display.converter_setup := fine_converter |}.

(** A desktop frame of [w] x [h] whose texel at [(x, y)] is [x + 16 * y + 1]. *)
Definition desktop_frame (w h : Z) : Texture2D :=
  {| Width := w; Height := h; pixels := fun x y => x + 16 * y + 1 |}.

(** A tick in which a frame of [w] x [h] is acquired. *)
Definition frame_tick (w h : Z) : Display.TickOS :=
  {| Display.duplicate_ok := true;
     Display.acquire := Display.Acquired (Some (desktop_frame w h));
     Display.copy_texture_ok := true;
     Display.convert := Color.MapFailed;
     Display.now := 0 |}.

(** A display setup in which the requested output does not exist. *)
Definition no_such_display : Display.DisplaySetup :=
  {| Display.create_device_ok := true; Display.dxgi_device_ok := true;
     Display.adapter_ok := true; Display.output_found := false;
     Display.output1_ok := true;
     Display.nativeWidth := 0; Display.nativeHeight := 0;
     Display.scaled_texture_ok := true; Display.duplicate_output_ok := true;
     Display.converter_setup := fine_converter |}.

(** A tick in which the duplication reports the loss of access. *)
Definition access_lost_tick : Display.TickOS :=
  {| Display.duplicate_ok := true;
     Display.acquire := Display.AccessLost;
     Display.copy_texture_ok := true;
     Display.convert := Color.MapFailed;
     Display.now := 0 |}.

End Scenario.

(** ** Start, Stop and the capture thread

    The audio and display capturers run [CaptureLoop] on a thread of its
    own while another thread calls [Stop].  The two threads are modelled
    as an interleaving of atomic steps over the shared [m_running] flag;
    a schedule chooses which thread moves and what the system answers. *)

Module Threads.

Inductive Capturer := AudioKind | DisplayKind.

(** Where the capture thread is in [CaptureLoop]. *)
Inductive WorkerPc :=
  | LoopTest                   (* while (m_running) *)
  | Poll                       (* GetNextPacketSize / AcquireNextFrame, Convert *)
  | InnerTest (pending : bool) (* while (packetLength > 0 && m_running) *)
  | GetBuffer                  (* GetBuffer, NormalizeAudio, ReleaseBuffer *)
  | Deliver                    (* m_callback(...) *)
  | NextSize                   (* GetNextPacketSize at the end of the inner loop *)
  | Pace                       (* Sleep(5) / frame rate limiting *)
  | Exited.

(** Where the other thread is in [Stop]. *)
Inductive StopPc :=
  | Calling
  | StoppingClient             (* m_audioClient->Stop() *)
  | Joining                    (* m_captureThread.join() *)
  | Returned.

Inductive Event := Callback | StopReturned.

Record State := {
  m_running : bool;
  worker : WorkerPc;
  stopper : StopPc;
  trace : list Event           (* newest first *)
}.

(** The state in which [Start] leaves a session: the flag set, the capture
    thread at the top of its loop, [Stop] not yet called. *)
Definition started : State :=
  {| m_running := true; worker := LoopTest; stopper := Calling; trace := [] |}.

(** One step of the capture thread.  [ok] is the answer of the system call
    made at this point, [more] whether a packet is pending or a frame was
    produced. *)
Definition worker_step (k : Capturer) (ok more : bool) (s : State) : State :=
  let goto pc := {| m_running := m_running s; worker := pc;
                    stopper := stopper s; trace := trace s |} in
  match k, worker s with
  | _, LoopTest => if m_running s then goto Poll else goto Exited
  | AudioKind, Poll => if ok then goto (InnerTest more) else goto Exited
  | AudioKind, InnerTest pending =>
      if pending && m_running s then goto GetBuffer else goto Pace
  | AudioKind, GetBuffer => if ok then goto Deliver else goto Pace
  | AudioKind, Deliver =>
      {| m_running := m_running s; worker := NextSize; stopper := stopper s;
         trace := if more then Callback :: trace s else trace s |}
  | AudioKind, NextSize => if ok then goto (InnerTest more) else goto Pace
  | DisplayKind, Poll => if ok && more then goto Deliver else goto Pace
  | DisplayKind, Deliver =>
      {| m_running := m_running s; worker := Pace; stopper := stopper s;
         trace := Callback :: trace s |}
  | DisplayKind, (InnerTest _ | GetBuffer | NextSize) => s
  | _, Pace => goto LoopTest
  | _, Exited => s
  end.

(** One step of the thread that calls [Stop].  [join] waits: the step
    leaves the state as it is until the capture thread has exited. *)
Definition stop_step (k : Capturer) (s : State) : State :=
  match k, stopper s with
  | AudioKind, Calling =>
      if negb (m_running s) then
        {| m_running := m_running s; worker := worker s; stopper := Returned;
           trace := StopReturned :: trace s |}
      else
        {| m_running := false; worker := worker s; stopper := StoppingClient;
           trace := trace s |}
  | AudioKind, StoppingClient =>
      {| m_running := m_running s; worker := worker s; stopper := Joining;
         trace := trace s |}
  | AudioKind, Joining =>
      match worker s with
      | Exited =>
          {| m_running := m_running s; worker := worker s; stopper := Returned;
             trace := StopReturned :: trace s |}
      | _ => s
      end
  | DisplayKind, Calling =>
      {| m_running := false; worker := worker s; stopper := Returned;
         trace := StopReturned :: trace s |}
  | DisplayKind, (StoppingClient | Joining) => s
  | _, Returned => s
  end.

Inductive Choice :=
  | RunWorker (ok more : bool)
  | RunStop.

Definition step (k : Capturer) (c : Choice) (s : State) : State :=
  match c with
  | RunWorker ok more => worker_step k ok more s
  | RunStop => stop_step k s
  end.

(** The state after a schedule. *)
Definition exec (k : Capturer) (sched : list Choice) (s : State) : State :=
  fold_left (fun s c => step k c s) sched s.

Definition is_stop (e : Event) : bool :=
  match e with StopReturned => true | Callback => false end.

(** Some callback invocation follows the return of [Stop]
    (in a trace kept newest first). *)
Fixpoint late_callback (tr : list Event) : bool :=
  match tr with
  | [] => false
  | Callback :: older => existsb is_stop older || late_callback older
  | StopReturned :: older => late_callback older
  end.

(** What the join in [AudioCapturer::Stop] maintains. *)
Definition audio_invariant (s : State) : Prop :=
  (stopper s = Calling -> m_running s = true) /\
  (stopper s = Returned -> worker s = Exited) /\
  (existsb is_stop (trace s) = true -> stopper s = Returned) /\
  late_callback (trace s) = false.

(** The schedule on which the display capturer delivers a frame after
    [Stop] has returned: the loop tests the flag, [Stop] clears it and
    returns, the loop acquires a frame and invokes the callback. *)
Definition late_frame_schedule : list Choice :=
  [RunWorker true true; RunStop; RunWorker true true; RunWorker true true].

End Threads.

(** ** AudioCapturer.cpp: Stop and the life of a session *)

Module AudioControl.
Import Audio.

(** [AudioCapturer::Stop]: clears the flag, stops the client if there is
    one and joins the capture thread if it is joinable. *)
Definition Stop (c : AudioCapturer) : AudioCapturer :=
  if negb (m_running c) then c
  else with_thread false (with_running false c).

(** The capturers of a session: what a successful [Initialize] on a new
    object returns, and what [Start], [Stop] and the buffers handled by
    the capture loop make of it. *)
Inductive session : AudioCapturer -> Prop :=
  | session_Initialize os c :
      Initialize os fresh = (true, c) ->
      session c
  | session_Start start_ok c c' spawned :
      session c ->
      Start start_ok c = Done (c', spawned) ->
      session c'
  | session_Stop c :
      session c ->
      session (Stop c)
  | session_buffer sizeof_header c p :
      session c ->
      session (fst (on_buffer sizeof_header c p)).

(** What [int16 / 32768.0f], clamped, scaled by [32767.0f] and converted
    back to [int16_t] comes to: one step toward zero. *)
Definition toward_zero (v : Z) : Z :=
  if v =? 0 then 0 else if 0 <? v then v - 1 else v + 1.

(** [p lo], [p (lo + 1)], ..., [p (lo + n - 1)] all hold. *)
Fixpoint all_from (n : nat) (p : Z -> bool) (lo : Z) : bool :=
  match n with
  | O => true
  | S k => p lo && all_from k p (lo + 1)
  end.

(** A system on which every call of [Initialize] succeeds. *)
Definition working_setup (fmt : WaveFormat) : AudioSetup :=
  {| enumerator_ok := true; endpoint_ok := true; activate_ok := true;
     mix_format := Some fmt; client_init_ok := true; service_ok := true |}.

(** Two stereo frames of 16-bit samples: (1, -1), (32767, -32768). *)
Definition two_stereo_frames : list byte :=
  [x01; x00; xff; xff; xff; x7f; x00; x80].

End AudioControl.

(** ** DisplayCapturer.cpp: frame-rate limiting of the capture loop *)

Module Pacing.

(** [std::chrono::microseconds(1000000 / m_fps)], in nanoseconds, the unit
    of [steady_clock]. *)
Definition frameDuration (m_fps : Z) : Z := 1000 * Z.quot 1000000 m_fps.

(** The two readings of [steady_clock::now()] in the frame-rate limiting
    of one iteration: the one [sleepTime] is computed from and, when the
    loop is behind, the one [nextFrameTime] is reset to. *)
Record Clock := {
  after_work : Z;
  at_reset : Z
}.

(** The frame-rate limiting of one iteration: the duration passed to
    [sleep_for], if it is called, and [nextFrameTime] afterwards. *)
Definition limit (d : Z) (k : Clock) (nextFrameTime : Z) : option Z * Z :=
  let next := nextFrameTime + d in
  let sleepTime := next - after_work k in
  if 0 <? sleepTime then (Some sleepTime, next) else (None, at_reset k).

(** The sleeps of the iterations of [CaptureLoop], one per iteration. *)
Fixpoint CaptureLoop (d : Z) (nextFrameTime : Z) (ticks : list Clock)
  : list (option Z) :=
  match ticks with
  | [] => []
  | k :: rest =>
      let '(s, next) := limit d k nextFrameTime in
      s :: CaptureLoop d next rest
  end.

(** The readings are those of a steady clock: none is earlier than the
    one before it ([last]), and [sleep_for] returns no earlier than
    asked. *)
Fixpoint steady (d : Z) (last : Z) (nextFrameTime : Z) (ticks : list Clock)
  : Prop :=
  match ticks with
  | [] => True
  | k :: rest =>
      last <= after_work k /\
      match limit d k nextFrameTime with
      | (Some s, next) => steady d (after_work k + s) next rest
      | (None, next) => after_work k <= at_reset k /\ steady d (at_reset k) next rest
      end
  end.

Definition within (d : Z) (s : option Z) : Prop :=
  match s with
  | Some sleepTime => 0 < sleepTime <= d
  | None => True
  end.

End Pacing.

(** ** DisplayCapturer.cpp: acquired frames and their release *)

Module Frames.
Import Display.

Fixpoint acquires (calls : list OsCall) : nat :=
  match calls with
  | [] => O
  | AcquireFrame :: rest => S (acquires rest)
  | _ :: rest => acquires rest
  end.

Fixpoint releases (calls : list OsCall) : nat :=
  match calls with
  | [] => O
  | ReleaseFrame :: rest => S (releases rest)
  | _ :: rest => releases rest
  end.

(** The answer to [AcquireNextFrame] was a frame. *)
Definition acquired (r : AcquireResult) : bool :=
  match r with
  | Acquired _ => true
  | _ => false
  end.

End Frames.

(** ** The timestamps of the callbacks *)

Module Timestamps.

(** [LONGLONG] arithmetic, on the low 64 bits. *)
Definition i64 : Z -> Z := Int.swrap 64.

(** [DisplayCapturer::CaptureLoop] and [WindowCapturer::OnFrameArrived]:
    [static_cast<uint64_t>(now.QuadPart * 1000 / m_frequency.QuadPart)],
    the argument of the frame callback. *)
Definition video_timestamp (m_frequency now : Z) : Z :=
  Int.u64 (Z.quot (i64 (now * 1000)) m_frequency).

(** [AudioCapturer::CaptureLoop]:
    [static_cast<uint64_t>((now.QuadPart - m_startTime.QuadPart) * 1000
    / m_frequency.QuadPart)], with the [m_startTime] that [Start] reads
    before it spawns the thread. *)
Definition audio_timestamp (m_frequency m_startTime now : Z) : Z :=
  Int.u64 (Z.quot (i64 (i64 (now - m_startTime) * 1000)) m_frequency).

End Timestamps.

(** ** SourceLister.cpp *)

Module SourceLister.

Definition quote : ascii := "034"%char.
Definition backslash : ascii := "092"%char.

(** The digit of [std::hex] for a value below 16. *)
Definition hex_digit (n : N) : ascii :=
  default "0"%char (String.get (N.to_nat n) "0123456789abcdef").

(** [std::hex << std::setfill('0') << std::setw(4)] of a value below
    [0x10000]. *)
Definition hex4 (v : N) : string :=
  String (hex_digit (v / 4096 mod 16))
    (String (hex_digit (v / 256 mod 16))
       (String (hex_digit (v / 16 mod 16))
          (String (hex_digit (v mod 16)) EmptyString))).

(** What the [switch] of [EscapeJson] writes for one character. *)
Definition escape (c : ascii) : string :=
  let n := N_of_ascii c in
  if (n =? 34)%N then String backslash (String quote EmptyString)
  else if (n =? 92)%N then String backslash (String backslash EmptyString)
  else if (n =? 8)%N then String backslash "b"
  else if (n =? 12)%N then String backslash "f"
  else if (n =? 10)%N then String backslash "n"
  else if (n =? 13)%N then String backslash "r"
  else if (n =? 9)%N then String backslash "t"
  else if (n <? 32)%N then String backslash (String "u" (hex4 n))
  else String c EmptyString.

(** [EscapeJson(s)] *)
Fixpoint EscapeJson (s : string) : string :=
  match s with
  | EmptyString => EmptyString
  | String c rest => (escape c ++ EscapeJson rest)%string
  end.

(** [std::to_string] of an [int] or of a [uintptr_t]: the decimal digits,
    after a minus sign for a negative value. *)
Definition to_string (n : Z) : string := NilZero.string_of_int (Z.to_int n).

(** What [GetMonitorInfoW] returns for one monitor. *)
Record MONITORINFOEXW := {
  rcMonitor_left : Z; rcMonitor_top : Z;
  rcMonitor_right : Z; rcMonitor_bottom : Z;
  primary : bool;              (* dwFlags & MONITORINFOF_PRIMARY *)
  szDevice : string            (* after WideToUtf8 *)
}.

Record DisplayInfo := {
  id : string;
  name : string;
  width : Z;
  height : Z;
  isPrimary : bool
}.

Record MonitorEnumContext := {
  displays : list DisplayInfo;
  index : Z
}.

(** [MonitorEnumProc] for one monitor; [mi] is [None] when
    [GetMonitorInfoW] fails. *)
Definition MonitorEnumProc (mi : option MONITORINFOEXW) (ctx : MonitorEnumContext)
  : MonitorEnumContext :=
  match mi with
  | None => ctx
  | Some mi =>
      let deviceName := szDevice mi in
      let info :=
        {| id := to_string (index ctx);
           name := ("Display " ++ to_string (Int.i32 (index ctx + 1))
                    ++ (if bool_decide (deviceName = EmptyString) then EmptyString
                        else " (" ++ deviceName ++ ")")
                    ++ (if primary mi then " - Primary" else EmptyString))%string;
           width := Int.i32 (rcMonitor_right mi - rcMonitor_left mi);
           height := Int.i32 (rcMonitor_bottom mi - rcMonitor_top mi);
           isPrimary := primary mi |} in
      {| displays := displays ctx ++ [info];
         index := Int.i32 (index ctx + 1) |}
  end.

(** [SourceLister::EnumerateDisplays]; the monitors are those that
    [EnumDisplayMonitors] passes to the callback, in its order. *)
Definition EnumerateDisplays (monitors : list (option MONITORINFOEXW))
  : list DisplayInfo :=
  displays (fold_left (fun ctx mi => MonitorEnumProc mi ctx) monitors
              {| displays := []; index := 0 |}).

(** Three monitors, the second of which does not answer
    [GetMonitorInfoW]. *)
Definition two_monitors_one_silent : list (option MONITORINFOEXW) :=
  [ Some {| rcMonitor_left := 0; rcMonitor_top := 0;
            rcMonitor_right := 1920; rcMonitor_bottom := 1080;
            primary := true; szDevice := "\\.\DISPLAY1" |};
    None;
    Some {| rcMonitor_left := 1920; rcMonitor_top := 0;
            rcMonitor_right := 4480; rcMonitor_bottom := 1440;
            primary := false; szDevice := "\\.\DISPLAY3" |} ].

(** *** The application name of a window

    A [std::wstring] is a list of UTF-16 code units. *)

(** [path.find_last_of(chars)] and [path.rfind(c)]: the last position
    whose code unit satisfies [p], [None] for [npos]. *)
Fixpoint find_last (p : Z -> bool) (path : list Z) : option nat :=
  match path with
  | [] => None
  | c :: rest =>
      match find_last p rest with
      | Some k => Some (S k)
      | None => if p c then Some O else None
      end
  end.

Definition is_separator (c : Z) : bool := (c =? 92) || (c =? 47).
Definition is_dot (c : Z) : bool := c =? 46.

(** [path.substr(pos)] and [path.substr(pos, len)] for [pos <= size]. *)
Definition substr_from (path : list Z) (pos : nat) : list Z := drop pos path.
Definition substr (path : list Z) (pos len : nat) : list Z :=
  take len (drop pos path).

(** The [fileName] computed in [WindowEnumProc] from the path of the
    executable, [None] when the path has no separator (the application
    name stays empty). *)
Definition fileName (path : list Z) : option (list Z) :=
  match find_last is_separator path with
  | None => None
  | Some lastSlash =>
      match find_last is_dot path with
      | Some lastDot =>
          if (lastSlash <? lastDot)%nat
          then Some (substr path (lastSlash + 1) (lastDot - lastSlash - 1))
          else Some (substr_from path (lastSlash + 1))
      | None => Some (substr_from path (lastSlash + 1))
      end
  end.

(** *** Reference: reading a JSON string back

    The characters between the quotes of a JSON string, decoded as RFC
    8259 prescribes: a backslash starts an escape, a raw quote or control
    character is not allowed.  Only the code points below 128 are decoded
    from a [\u] escape. *)

Definition unhex (c : ascii) : option N :=
  let n := N_of_ascii c in
  if ((48 <=? n) && (n <=? 57))%N then Some (n - 48)%N
  else if ((97 <=? n) && (n <=? 102))%N then Some (n - 87)%N
  else if ((65 <=? n) && (n <=? 70))%N then Some (n - 55)%N
  else None.

Definition simple_escape (e : ascii) : option ascii :=
  let n := N_of_ascii e in
  if (n =? 34)%N then Some quote
  else if (n =? 92)%N then Some backslash
  else if (n =? 47)%N then Some "/"%char
  else if (n =? 98)%N then Some "008"%char
  else if (n =? 102)%N then Some "012"%char
  else if (n =? 110)%N then Some "010"%char
  else if (n =? 114)%N then Some "013"%char
  else if (n =? 116)%N then Some "009"%char
  else None.

Definition code_point (a b c d : ascii) : option ascii :=
  match unhex a, unhex b, unhex c, unhex d with
  | Some x, Some y, Some z, Some w =>
      let v := (((x * 16 + y) * 16 + z) * 16 + w)%N in
      if (v <? 128)%N then Some (ascii_of_N v) else None
  | _, _, _, _ => None
  end.

Fixpoint json_unescape (s : string) : option string :=
  match s with
  | EmptyString => Some EmptyString
  | String c rest =>
      if Ascii.eqb c backslash then
        match rest with
        | EmptyString => None
        | String e rest' =>
            if Ascii.eqb e "u"%char then
              match rest' with
              | String a (String b (String c' (String d rest''))) =>
                  match code_point a b c' d, json_unescape rest'' with
                  | Some x, Some t => Some (String x t)
                  | _, _ => None
                  end
              | _ => None
              end
            else
              match simple_escape e, json_unescape rest' with
              | Some x, Some t => Some (String x t)
              | _, _ => None
              end
        end
      else if Ascii.eqb c quote || (N_of_ascii c <? 32)%N then None
      else
        match json_unescape rest with
        | Some t => Some (String c t)
        | None => None
        end
  end.

(** No character of [s] is a control character. *)
Fixpoint printable (s : string) : bool :=
  match s with
  | EmptyString => true
  | String c rest => (32 <=? N_of_ascii c)%N && printable rest
  end.

End SourceLister.

(** ** main.cpp *)

Module Cli.

(** *** [std::stoi] and [std::stoull] *)

(** [isspace] in the "C" locale *)
Definition isspace (c : ascii) : bool :=
  let n := N_of_ascii c in
  ((n =? 32) || ((9 <=? n) && (n <=? 13)))%N.

Definition digit (c : ascii) : option Z :=
  let n := Z.of_N (N_of_ascii c) in
  if (48 <=? n) && (n <=? 57) then Some (n - 48) else None.

Fixpoint skip_space (s : string) : string :=
  match s with
  | String c rest => if isspace c then skip_space rest else s
  | EmptyString => s
  end.

(** The value of the decimal digits at the start of [s], after [acc]. *)
Fixpoint digits (s : string) (acc : Z) : Z :=
  match s with
  | String c rest =>
      match digit c with
      | Some d => digits rest (acc * 10 + d)
      | None => acc
      end
  | EmptyString => acc
  end.

(** An optional sign: whether it is a minus, and what follows. *)
Definition sign (s : string) : bool * string :=
  match s with
  | String c rest =>
      if Ascii.eqb c "-"%char then (true, rest)
      else if Ascii.eqb c "+"%char then (false, rest)
      else (false, s)
  | EmptyString => (false, s)
  end.

Definition starts_with_digit (s : string) : bool :=
  match s with
  | String c _ => bool_decide (is_Some (digit c))
  | EmptyString => false
  end.

Inductive exception := invalid_argument | out_of_range.

(** The result of a conversion: the value, or the exception thrown. *)
Inductive Parsed :=
  | Value (v : Z)
  | Throw (e : exception).

(** [std::stoi(s)]: [strtol] in base 10, then the range of [int]. *)
Definition stoi (s : string) : Parsed :=
  let '(minus, r) := sign (skip_space s) in
  if starts_with_digit r then
    let v := if minus then - digits r 0 else digits r 0 in
    if (- 2 ^ 31 <=? v) && (v <? 2 ^ 31) then Value v else Throw out_of_range
  else Throw invalid_argument.

(** [std::stoull(s)]: [strtoull] in base 10; a minus sign negates the
    value in [unsigned long long]. *)
Definition stoull (s : string) : Parsed :=
  let '(minus, r) := sign (skip_space s) in
  if starts_with_digit r then
    let v := digits r 0 in
    if v <? 2 ^ 64 then Value (if minus then Int.u64 (- v) else v)
    else Throw out_of_range
  else Throw invalid_argument.

(** *** The command line *)

(** The arguments of [Capture]; the window handle is the pointer value,
    0 for [nullptr]. *)
Record Options := {
  displayIndex : Z;
  windowHandle : Z;
  width : Z;
  height : Z;
  fps : Z;
  captureAudio : bool
}.

Definition defaults : Options :=
  {| displayIndex := 0; windowHandle := 0; width := 1920; height := 1080;
     fps := 30; captureAudio := false |}.

Definition with_displayIndex (v : Z) (o : Options) : Options :=
  {| displayIndex := v; windowHandle := windowHandle o; width := width o;
     height := height o; fps := fps o; captureAudio := captureAudio o |}.
Definition with_windowHandle (v : Z) (o : Options) : Options :=
  {| displayIndex := displayIndex o; windowHandle := v; width := width o;
     height := height o; fps := fps o; captureAudio := captureAudio o |}.
Definition with_width (v : Z) (o : Options) : Options :=
  {| displayIndex := displayIndex o; windowHandle := windowHandle o; width := v;
     height := height o; fps := fps o; captureAudio := captureAudio o |}.
Definition with_height (v : Z) (o : Options) : Options :=
  {| displayIndex := displayIndex o; windowHandle := windowHandle o;
     width := width o; height := v; fps := fps o;
     captureAudio := captureAudio o |}.
Definition with_fps (v : Z) (o : Options) : Options :=
  {| displayIndex := displayIndex o; windowHandle := windowHandle o;
     width := width o; height := height o; fps := v;
     captureAudio := captureAudio o |}.
Definition with_captureAudio (v : bool) (o : Options) : Options :=
  {| displayIndex := displayIndex o; windowHandle := windowHandle o;
     width := width o; height := height o; fps := fps o; captureAudio := v |}.

(** How [main] ends. *)
Inductive Exit :=
  | Usage                          (* PrintUsage(); return 0 *)
  | ListSources (asJson : bool)    (* return ListSources(asJson) *)
  | InvalidWidth                   (* return 1 *)
  | InvalidHeight                  (* return 1 *)
  | InvalidFps                     (* return 1 *)
  | Uncaught (e : exception)       (* an exception of stoi or stoull leaves main *)
  | RunCapture (o : Options).      (* return Capture(...) *)

(** The option loop, from [args[i]] on: the options, or the exception
    that ends it.  An option that takes a value is recognised only when
    an argument follows it, and that argument is skipped. *)
Fixpoint parse (args : list string) (o : Options) : Options + exception :=
  match args with
  | [] => inl o
  | a :: rest =>
      match rest with
      | v :: rest' =>
          if String.eqb a "--display" then
            match stoi v with
            | Value n => parse rest' (with_displayIndex n o)
            | Throw e => inr e
            end
          else if String.eqb a "--window" then
            match stoull v with
            | Value n => parse rest' (with_windowHandle n o)
            | Throw e => inr e
            end
          else if String.eqb a "--width" then
            match stoi v with
            | Value n => parse rest' (with_width n o)
            | Throw e => inr e
            end
          else if String.eqb a "--height" then
            match stoi v with
            | Value n => parse rest' (with_height n o)
            | Throw e => inr e
            end
          else if String.eqb a "--fps" then
            match stoi v with
            | Value n => parse rest' (with_fps n o)
            | Throw e => inr e
            end
          else if String.eqb a "--audio" then parse rest (with_captureAudio true o)
          else parse rest o
      | [] =>
          if String.eqb a "--audio" then inl (with_captureAudio true o) else inl o
      end
  end.

(** The values [parse] stores are those of an [int] and of a pointer. *)
Definition representable (o : Options) : Prop :=
  (- 2 ^ 31 <= displayIndex o < 2 ^ 31) /\
  (0 <= windowHandle o < 2 ^ 64) /\
  (- 2 ^ 31 <= width o < 2 ^ 31) /\
  (- 2 ^ 31 <= height o < 2 ^ 31) /\
  (- 2 ^ 31 <= fps o < 2 ^ 31).

Definition is_help (a : string) : bool :=
  String.eqb a "--help" || String.eqb a "-h".

(** [args.size() >= 2 && args[1] == "list"] *)
Definition is_list (args : list string) : bool :=
  match args !! 1%nat with
  | Some a => String.eqb a "list"
  | None => false
  end.

(** "Validate parameters" *)
Definition validate (o : Options) : Exit :=
  if (width o <=? 0) || (4096 <? width o) then InvalidWidth
  else if (height o <=? 0) || (4096 <? height o) then InvalidHeight
  else if (fps o <=? 0) || (120 <? fps o) then InvalidFps
  else RunCapture o.

(** [main], with [args] the vector built from [argv]. *)
Definition main (args : list string) : Exit :=
  if existsb is_help args then Usage
  else if is_list args
  then ListSources (existsb (fun a => String.eqb a "--json") (drop 2 args))
  else match parse (drop 1 args) defaults with
       | inl o => validate o
       | inr e => Uncaught e
       end.

(** *** The frame and packet callbacks of [Capture] *)

(** One iteration of the write loop as the system decides it: the value
    of [g_running] when the loop condition reads it, and what [_write]
    returns. *)
Record WriteStep := {
  running : bool;
  result : Z
}.

Inductive WriteEnd :=
  | Completed (out : list byte)   (* the loop ended, the code after it runs *)
  | WriteError (out : list byte)  (* _write failed: g_running = false; return *)
  | Pending (out : list byte).    (* the loop is still running *)

(** [(unsigned int)(size - written)], the count passed to [_write]. *)
Definition count (size written : Z) : Z := Int.u32 (Int.u64 (size - written)).

(** [while (written < size && g_running) { ... }] of [videoCallback] and
    [audioCallback], from a given [written]; [out] is what the earlier
    calls of [_write] have put on the stream. *)
Fixpoint write_loop (data : list byte) (size : Z) (steps : list WriteStep)
    (written : Z) (out : list byte) : WriteEnd :=
  if negb (written <? size) then Completed out
  else
    match steps with
    | [] => Pending out
    | st :: rest =>
        if negb (running st) then Completed out
        else if result st <? 0 then WriteError out
        else write_loop data size rest (Int.u64 (written + result st))
               (out ++ take (Z.to_nat (result st)) (drop (Z.to_nat written) data))
    end.

(** The system keeps the contract of [_write]: it returns -1, or the
    number of bytes it wrote, at most the count it was given; [progress]
    asks in addition that every call writes at least one byte while
    [g_running] stays set. *)
Fixpoint obeys (progress : bool) (size : Z) (steps : list WriteStep)
    (written : Z) : Prop :=
  match steps with
  | [] => True
  | st :: rest =>
      written < size ->
      (if progress then running st = true /\ 0 < result st <= count size written
       else result st <= count size written) /\
      (running st = true -> 0 <= result st ->
       obeys progress size rest (Int.u64 (written + result st)))
  end.

(** What the calls of [_write] have put on the stream. *)
Definition stream (e : WriteEnd) : list byte :=
  match e with
  | Completed out | WriteError out | Pending out => out
  end.

(** *** Capture *)

(** What the system answers to the capturers that [Capture] sets up. *)
Record CaptureOS := {
  audio_os : Audio.AudioSetup;
  audio_start_ok : bool;
  window_os : Window.WindowSetup;
  display_os : Display.DisplaySetup
}.

(** The audio capturer of [Capture] after "Start audio capture if
    requested", if it is kept. *)
Definition start_audio (os : CaptureOS) (o : Options)
  : Outcome (option Audio.AudioCapturer) :=
  if captureAudio o then
    let '(ok, a) := Audio.Initialize (audio_os os) Audio.fresh in
    if negb ok then Done None
    else match Audio.Start (audio_start_ok os) a with
         | Done (a', _) => Done (Some a')
         | NullDereference => NullDereference
         end
  else Done None.

(** "Start video capture": [captureStarted], after the capturer has been
    started, waited for and stopped. *)
Definition run_video (os : CaptureOS) (o : Options) : Outcome bool :=
  if negb (windowHandle o =? 0) then
    let '(ok, w) := Window.Initialize (window_os os) (width o) (height o) (fps o)
                                      Window.fresh in
    if ok then
      match Window.Start w with
      | Done (w', _) => let _ := Window.Stop w' in Done true
      | NullDereference => NullDereference
      end
    else Done false
  else
    let '(ok, d) := Display.Initialize (display_os os) (width o) (height o) (fps o)
                                       Display.fresh in
    if ok then
      match Display.Start d with
      | Done (d', _) => let _ := Display.Stop d' in Done true
      | NullDereference => NullDereference
      end
    else Done false.

(** [Capture(displayIndex, windowHandle, width, height, fps,
    captureAudio)]: its return value. *)
Definition Capture (os : CaptureOS) (o : Options) : Outcome Z :=
  match start_audio os o with
  | NullDereference => NullDereference
  | Done audio =>
      match run_video os o with
      | NullDereference => NullDereference
      | Done captureStarted =>
          let _ := option_map AudioControl.Stop audio in
          Done (if captureStarted then 0 else 1)
      end
  end.

(** Whether the video capturer that [Capture] selects initializes. *)
Definition video_initializes (os : CaptureOS) (o : Options) : bool :=
  if negb (windowHandle o =? 0)
  then fst (Window.Initialize (window_os os) (width o) (height o) (fps o)
                              Window.fresh)
  else fst (Display.Initialize (display_os os) (width o) (height o) (fps o)
                               Display.fresh).

End Cli.

(** ** Pointers into the heap *)

(** A call through a pointer finds the object it points to, or the
    pointer dangles (the object has been freed or never existed). *)
Inductive Access (A : Type) : Type :=
  | Valid (a : A)
  | Dangling.
Arguments Valid {A} a.
Arguments Dangling {A}.

(** ** SnackaLinuxRenderer: vaapi_decoder.c *)

Module Vaapi.

(** [#define NUM_SURFACES 17] *)
Definition NUM_SURFACES : Z := 17.

(** [VA_INVALID_ID], [0xffffffff] in [va.h]. *)
Definition VA_INVALID_ID : Z := 4294967295.

(** What the decoder takes from the system and has to give back: the
    copies of SPS and PPS and the array of surface ids ([malloc] to
    [free]), the X11 connection ([XOpenDisplay] to [XCloseDisplay]), the
    DRM descriptor ([open] to [close]), the VA display ([vaGetDisplay] or
    [vaGetDisplayDRM] to [vaTerminate]), the config and the context (by
    the id passed to [vaDestroyConfig] and [vaDestroyContext]), the
    surfaces, the renderer ([egl_renderer_create] to
    [egl_renderer_destroy]) and, in [vaapi_decoder_is_available], the
    array of profiles. *)
Inductive Resource :=
  | SpsCopy | PpsCopy | XDisplay | DrmFd | VaDisplay
  | Config (id : Z) | SurfaceArray | Surfaces | Context (id : Z)
  | Renderer | Profiles.

#[global] Instance Resource_eq_dec : EqDecision Resource.
Proof. solve_decision. Defined.

(** A call that takes a resource and succeeds, and a call that gives one
    back. *)
Inductive Event :=
  | Acquire (r : Resource)
  | Release (r : Resource).

(** How often [r] has been taken and not given back in a list of events;
    negative when it is given back without having been taken. *)
Fixpoint held (r : Resource) (events : list Event) : Z :=
  match events with
  | [] => 0
  | Acquire r' :: rest => (if bool_decide (r' = r) then 1 else 0) + held r rest
  | Release r' :: rest => held r rest - (if bool_decide (r' = r) then 1 else 0)
  end.

(** [struct VaapiDecoder]; pointers are recorded as "set" or not, the ids
    of the config and the context by their value, the copies of SPS and
    PPS by their bytes. *)
Record VaapiDecoder := {
  va_display : bool;
  va_config : Z;
  va_context : Z;
  va_surfaces : bool;
  num_surfaces : Z;
  current_surface : Z;
  width : Z;
  height : Z;
  sps : option (list byte);
  pps : option (list byte);
  x_display : bool;
  renderer : bool;
  initialized : bool;
  va_initialized : bool;
  drm_fd : Z
}.

(** [vaapi_decoder_create] on the block [calloc] returns: all zero, and
    [drm_fd = -1]. *)
Definition vaapi_decoder_create : VaapiDecoder :=
  {| va_display := false; va_config := 0; va_context := 0;
     va_surfaces := false; num_surfaces := 0; current_surface := 0;
     width := 0; height := 0; sps := None; pps := None;
     x_display := false; renderer := false;
     initialized := false; va_initialized := false; drm_fd := -1 |}.

(** What the system answers during [vaapi_decoder_initialize].  For
    [vaCreateConfig] and [vaCreateContext] also the id the driver stores
    through the pointer it is given, if it stores one. *)
Record InitOS := {
  sps_malloc_ok : bool;
  pps_malloc_ok : bool;
  x_open_ok : bool;            (* XOpenDisplay *)
  va_x11_ok : bool;            (* vaGetDisplay *)
  drm_open : Z;                (* open("/dev/dri/renderD128"), -1 on failure *)
  va_drm_ok : bool;            (* vaGetDisplayDRM *)
  va_initialize_ok : bool;     (* vaInitialize *)
  attributes_ok : bool;        (* vaGetConfigAttributes, High or Main *)
  yuv420_ok : bool;            (* attrib.value & VA_RT_FORMAT_YUV420 *)
  create_config_ok : bool;     (* vaCreateConfig *)
  config_stored : option Z;
  surfaces_malloc_ok : bool;
  create_surfaces_ok : bool;   (* vaCreateSurfaces *)
  create_context_ok : bool;    (* vaCreateContext *)
  context_stored : option Z;
  renderer_create_ok : bool;   (* egl_renderer_create *)
  renderer_init_ok : bool      (* egl_renderer_initialize *)
}.

(** [init_va_display] *)
Definition init_va_display (os : InitOS) (d : VaapiDecoder)
  : list Event * bool * VaapiDecoder :=
  let d1 :=
    {| va_display := va_display d; va_config := va_config d;
       va_context := va_context d; va_surfaces := va_surfaces d;
       num_surfaces := num_surfaces d; current_surface := current_surface d;
       width := width d; height := height d; sps := sps d; pps := pps d;
       x_display := x_open_ok os; renderer := renderer d;
       initialized := initialized d; va_initialized := va_initialized d;
       drm_fd := drm_fd d |} in
  if negb (x_open_ok os) then ([], false, d1)
  else
    let with_display (disp : bool) (fd : Z) (va_init : bool) :=
      {| va_display := disp; va_config := va_config d;
         va_context := va_context d; va_surfaces := va_surfaces d;
         num_surfaces := num_surfaces d; current_surface := current_surface d;
         width := width d; height := height d; sps := sps d; pps := pps d;
         x_display := true; renderer := renderer d;
         initialized := initialized d; va_initialized := va_init;
         drm_fd := fd |} in
    if va_x11_ok os then
      if negb (va_initialize_ok os)
      then ([Acquire XDisplay; Acquire VaDisplay], false,
            with_display true (drm_fd d) (va_initialized d))
      else ([Acquire XDisplay; Acquire VaDisplay], true,
            with_display true (drm_fd d) true)
    else if drm_open os <? 0
    then ([Acquire XDisplay], false,
          with_display false (drm_open os) (va_initialized d))
    else if negb (va_drm_ok os)
    then ([Acquire XDisplay; Acquire DrmFd], false,
          with_display false (drm_open os) (va_initialized d))
    else if negb (va_initialize_ok os)
    then ([Acquire XDisplay; Acquire DrmFd; Acquire VaDisplay], false,
          with_display true (drm_open os) (va_initialized d))
    else ([Acquire XDisplay; Acquire DrmFd; Acquire VaDisplay], true,
          with_display true (drm_open os) true).

(** [create_decoder_context] *)
Definition create_decoder_context (os : InitOS) (d : VaapiDecoder)
  : list Event * bool * VaapiDecoder :=
  let mk (config : Z) (surfaces : bool) (context : Z) (n : Z) :=
    {| va_display := va_display d; va_config := config;
       va_context := context; va_surfaces := surfaces;
       num_surfaces := n; current_surface := current_surface d;
       width := width d; height := height d; sps := sps d; pps := pps d;
       x_display := x_display d; renderer := renderer d;
       initialized := initialized d; va_initialized := va_initialized d;
       drm_fd := drm_fd d |} in
  if negb (attributes_ok os) then ([], false, d)
  else if negb (yuv420_ok os) then ([], false, d)
  else
    let config := default (va_config d) (config_stored os) in
    if negb (create_config_ok os)
    then ([], false,
          mk config (va_surfaces d) (va_context d) (num_surfaces d))
    else if negb (surfaces_malloc_ok os)
    then ([Acquire (Config config)], false,
          mk config false (va_context d) NUM_SURFACES)
    else if negb (create_surfaces_ok os)
    then ([Acquire (Config config); Acquire SurfaceArray;
           Release SurfaceArray], false,
          mk config false (va_context d) NUM_SURFACES)
    else
      let context := default (va_context d) (context_stored os) in
      if negb (create_context_ok os)
      then ([Acquire (Config config); Acquire SurfaceArray;
             Acquire Surfaces], false,
            mk config true context NUM_SURFACES)
      else ([Acquire (Config config); Acquire SurfaceArray;
             Acquire Surfaces; Acquire (Context context)], true,
            mk config true context NUM_SURFACES).

(** [vaapi_decoder_initialize(decoder, width, height, sps, sps_length,
    pps, pps_length)] on a decoder that is not null: what it takes, its
    return value and the decoder afterwards. *)
Definition vaapi_decoder_initialize (os : InitOS) (w h : Z)
    (sps_data pps_data : list byte) (d : VaapiDecoder)
  : list Event * bool * VaapiDecoder :=
  if initialized d then ([], false, d)
  else
    let copies :=
      (if sps_malloc_ok os then [Acquire SpsCopy] else []) ++
      (if pps_malloc_ok os then [Acquire PpsCopy] else []) in
    let d1 :=
      {| va_display := va_display d; va_config := va_config d;
         va_context := va_context d; va_surfaces := va_surfaces d;
         num_surfaces := num_surfaces d; current_surface := current_surface d;
         width := w; height := h;
         sps := if sps_malloc_ok os then Some [] else None;
         pps := if pps_malloc_ok os then Some [] else None;
         x_display := x_display d; renderer := renderer d;
         initialized := initialized d; va_initialized := va_initialized d;
         drm_fd := drm_fd d |} in
    if negb (sps_malloc_ok os) || negb (pps_malloc_ok os)
    then (copies, false, d1)
    else
      let d2 :=
        {| va_display := va_display d; va_config := va_config d;
           va_context := va_context d; va_surfaces := va_surfaces d;
           num_surfaces := num_surfaces d; current_surface := current_surface d;
           width := w; height := h;
           sps := Some sps_data; pps := Some pps_data;
           x_display := x_display d; renderer := renderer d;
           initialized := initialized d; va_initialized := va_initialized d;
           drm_fd := drm_fd d |} in
      let '(e3, ok3, d3) := init_va_display os d2 in
      if negb ok3 then (copies ++ e3, false, d3)
      else
        let '(e4, ok4, d4) := create_decoder_context os d3 in
        if negb ok4 then (copies ++ e3 ++ e4, false, d4)
        else
          let finish (rend init : bool) (cur : Z) :=
            {| va_display := va_display d4; va_config := va_config d4;
               va_context := va_context d4; va_surfaces := va_surfaces d4;
               num_surfaces := num_surfaces d4; current_surface := cur;
               width := width d4; height := height d4;
               sps := sps d4; pps := pps d4;
               x_display := x_display d4; renderer := rend;
               initialized := init; va_initialized := va_initialized d4;
               drm_fd := drm_fd d4 |} in
          if negb (renderer_create_ok os)
          then (copies ++ e3 ++ e4, false,
                finish false false (current_surface d4))
          else if negb (renderer_init_ok os)
          then (copies ++ e3 ++ e4 ++ [Acquire Renderer], false,
                finish true false (current_surface d4))
          else (copies ++ e3 ++ e4 ++ [Acquire Renderer], true,
                finish true true 0).

(** [vaapi_decoder_destroy] on a decoder that is not null: what it gives
    back, in the order of the calls, before it frees the decoder.
    [free(NULL)] does nothing. *)
Definition vaapi_decoder_destroy (d : VaapiDecoder) : list Event :=
  (if renderer d then [Release Renderer] else []) ++
  (if va_initialized d
   then (if negb (va_context d =? VA_INVALID_ID)
         then [Release (Context (va_context d))] else []) ++
        (if va_surfaces d then [Release Surfaces; Release SurfaceArray]
         else []) ++
        (if negb (va_config d =? VA_INVALID_ID)
         then [Release (Config (va_config d))] else []) ++
        [Release VaDisplay]
   else []) ++
  (if x_display d then [Release XDisplay] else []) ++
  (if 0 <=? drm_fd d then [Release DrmFd] else []) ++
  match sps d with Some _ => [Release SpsCopy] | None => [] end ++
  match pps d with Some _ => [Release PpsCopy] | None => [] end.

(** The profiles of [VAProfile] that the code names, and the others. *)
Inductive VAProfile :=
  | VAProfileH264Main
  | VAProfileH264High
  | VAProfileH264ConstrainedBaseline
  | OtherProfile (value : Z).

(** What the system answers during [vaapi_decoder_is_available];
    [queried] is the list of profiles that [vaQueryConfigProfiles]
    reports (its [num_profiles] entries of the array), if it succeeds. *)
Record AvailableOS := {
  av_x_open_ok : bool;
  av_va_x11_ok : bool;
  av_drm_open : Z;
  av_va_drm_ok : bool;
  av_va_initialize_ok : bool;
  av_profiles_malloc_ok : bool;
  queried : option (list VAProfile)
}.

(** The loop over the profiles. *)
Definition is_h264 (p : VAProfile) : bool :=
  match p with
  | VAProfileH264Main | VAProfileH264High
  | VAProfileH264ConstrainedBaseline => true
  | OtherProfile _ => false
  end.

Definition has_h264 (os : AvailableOS) : bool :=
  match queried os with
  | Some profiles => existsb is_h264 profiles
  | None => false
  end.

(** [vaapi_decoder_is_available] *)
Definition vaapi_decoder_is_available (os : AvailableOS) : list Event * bool :=
  if negb (av_x_open_ok os) then ([], false)
  else if negb (av_va_x11_ok os) then
    (* DRM backend *)
    if av_drm_open os <? 0
    then ([Acquire XDisplay; Release XDisplay], false)
    else if negb (av_va_drm_ok os)
    then ([Acquire XDisplay; Release XDisplay; Acquire DrmFd; Release DrmFd],
          false)
    else if negb (av_va_initialize_ok os)
    then ([Acquire XDisplay; Release XDisplay; Acquire DrmFd;
           Acquire VaDisplay; Release VaDisplay; Release DrmFd], false)
    else if negb (av_profiles_malloc_ok os)
    then ([Acquire XDisplay; Release XDisplay; Acquire DrmFd;
           Acquire VaDisplay; Release VaDisplay; Release DrmFd], false)
    else ([Acquire XDisplay; Release XDisplay; Acquire DrmFd;
           Acquire VaDisplay; Acquire Profiles; Release Profiles;
           Release VaDisplay; Release DrmFd], has_h264 os)
  else if negb (av_va_initialize_ok os)
  then ([Acquire XDisplay; Acquire VaDisplay; Release XDisplay], false)
  else if negb (av_profiles_malloc_ok os)
  then ([Acquire XDisplay; Acquire VaDisplay; Release VaDisplay;
         Release XDisplay], false)
  else ([Acquire XDisplay; Acquire VaDisplay; Acquire Profiles;
         Release Profiles; Release VaDisplay; Release XDisplay],
        has_h264 os).

(** The calls of [vaapi_decoder_decode_and_render] that open or close
    something, and the ones that name a surface of the pool by its
    index. *)
Inductive VaCall :=
  | BeginPicture (surface : Z)
  | CreateBuffer
  | RenderPicture
  | DestroyBuffer
  | EndPicture
  | SyncSurface (surface : Z)
  | RenderSurface (surface : Z).

(** What the driver answers during one [vaapi_decoder_decode_and_render]. *)
Record DecodeOS := {
  begin_ok : bool;
  create_buffer_ok : bool;
  render_ok : bool;
  end_ok : bool;
  sync_ok : bool
}.

Definition with_current_surface (k : Z) (d : VaapiDecoder) : VaapiDecoder :=
  {| va_display := va_display d; va_config := va_config d;
     va_context := va_context d; va_surfaces := va_surfaces d;
     num_surfaces := num_surfaces d; current_surface := k;
     width := width d; height := height d; sps := sps d; pps := pps d;
     x_display := x_display d; renderer := renderer d;
     initialized := initialized d; va_initialized := va_initialized d;
     drm_fd := drm_fd d |}.

(** [vaapi_decoder_get_view] on a decoder that is not null: the pointer
    returned, 0 for [NULL]; [x_window] is what [egl_renderer_get_window]
    returns for the renderer of the decoder, 0 when
    [egl_renderer_initialize] has created no window. *)
Definition vaapi_decoder_get_view (x_window : Z) (d : VaapiDecoder) : Z :=
  if negb (renderer d) then 0 else x_window.

(** [vaapi_decoder_decode_and_render] on a decoder that is not null: the
    calls made (but for a [vaBeginPicture] or [vaCreateBuffer] that fails
    and so opens nothing), the return value and the decoder afterwards. *)
Definition vaapi_decoder_decode_and_render (os : DecodeOS) (d : VaapiDecoder)
  : list VaCall * bool * VaapiDecoder :=
  if negb (initialized d) then ([], false, d)
  else
    let surface := current_surface d in
    if negb (begin_ok os) then ([], false, d)
    else if negb (create_buffer_ok os)
    then ([BeginPicture surface; EndPicture], false, d)
    else if negb (render_ok os)
    then ([BeginPicture surface; CreateBuffer; RenderPicture; DestroyBuffer;
           EndPicture], false, d)
    else
      let ended := [BeginPicture surface; CreateBuffer; RenderPicture;
                    EndPicture; DestroyBuffer] in
      if negb (end_ok os) then (ended, false, d)
      else if negb (sync_ok os) then (ended, false, d)
      else
        (ended ++ [SyncSurface surface]
               ++ (if renderer d then [RenderSurface surface] else []),
         true,
         with_current_surface
           (Z.rem (Int.i32 (current_surface d + 1)) (num_surfaces d)) d).

(** A run of calls on one decoder. *)
Fixpoint decode_all (oss : list DecodeOS) (d : VaapiDecoder)
  : list (list VaCall * bool) * VaapiDecoder :=
  match oss with
  | [] => ([], d)
  | os :: rest =>
      let '(calls, ok, d1) := vaapi_decoder_decode_and_render os d in
      let '(results, d2) := decode_all rest d1 in
      ((calls, ok) :: results, d2)
  end.

(** The surfaces named by a list of calls. *)
Definition surface_of (c : VaCall) : option Z :=
  match c with
  | BeginPicture s | SyncSurface s | RenderSurface s => Some s
  | _ => None
  end.

(** How many calls of a run returned true. *)
Fixpoint successes (results : list (list VaCall * bool)) : Z :=
  match results with
  | [] => 0
  | (_, ok) :: rest => (if ok then 1 else 0) + successes rest
  end.

(** Pictures begun and not ended, buffers created and not destroyed,
    after a list of calls that starts with [pictures] and [buffers] open. *)
Fixpoint open_after (calls : list VaCall) (pictures buffers : Z) : Z * Z :=
  match calls with
  | [] => (pictures, buffers)
  | BeginPicture _ :: rest => open_after rest (pictures + 1) buffers
  | EndPicture :: rest => open_after rest (pictures - 1) buffers
  | CreateBuffer :: rest => open_after rest pictures (buffers + 1)
  | DestroyBuffer :: rest => open_after rest pictures (buffers - 1)
  | _ :: rest => open_after rest pictures buffers
  end.

(** A driver on which every call succeeds. *)
Definition working_init : InitOS :=
  {| sps_malloc_ok := true; pps_malloc_ok := true; x_open_ok := true;
     va_x11_ok := true; drm_open := -1; va_drm_ok := false;
     va_initialize_ok := true; attributes_ok := true; yuv420_ok := true;
     create_config_ok := true; config_stored := Some 33554432;
     surfaces_malloc_ok := true; create_surfaces_ok := true;
     create_context_ok := true; context_stored := Some 50331648;
     renderer_create_ok := true; renderer_init_ok := true |}.

(** The same driver without an H.264 profile: both calls of
    [vaGetConfigAttributes] fail. *)
Definition no_attributes : InitOS :=
  {| sps_malloc_ok := true; pps_malloc_ok := true; x_open_ok := true;
     va_x11_ok := true; drm_open := -1; va_drm_ok := false;
     va_initialize_ok := true; attributes_ok := false; yuv420_ok := true;
     create_config_ok := true; config_stored := Some 33554432;
     surfaces_malloc_ok := true; create_surfaces_ok := true;
     create_context_ok := true; context_stored := Some 50331648;
     renderer_create_ok := true; renderer_init_ok := true |}.

Definition decode_ok : DecodeOS :=
  {| begin_ok := true; create_buffer_ok := true; render_ok := true;
     end_ok := true; sync_ok := true |}.

Definition sync_fails : DecodeOS :=
  {| begin_ok := true; create_buffer_ok := true; render_ok := true;
     end_ok := true; sync_ok := false |}.

End Vaapi.

(** ** SnackaLinuxRenderer: capi.c *)

Module Capi.

(** [struct InstanceNode]; [next] is the rest of the list. *)
Record InstanceNode := {
  handle : Z;
  decoder : Z
}.

(** The library: the list [s_instances] and the decoders that have been
    allocated and not freed, by address. *)
Record Library := {
  s_instances : list InstanceNode;
  objects : gmap Z Vaapi.VaapiDecoder
}.

Definition empty : Library := {| s_instances := []; objects := ∅ |}.

(** [find_decoder(handle)]; 0 is [NULL]. *)
Fixpoint find_decoder (nodes : list InstanceNode) (h : Z) : Z :=
  match nodes with
  | [] => 0
  | node :: next => if handle node =? h then decoder node else find_decoder next h
  end.

(** [add_instance(handle, decoder)]; [node_ok] says whether [malloc]
    returns a node. *)
Definition add_instance (node_ok : bool) (h d : Z) (nodes : list InstanceNode)
  : list InstanceNode :=
  if node_ok then {| handle := h; decoder := d |} :: nodes else nodes.

(** [remove_instance(handle)]: the decoder of the first node with that
    handle (0 if there is none) and the list without that node. *)
Fixpoint remove_instance (nodes : list InstanceNode) (h : Z)
  : Z * list InstanceNode :=
  match nodes with
  | [] => (0, [])
  | node :: next =>
      if handle node =? h then (decoder node, next)
      else let '(d, next') := remove_instance next h in (d, node :: next')
  end.

(** [va_decoder_create()]; [p] is what [calloc] returns in
    [vaapi_decoder_create], 0 for [NULL]. *)
Definition va_decoder_create (p : Z) (node_ok : bool) (lib : Library)
  : Z * Library :=
  if p =? 0 then (0, lib)
  else (p, {| s_instances := add_instance node_ok p p (s_instances lib);
              objects := <[p := Vaapi.vaapi_decoder_create]> (objects lib) |}).

(** [va_decoder_destroy(handle)] *)
Definition va_decoder_destroy (h : Z) (lib : Library) : Access Library :=
  if h =? 0 then Valid lib
  else
    let '(d, nodes) := remove_instance (s_instances lib) h in
    if d =? 0 then Valid {| s_instances := nodes; objects := objects lib |}
    else
      match objects lib !! d with
      | None => Dangling
      | Some _ => Valid {| s_instances := nodes;
                           objects := delete d (objects lib) |}
      end.

(** The entry points that look the decoder up and call it: [f] is the
    decoder function, [none] what is returned without a decoder. *)
Definition with_decoder {R : Type} (none : R)
    (f : Vaapi.VaapiDecoder -> R * Vaapi.VaapiDecoder) (h : Z) (lib : Library)
  : Access (R * Library) :=
  if h =? 0 then Valid (none, lib)
  else
    let d := find_decoder (s_instances lib) h in
    if d =? 0 then Valid (none, lib)
    else
      match objects lib !! d with
      | None => Dangling
      | Some obj =>
          let '(r, obj') := f obj in
          Valid (r, {| s_instances := s_instances lib;
                       objects := <[d := obj']> (objects lib) |})
      end.

(** [va_decoder_initialize] *)
Definition va_decoder_initialize (os : Vaapi.InitOS) (w h : Z)
    (spsData ppsData : list byte) : Z -> Library -> Access (bool * Library) :=
  with_decoder false
    (fun d => let '(_, ok, d') :=
                Vaapi.vaapi_decoder_initialize os w h spsData ppsData d in
              (ok, d')).

(** [va_decoder_decode_and_render] *)
Definition va_decoder_decode_and_render (os : Vaapi.DecodeOS)
  : Z -> Library -> Access (bool * Library) :=
  with_decoder false
    (fun d => let '(_, ok, d') := Vaapi.vaapi_decoder_decode_and_render os d in
              (ok, d')).

(** [va_decoder_get_view]: the pointer returned, 0 for [NULL];
    [x_window] is the window of the renderer of the decoder that is
    found. *)
Definition va_decoder_get_view (x_window : Z)
  : Z -> Library -> Access (Z * Library) :=
  with_decoder 0 (fun d => (Vaapi.vaapi_decoder_get_view x_window d, d)).

(** A call of the library by its user. *)
Inductive Call :=
  | Create (p : Z) (node_ok : bool)
  | Destroy (h : Z)
  | Initialize (os : Vaapi.InitOS) (w h : Z) (spsData ppsData : list byte) (handle : Z)
  | Decode (os : Vaapi.DecodeOS) (handle : Z)
  | GetView (x_window : Z) (handle : Z).

Definition call (c : Call) (lib : Library) : Access Library :=
  match c with
  | Create p node_ok => Valid (snd (va_decoder_create p node_ok lib))
  | Destroy h => va_decoder_destroy h lib
  | Initialize os w h spsData ppsData handle =>
      match va_decoder_initialize os w h spsData ppsData handle lib with
      | Valid (_, lib') => Valid lib'
      | Dangling => Dangling
      end
  | Decode os handle =>
      match va_decoder_decode_and_render os handle lib with
      | Valid (_, lib') => Valid lib'
      | Dangling => Dangling
      end
  | GetView x_window handle =>
      match va_decoder_get_view x_window handle lib with
      | Valid (_, lib') => Valid lib'
      | Dangling => Dangling
      end
  end.

Fixpoint run (calls : list Call) (lib : Library) : Access Library :=
  match calls with
  | [] => Valid lib
  | c :: rest =>
      match call c lib with
      | Valid lib' => run rest lib'
      | Dangling => Dangling
      end
  end.

(** The allocator never returns the address of an object that is still
    allocated. *)
Fixpoint fresh_addresses (calls : list Call) (lib : Library) : Prop :=
  match calls with
  | [] => True
  | c :: rest =>
      match c with
      | Create p _ => objects lib !! p = None
      | _ => True
      end /\
      match call c lib with
      | Valid lib' => fresh_addresses rest lib'
      | Dangling => True
      end
  end.

(** What the list [s_instances] satisfies: every node maps a handle that
    is not null to itself, the decoder at that address is allocated, and
    no handle occurs twice. *)
Definition consistent (lib : Library) : Prop :=
  Forall (fun node => handle node <> 0 /\ decoder node = handle node /\
                      is_Some (objects lib !! decoder node))
         (s_instances lib) /\
  NoDup (map handle (s_instances lib)).

End Capi.

(** ** SnackaWindowsRenderer: MediaFoundationDecoder.cpp *)

Module MediaFoundation.

(** What the decoder holds: the Media Foundation platform ([MFStartup] to
    [MFShutdown]), the COM objects behind its raw pointers, the renderer
    behind its [unique_ptr]; and the COM objects its functions hold while
    they run: the media types of [ConfigureDecoder], the buffers and
    samples of [DecodeAndRender], the buffer, the DXGI buffer and the
    texture of [RenderFrame]. *)
Inductive Resource :=
  | Platform | Device | Context | DeviceManager | Transform | Renderer
  | MediaType
  | InputBuffer | InputSample | OutputBuffer | OutputSample | DecodedSample
  | FrameBuffer | DxgiBuffer | Texture.

#[global] Instance Resource_eq_dec : EqDecision Resource.
Proof. solve_decision. Defined.

(** A reference taken or given back, and a texture handed to the
    renderer ([m_renderer->RenderNV12Texture]). *)
Inductive Event :=
  | Acquire (r : Resource)
  | Release (r : Resource)
  | RenderNV12Texture.

(** The members [Initialize] and [Cleanup] work on; a pointer is recorded
    as null or not. *)
Record MediaFoundationDecoder := {
  m_initialized : bool;
  m_mfInitialized : bool;
  m_device : bool;
  m_context : bool;
  m_deviceManager : bool;
  m_decoder : bool;
  m_renderer : bool;
  m_width : Z;
  m_height : Z;
  m_sps : list byte;
  m_pps : list byte
}.

(** [MediaFoundationDecoder::Cleanup] *)
Definition Cleanup (d : MediaFoundationDecoder)
  : list Event * MediaFoundationDecoder :=
  ((if m_decoder d then [Release Transform] else [])
   ++ (if m_deviceManager d then [Release DeviceManager] else [])
   ++ (if m_context d then [Release Context] else [])
   ++ (if m_device d then [Release Device] else [])
   ++ (if m_mfInitialized d then [Release Platform] else [])
   ++ (if m_renderer d then [Release Renderer] else []),
   {| m_initialized := false; m_mfInitialized := false;
      m_device := false; m_context := false; m_deviceManager := false;
      m_decoder := false; m_renderer := false;
      m_width := m_width d; m_height := m_height d;
      m_sps := m_sps d; m_pps := m_pps d |}).

(** One output type of the transform, as [GetOutputAvailableType] hands
    it out: whether [GetGUID] succeeds with the subtype NV12, and whether
    [SetOutputType] accepts it. *)
Record OutputType := {
  is_nv12 : bool;
  accepted : bool
}.

(** What the system answers during [ConfigureDecoder]; [available] are
    the types that [GetOutputAvailableType] hands out for the indices 0,
    1, ... before it fails. *)
Record ConfigureOS := {
  input_type_ok : bool;        (* MFCreateMediaType, input type *)
  set_input_ok : bool;         (* SetInputType *)
  available : list OutputType;
  manual_type_ok : bool;       (* MFCreateMediaType, output type *)
  set_manual_ok : bool         (* SetOutputType of the type made by hand *)
}.

(** The loop of [ConfigureDecoder] over the output types: the references
    taken and given back, and whether it returns true from inside. *)
Fixpoint offered (types : list OutputType) : list Event * bool :=
  match types with
  | [] => ([], false)
  | t :: rest =>
      if is_nv12 t && accepted t
      then ([Acquire MediaType; Release MediaType], true)
      else
        let '(events, ok) := offered rest in
        (Acquire MediaType :: Release MediaType :: events, ok)
  end.

(** [MediaFoundationDecoder::ConfigureDecoder] *)
Definition ConfigureDecoder (os : ConfigureOS) : list Event * bool :=
  if negb (input_type_ok os) then ([], false)
  else if negb (set_input_ok os)
  then ([Acquire MediaType; Release MediaType], false)
  else
    let '(events, ok) := offered (available os) in
    let e1 := Acquire MediaType :: Release MediaType :: events in
    if ok then (e1, true)
    else if negb (manual_type_ok os) then (e1, false)
    else (e1 ++ [Acquire MediaType; Release MediaType], set_manual_ok os).

(** What the system answers during [Initialize]. *)
Record InitOS := {
  startup_ok : bool;           (* MFStartup *)
  create_device_ok : bool;     (* D3D11CreateDevice *)
  device_manager_ok : bool;    (* MFCreateDXGIDeviceManager *)
  reset_device_ok : bool;      (* ResetDevice *)
  decoder_found : bool;        (* MFTEnumEx, hardware or software *)
  activate_ok : bool;          (* ActivateObject *)
  configure : ConfigureOS;     (* ConfigureDecoder *)
  renderer_ok : bool;          (* D3D11Renderer::Initialize *)
  streaming_ok : bool          (* MFT_MESSAGE_NOTIFY_BEGIN_STREAMING *)
}.

(** [CreateD3D11Device] *)
Definition CreateD3D11Device (os : InitOS) (d : MediaFoundationDecoder)
  : list Event * bool * MediaFoundationDecoder :=
  let mk (manager : bool) :=
    {| m_initialized := m_initialized d; m_mfInitialized := m_mfInitialized d;
       m_device := true; m_context := true; m_deviceManager := manager;
       m_decoder := m_decoder d; m_renderer := m_renderer d;
       m_width := m_width d; m_height := m_height d;
       m_sps := m_sps d; m_pps := m_pps d |} in
  if negb (create_device_ok os) then ([], false, d)
  else if negb (device_manager_ok os)
  then ([Acquire Device; Acquire Context], false, mk (m_deviceManager d))
  else if negb (reset_device_ok os)
  then ([Acquire Device; Acquire Context; Acquire DeviceManager], false, mk true)
  else ([Acquire Device; Acquire Context; Acquire DeviceManager], true, mk true).

(** [CreateDecoder] *)
Definition CreateDecoder (os : InitOS) (d : MediaFoundationDecoder)
  : list Event * bool * MediaFoundationDecoder :=
  if negb (decoder_found os) then ([], false, d)
  else if negb (activate_ok os) then ([], false, d)
  else ([Acquire Transform], true,
        {| m_initialized := m_initialized d; m_mfInitialized := m_mfInitialized d;
           m_device := m_device d; m_context := m_context d;
           m_deviceManager := m_deviceManager d;
           m_decoder := true; m_renderer := m_renderer d;
           m_width := m_width d; m_height := m_height d;
           m_sps := m_sps d; m_pps := m_pps d |}).

(** The failure exit of [Initialize]: [Cleanup(); return false;] *)
Definition fail (events : list Event) (d : MediaFoundationDecoder)
  : list Event * bool * MediaFoundationDecoder :=
  let '(released, d') := Cleanup d in (events ++ released, false, d').

(** [MediaFoundationDecoder::Initialize(width, height, sps, spsLen, pps,
    ppsLen)]: what is acquired and released, the return value, the
    decoder afterwards. *)
Definition Initialize (os : InitOS) (width height : Z) (sps pps : list byte)
    (d : MediaFoundationDecoder) : list Event * bool * MediaFoundationDecoder :=
  if m_initialized d then ([], false, d)
  else
    let d1 :=
      {| m_initialized := m_initialized d; m_mfInitialized := m_mfInitialized d;
         m_device := m_device d; m_context := m_context d;
         m_deviceManager := m_deviceManager d;
         m_decoder := m_decoder d; m_renderer := m_renderer d;
         m_width := width; m_height := height; m_sps := sps; m_pps := pps |} in
    if negb (startup_ok os) then ([], false, d1)
    else
      let d2 :=
        {| m_initialized := m_initialized d1; m_mfInitialized := true;
           m_device := m_device d1; m_context := m_context d1;
           m_deviceManager := m_deviceManager d1;
           m_decoder := m_decoder d1; m_renderer := m_renderer d1;
           m_width := width; m_height := height; m_sps := sps; m_pps := pps |} in
      let e2 := [Acquire Platform] in
      let '(e3, ok3, d3) := CreateD3D11Device os d2 in
      if negb ok3 then fail (e2 ++ e3) d3
      else
        let '(e4, ok4, d4) := CreateDecoder os d3 in
        if negb ok4 then fail (e2 ++ e3 ++ e4) d4
        else
          let '(types, configured) := ConfigureDecoder (configure os) in
          if negb configured then fail (e2 ++ e3 ++ e4 ++ types) d4
          else
          let with_renderer (init : bool) :=
            {| m_initialized := init; m_mfInitialized := m_mfInitialized d4;
               m_device := m_device d4; m_context := m_context d4;
               m_deviceManager := m_deviceManager d4;
               m_decoder := m_decoder d4; m_renderer := true;
               m_width := m_width d4; m_height := m_height d4;
               m_sps := m_sps d4; m_pps := m_pps d4 |} in
          let e5 := e2 ++ e3 ++ e4 ++ types ++ [Acquire Renderer] in
          if negb (renderer_ok os) then fail e5 (with_renderer false)
          else if negb (streaming_ok os) then fail e5 (with_renderer false)
          else (e5, true, with_renderer true).

(** [DecodeAndRender] *)

Inductive InputResult := Accepted | NotAccepting | InputFailed.

(** The answer of [ProcessOutput]; on success, whether the sample in the
    output buffer is set when the decoder allocates it. *)
Inductive OutputResult :=
  | NeedMoreInput
  | StreamChange
  | OutputFailed
  | Produced (pSample : bool).

(** What the system answers during [RenderFrame]. *)
Record FrameOS := {
  buffer_ok : bool;            (* IMFSample::GetBufferByIndex *)
  dxgi_ok : bool;              (* QueryInterface for IMFDXGIBuffer *)
  texture_ok : bool            (* IMFDXGIBuffer::GetResource *)
}.

(** [MediaFoundationDecoder::RenderFrame(sample)] *)
Definition RenderFrame (os : FrameOS) (d : MediaFoundationDecoder)
  : list Event :=
  if negb (m_renderer d) then []
  else if negb (buffer_ok os) then []
  else if dxgi_ok os then
    if texture_ok os
    then [Acquire FrameBuffer; Acquire DxgiBuffer; Acquire Texture;
          RenderNV12Texture; Release Texture; Release DxgiBuffer;
          Release FrameBuffer]
    else [Acquire FrameBuffer; Acquire DxgiBuffer; Release DxgiBuffer;
          Release FrameBuffer]
  else [Acquire FrameBuffer; Release FrameBuffer].

(** What the system answers during one [DecodeAndRender]. *)
Record DecodeOS := {
  memory_buffer_ok : bool;     (* MFCreateMemoryBuffer of the input *)
  lock_ok : bool;              (* IMFMediaBuffer::Lock *)
  sample_ok : bool;            (* MFCreateSample of the input *)
  process_input : InputResult;
  decoder_allocates : bool;    (* MFT_OUTPUT_STREAM_(CAN_)PROVIDE(S)_SAMPLES *)
  output_sample_ok : bool;     (* MFCreateSample of the output *)
  output_buffer_ok : bool;     (* MFCreateMemoryBuffer of the output *)
  process_output : OutputResult;
  frame : FrameOS              (* RenderFrame *)
}.

(** [CreateSampleFromNAL]: the references taken and given back, and
    whether a sample is returned. *)
Definition CreateSampleFromNAL (os : DecodeOS) : list Event * bool :=
  if negb (memory_buffer_ok os) then ([], false)
  else if negb (lock_ok os) then ([Acquire InputBuffer; Release InputBuffer], false)
  else if negb (sample_ok os) then ([Acquire InputBuffer; Release InputBuffer], false)
  else ([Acquire InputBuffer; Acquire InputSample; Release InputBuffer], true).

(** [MediaFoundationDecoder::DecodeAndRender]: the references taken and
    given back, and the return value.  The results of the two calls that
    build the output sample are not checked: when one fails, the next
    statement goes through the null pointer. *)
Definition DecodeAndRender (os : DecodeOS) (d : MediaFoundationDecoder)
  : list Event * Outcome bool :=
  if negb (m_initialized d) || negb (m_decoder d) then ([], Done false)
  else
    let '(e1, inputSample) := CreateSampleFromNAL os in
    if negb inputSample then (e1, Done false)
    else
      let e2 := e1 ++ [Release InputSample] in
      match process_input os with
      | InputFailed => (e2, Done false)
      | Accepted | NotAccepting =>
          if negb (decoder_allocates os) && negb (output_sample_ok os)
          then (e2, NullDereference)
          else if negb (decoder_allocates os) && negb (output_buffer_ok os)
          then (e2 ++ [Acquire OutputSample], NullDereference)
          else
            let e3 := if decoder_allocates os then e2
                      else e2 ++ [Acquire OutputSample; Acquire OutputBuffer;
                                  Release OutputBuffer] in
            let release_output :=
              if decoder_allocates os then [] else [Release OutputSample] in
            match process_output os with
            | NeedMoreInput | StreamChange => (e3 ++ release_output, Done true)
            | OutputFailed => (e3 ++ release_output, Done false)
            | Produced pSample =>
                if decoder_allocates os then
                  if pSample
                  then (e3 ++ [Acquire DecodedSample]
                           ++ RenderFrame (frame os) d
                           ++ [Release DecodedSample], Done true)
                  else (e3, Done true)
                else (e3 ++ RenderFrame (frame os) d
                         ++ [Release OutputSample], Done true)
            end
      end.

(** How often [r] is held after [events]: references taken less
    references given back. *)
Fixpoint held (r : Resource) (events : list Event) : Z :=
  match events with
  | [] => 0
  | Acquire r' :: rest => (if bool_decide (r = r') then 1 else 0) + held r rest
  | Release r' :: rest => held r rest - (if bool_decide (r = r') then 1 else 0)
  | RenderNV12Texture :: rest => held r rest
  end.

(** How many textures have been rendered. *)
Fixpoint renders (events : list Event) : nat :=
  match events with
  | [] => O
  | RenderNV12Texture :: rest => S (renders rest)
  | _ :: rest => renders rest
  end.

(** The resources [Initialize] acquires. *)
Definition member (r : Resource) : bool :=
  match r with
  | Platform | Device | Context | DeviceManager | Transform | Renderer => true
  | _ => false
  end.

(** The decoder holds nothing and is not initialized. *)
Definition clean (d : MediaFoundationDecoder) : Prop :=
  m_initialized d = false /\ m_mfInitialized d = false /\
  m_device d = false /\ m_context d = false /\ m_deviceManager d = false /\
  m_decoder d = false /\ m_renderer d = false.

(** The decoder holds everything and is initialized. *)
Definition ready (d : MediaFoundationDecoder) : Prop :=
  m_initialized d = true /\ m_mfInitialized d = true /\
  m_device d = true /\ m_context d = true /\ m_deviceManager d = true /\
  m_decoder d = true /\ m_renderer d = true.

(** *** CreateSampleFromNAL *)

Definition byte_of (z : Z) : byte :=
  default x00 (Byte.of_N (Z.to_N (z mod 256))).

(** The four bytes written in front of the NAL unit:
    [(nalLen >> 24) & 0xFF], ..., [nalLen & 0xFF]. *)
Definition length_prefix (nalLen : Z) : list byte :=
  [ byte_of (Z.land (Z.shiftr nalLen 24) 255);
    byte_of (Z.land (Z.shiftr nalLen 16) 255);
    byte_of (Z.land (Z.shiftr nalLen 8) 255);
    byte_of (Z.land nalLen 255) ].

(** [totalLength = nalLen + 4] *)
Definition totalLength (nalLen : Z) : Z := Int.i32 (nalLen + 4).

(** The contents of the media buffer of [CreateSampleFromNAL]: the
    prefix, then [nalLen] bytes of [nalData]. *)
Definition sample_bytes (nalData : list byte) (nalLen : Z) : list byte :=
  length_prefix nalLen ++ take (Z.to_nat nalLen) nalData.

(** Reference: the 32-bit big-endian number at the start of a buffer, as
    an AVCC reader takes the length of the NAL unit that follows. *)
Definition be32 (buf : list byte) : Z :=
  Audio.byte_at buf 0 * 2 ^ 24 + Audio.byte_at buf 1 * 2 ^ 16
  + Audio.byte_at buf 2 * 2 ^ 8 + Audio.byte_at buf 3.

(** A transform that offers a P010 type and then NV12, and accepts both. *)
Definition offers_nv12 : ConfigureOS :=
  {| input_type_ok := true; set_input_ok := true;
     available := [ {| is_nv12 := false; accepted := true |};
                    {| is_nv12 := true; accepted := true |} ];
     manual_type_ok := true; set_manual_ok := true |}.

(** A transform that offers NV12 and refuses it, also when it is made
    by hand. *)
Definition refuses_nv12 : ConfigureOS :=
  {| input_type_ok := true; set_input_ok := true;
     available := [ {| is_nv12 := true; accepted := false |} ];
     manual_type_ok := true; set_manual_ok := false |}.

Definition all_ok : InitOS :=
  {| startup_ok := true; create_device_ok := true; device_manager_ok := true;
     reset_device_ok := true; decoder_found := true; activate_ok := true;
     configure := offers_nv12; renderer_ok := true; streaming_ok := true |}.

(** A system on which the decoder cannot be configured. *)
Definition unconfigurable : InitOS :=
  {| startup_ok := true; create_device_ok := true; device_manager_ok := true;
     reset_device_ok := true; decoder_found := true; activate_ok := true;
     configure := refuses_nv12; renderer_ok := true; streaming_ok := true |}.

(** A sample that holds a texture of the decoder. *)
Definition hardware_frame : FrameOS :=
  {| buffer_ok := true; dxgi_ok := true; texture_ok := true |}.

(** A decoder that waits for more input, with a transform that does not
    allocate its output samples. *)
Definition wants_more : DecodeOS :=
  {| memory_buffer_ok := true; lock_ok := true; sample_ok := true;
     process_input := Accepted; decoder_allocates := false;
     output_sample_ok := true; output_buffer_ok := true;
     process_output := NeedMoreInput; frame := hardware_frame |}.

Definition nothing : MediaFoundationDecoder :=
  {| m_initialized := false; m_mfInitialized := false;
     m_device := false; m_context := false; m_deviceManager := false;
     m_decoder := false; m_renderer := false;
     m_width := 0; m_height := 0; m_sps := []; m_pps := [] |}.

End MediaFoundation.

(** ** SnackaWindowsRenderer: CApi.cpp *)

Module MfApi.
Import MediaFoundation.

(** The library: the map [s_instances] from handles to decoders, and the
    decoders that have been allocated and not deleted, by address. *)
Record Library := {
  s_instances : gmap Z Z;
  objects : gmap Z MediaFoundationDecoder
}.

Definition empty : Library := {| s_instances := ∅; objects := ∅ |}.

(** [mf_decoder_create()]: [p] is the address [new] returns and [obj] the
    decoder constructed there, [None] when [new] throws; [insert_ok] is
    false when the insertion into the map throws.  Either exception is
    caught and [nullptr] returned. *)
Definition mf_decoder_create (allocated : option (Z * MediaFoundationDecoder))
    (insert_ok : bool) (lib : Library) : Z * Library :=
  match allocated with
  | None => (0, lib)
  | Some (p, obj) =>
      let lib1 := {| s_instances := s_instances lib;
                     objects := <[p := obj]> (objects lib) |} in
      if negb insert_ok then (0, lib1)
      else (p, {| s_instances := <[p := p]> (s_instances lib1);
                  objects := objects lib1 |})
  end.

(** [mf_decoder_destroy(handle)]; [delete] runs the destructor, hence
    [Cleanup], on the decoder. *)
Definition mf_decoder_destroy (h : Z) (lib : Library)
  : Access (list Event * Library) :=
  if h =? 0 then Valid ([], lib)
  else
    match s_instances lib !! h with
    | None => Valid ([], lib)
    | Some d =>
        if d =? 0
        then Valid ([], {| s_instances := delete h (s_instances lib);
                           objects := objects lib |})
        else
          match objects lib !! d with
          | None => Dangling
          | Some obj =>
              Valid (fst (Cleanup obj),
                     {| s_instances := delete h (s_instances lib);
                        objects := delete d (objects lib) |})
          end
    end.

(** The entry points that look the decoder up and call a member of it. *)
Definition with_decoder {R : Type} (none : R)
    (f : MediaFoundationDecoder -> R * MediaFoundationDecoder)
    (h : Z) (lib : Library) : Access (R * Library) :=
  if h =? 0 then Valid (none, lib)
  else
    match s_instances lib !! h with
    | None => Valid (none, lib)
    | Some d =>
        match objects lib !! d with
        | None => Dangling
        | Some obj =>
            let '(r, obj') := f obj in
            Valid (r, {| s_instances := s_instances lib;
                         objects := <[d := obj']> (objects lib) |})
        end
    end.

(** [mf_decoder_initialize] *)
Definition mf_decoder_initialize (os : InitOS) (width height : Z)
    (spsData ppsData : list byte) : Z -> Library -> Access (bool * Library) :=
  with_decoder false
    (fun d => let '(_, ok, d') := Initialize os width height spsData ppsData d in
              (ok, d')).

(** [mf_decoder_decode_and_render] *)
Definition mf_decoder_decode_and_render (os : DecodeOS)
  : Z -> Library -> Access (Outcome bool * Library) :=
  with_decoder (Done false) (fun d => (snd (DecodeAndRender os d), d)).

(** [mf_decoder_get_view]: whether the call gets as far as
    [D3D11Renderer::GetHwnd] (a decoder with a renderer is found), whose
    result it then returns; without, it returns [nullptr]. *)
Definition mf_decoder_get_view : Z -> Library -> Access (bool * Library) :=
  with_decoder false (fun d => (m_renderer d, d)).

Inductive Call :=
  | Create (allocated : option (Z * MediaFoundationDecoder)) (insert_ok : bool)
  | Destroy (h : Z)
  | Init (os : InitOS) (width height : Z) (spsData ppsData : list byte) (handle : Z)
  | Decode (os : DecodeOS) (handle : Z)
  | GetView (handle : Z).

Definition call (c : Call) (lib : Library) : Access Library :=
  match c with
  | Create allocated insert_ok =>
      Valid (snd (mf_decoder_create allocated insert_ok lib))
  | Destroy h =>
      match mf_decoder_destroy h lib with
      | Valid (_, lib') => Valid lib'
      | Dangling => Dangling
      end
  | Init os width height spsData ppsData handle =>
      match mf_decoder_initialize os width height spsData ppsData handle lib with
      | Valid (_, lib') => Valid lib'
      | Dangling => Dangling
      end
  | Decode os handle =>
      match mf_decoder_decode_and_render os handle lib with
      | Valid (_, lib') => Valid lib'
      | Dangling => Dangling
      end
  | GetView handle =>
      match mf_decoder_get_view handle lib with
      | Valid (_, lib') => Valid lib'
      | Dangling => Dangling
      end
  end.

Fixpoint run (calls : list Call) (lib : Library) : Access Library :=
  match calls with
  | [] => Valid lib
  | c :: rest =>
      match call c lib with
      | Valid lib' => run rest lib'
      | Dangling => Dangling
      end
  end.

(** [new] never returns null or the address of a decoder that is still
    allocated. *)
Fixpoint fresh_addresses (calls : list Call) (lib : Library) : Prop :=
  match calls with
  | [] => True
  | c :: rest =>
      match c with
      | Create (Some (p, _)) _ => p <> 0 /\ objects lib !! p = None
      | _ => True
      end /\
      match call c lib with
      | Valid lib' => fresh_addresses rest lib'
      | Dangling => True
      end
  end.

(** What the map satisfies: a handle is not null, it maps to itself, and
    the decoder at that address is allocated. *)
Definition consistent (lib : Library) : Prop :=
  forall h d, s_instances lib !! h = Some d ->
              h <> 0 /\ d = h /\ is_Some (objects lib !! d).

End MfApi.

(** ** SnackaLinuxRenderer: x11_window.c and egl_renderer.c *)

Module Egl.

(** What the renderer takes from the X server, from EGL and from GL: the
    colormap and the overlay window, the region of
    [x11_set_click_through], the EGL connection ([eglInitialize] to
    [eglTerminate]), the context and the window surface, the shaders, the
    program and the textures, and for one frame the two EGL images and
    the DMA-BUF descriptors that [vaExportSurfaceHandle] hands out. *)
Inductive Resource :=
  | Colormap | Window | Region
  | EglDisplay | EglContext | EglSurface
  | Shader | Program | Texture
  | Image | DmaBuf.

#[global] Instance Resource_eq_dec : EqDecision Resource.
Proof. solve_decision. Defined.

(** A call that takes a resource and succeeds, a call that gives one
    back, and the two ways a frame gets on the screen: [glDrawArrays]
    with [eglSwapBuffers], and [vaPutSurface]. *)
Inductive Event :=
  | Acquire (r : Resource)
  | Release (r : Resource)
  | Draw
  | PutSurface.

(** How often [r] has been taken and not given back. *)
Fixpoint held (r : Resource) (events : list Event) : Z :=
  match events with
  | [] => 0
  | Acquire r' :: rest => (if bool_decide (r' = r) then 1 else 0) + held r rest
  | Release r' :: rest => held r rest - (if bool_decide (r' = r) then 1 else 0)
  | _ :: rest => held r rest
  end.

(** How many frames have been drawn through GL. *)
Fixpoint draws (events : list Event) : nat :=
  match events with
  | [] => O
  | Draw :: rest => S (draws rest)
  | _ :: rest => draws rest
  end.

(** *** x11_window.c *)

(** What the X server answers in [x11_create_overlay_window]. *)
Record WindowOS := {
  visual_ok : bool;            (* XMatchVisualInfo *)
  created_window : Z;          (* XCreateWindow, 0 on failure *)
  xfixes_ok : bool             (* XFixesQueryExtension *)
}.

(** [x11_set_click_through(display, window)] *)
Definition x11_set_click_through (os : WindowOS) (display : bool) (window : Z)
  : list Event * bool :=
  if negb display || (window =? 0) then ([], false)
  else if negb (xfixes_ok os) then ([], false)
  else ([Acquire Region; Release Region], true).

(** [x11_create_overlay_window(display, width, height)]: the window, 0
    for none. *)
Definition x11_create_overlay_window (os : WindowOS) (display : bool)
  : list Event * Z :=
  if negb display then ([], 0)
  else if negb (visual_ok os) then ([], 0)
  else if created_window os =? 0
  then ([Acquire Colormap; Release Colormap], 0)
  else
    ([Acquire Colormap; Acquire Window]
       ++ fst (x11_set_click_through os display (created_window os)),
     created_window os).

(** [x11_destroy_overlay_window(display, window)] *)
Definition x11_destroy_overlay_window (display : bool) (window : Z)
  : list Event :=
  if display && negb (window =? 0) then [Release Window] else [].

(** *** egl_renderer.c *)

(** [struct EglRenderer], as far as the control flow reads it: pointers
    and EGL handles as "set" or not, the window and the GL names by
    their value, 0 for none. *)
Record EglRenderer := {
  x_display : bool;
  x_window : Z;
  egl_display : bool;
  egl_context : bool;
  egl_surface : bool;
  gl_program : Z;
  y_texture : Z;
  uv_texture : Z;
  width : Z;
  height : Z;
  initialized : bool
}.

(** The three static function pointers of the file, null or not. *)
Record Extensions := {
  s_eglCreateImageKHR : bool;
  s_eglDestroyImageKHR : bool;
  s_glEGLImageTargetTexture2DOES : bool
}.

(** Before the first [egl_renderer_initialize] they are null. *)
Definition no_extensions : Extensions :=
  {| s_eglCreateImageKHR := false; s_eglDestroyImageKHR := false;
     s_glEGLImageTargetTexture2DOES := false |}.

(** [egl_renderer_create(x_display)] on the block [calloc] returns. *)
Definition egl_renderer_create (display : bool) : EglRenderer :=
  {| x_display := display; x_window := 0; egl_display := false;
     egl_context := false; egl_surface := false; gl_program := 0;
     y_texture := 0; uv_texture := 0; width := 0; height := 0;
     initialized := false |}.

(** [compile_shader]: [shader] is what [glCreateShader] returns (0 for
    none), [compiled] what [glGetShaderiv] stores. *)
Definition compile_shader (shader : Z) (compiled : bool) : list Event * Z :=
  let created := if shader =? 0 then [] else [Acquire Shader] in
  if negb compiled
  then (created ++ (if shader =? 0 then [] else [Release Shader]), 0)
  else (created, shader).

(** What GL answers in [create_program]. *)
Record ProgramOS := {
  vertex_shader : Z;
  vertex_compiled : bool;
  fragment_shader : Z;
  fragment_compiled : bool;
  program : Z;                 (* glCreateProgram, 0 for none *)
  linked : bool
}.

(** [create_program] *)
Definition create_program (os : ProgramOS) : list Event * Z :=
  let '(e1, vs) := compile_shader (vertex_shader os) (vertex_compiled os) in
  if vs =? 0 then (e1, 0)
  else
    let '(e2, fs) :=
      compile_shader (fragment_shader os) (fragment_compiled os) in
    if fs =? 0 then (e1 ++ e2 ++ [Release Shader], 0)
    else
      let created := if program os =? 0 then [] else [Acquire Program] in
      let e3 := e1 ++ e2 ++ created ++ [Release Shader; Release Shader] in
      if negb (linked os)
      then (e3 ++ (if program os =? 0 then [] else [Release Program]), 0)
      else (e3, program os).

(** What the system answers during [egl_renderer_initialize]. *)
Record InitOS := {
  window_os : WindowOS;
  get_display_ok : bool;       (* eglGetDisplay *)
  egl_initialize_ok : bool;    (* eglInitialize *)
  choose_config_ok : bool;     (* eglChooseConfig, and num_configs != 0 *)
  create_context_ok : bool;    (* eglCreateContext *)
  create_surface_ok : bool;    (* eglCreateWindowSurface *)
  make_current_ok : bool;      (* eglMakeCurrent *)
  extensions : Extensions;     (* eglGetProcAddress, three times *)
  program_os : ProgramOS;
  y_texture_name : Z;          (* glGenTextures *)
  uv_texture_name : Z
}.

(** [egl_renderer_initialize(renderer, width, height)] on a renderer that
    is not null: what it takes, its return value, the static function
    pointers and the renderer afterwards. *)
Definition egl_renderer_initialize (os : InitOS) (w h : Z)
    (ext : Extensions) (r : EglRenderer)
  : list Event * bool * Extensions * EglRenderer :=
  if initialized r then ([], false, ext, r)
  else
    let '(e1, win) := x11_create_overlay_window (window_os os) (x_display r) in
    let mk (disp ctx surf : bool) (prog y uv : Z) (init : bool) :=
      {| x_display := x_display r; x_window := win; egl_display := disp;
         egl_context := ctx; egl_surface := surf; gl_program := prog;
         y_texture := y; uv_texture := uv; width := w; height := h;
         initialized := init |} in
    let old := mk (egl_display r) (egl_context r) (egl_surface r)
                  (gl_program r) (y_texture r) (uv_texture r) false in
    if win =? 0 then (e1, false, ext, old)
    else if negb (get_display_ok os)
    then (e1, false, ext,
          mk false (egl_context r) (egl_surface r)
             (gl_program r) (y_texture r) (uv_texture r) false)
    else
      let r2 := mk true (egl_context r) (egl_surface r)
                   (gl_program r) (y_texture r) (uv_texture r) false in
      if negb (egl_initialize_ok os) then (e1, false, ext, r2)
      else
        let e2 := e1 ++ [Acquire EglDisplay] in
        if negb (choose_config_ok os) then (e2, false, ext, r2)
        else if negb (create_context_ok os)
        then (e2, false, ext,
              mk true false (egl_surface r)
                 (gl_program r) (y_texture r) (uv_texture r) false)
        else
          let e3 := e2 ++ [Acquire EglContext] in
          if negb (create_surface_ok os)
          then (e3, false, ext,
                mk true true false
                   (gl_program r) (y_texture r) (uv_texture r) false)
          else
            let e4 := e3 ++ [Acquire EglSurface] in
            let r4 := mk true true true
                         (gl_program r) (y_texture r) (uv_texture r) false in
            if negb (make_current_ok os) then (e4, false, ext, r4)
            else
              let '(e5, prog) := create_program (program_os os) in
              if prog =? 0
              then (e4 ++ e5, false, extensions os,
                    mk true true true 0 (y_texture r) (uv_texture r) false)
              else
                (e4 ++ e5
                    ++ (if y_texture_name os =? 0 then []
                        else [Acquire Texture])
                    ++ (if uv_texture_name os =? 0 then []
                        else [Acquire Texture]),
                 true, extensions os,
                 mk true true true prog
                    (y_texture_name os) (uv_texture_name os) true).

(** [egl_renderer_destroy] on a renderer that is not null: what it gives
    back before it frees the renderer. *)
Definition egl_renderer_destroy (r : EglRenderer) : list Event :=
  (if initialized r
   then (if gl_program r =? 0 then [] else [Release Program]) ++
        (if y_texture r =? 0 then [] else [Release Texture]) ++
        (if uv_texture r =? 0 then [] else [Release Texture]) ++
        (if egl_surface r then [Release EglSurface] else []) ++
        (if egl_context r then [Release EglContext] else []) ++
        [Release EglDisplay]
   else []) ++
  (if x_window r =? 0 then []
   else x11_destroy_overlay_window (x_display r) (x_window r)).

(** What the system answers during [egl_renderer_render_surface];
    [num_objects] is the number of DMA-BUF descriptors in the surface
    descriptor that [vaExportSurfaceHandle] fills in. *)
Record RenderOS := {
  render_current_ok : bool;    (* eglMakeCurrent *)
  export_ok : bool;            (* vaExportSurfaceHandle *)
  num_objects : nat;
  y_image_ok : bool;           (* s_eglCreateImageKHR, Y plane *)
  uv_image_ok : bool;          (* s_eglCreateImageKHR, UV plane *)
  put_surface_ok : bool        (* vaPutSurface *)
}.

(** [egl_renderer_render_surface(renderer, va_display, surface)] on a
    renderer that is not null.  A call through a static function pointer
    that is null has no defined result. *)
Definition egl_renderer_render_surface (os : RenderOS) (ext : Extensions)
    (r : EglRenderer) : list Event * Outcome bool :=
  if negb (initialized r) then ([], Done false)
  else if negb (render_current_ok os) then ([], Done false)
  else
    let exported :=
      if export_ok os then replicate (num_objects os) (Acquire DmaBuf)
      else [] in
    if export_ok os && s_eglCreateImageKHR ext
       && s_glEGLImageTargetTexture2DOES ext
    then
      let images :=
        (if y_image_ok os then [Acquire Image] else []) ++
        (if uv_image_ok os then [Acquire Image] else []) in
      let drawn := if y_image_ok os && uv_image_ok os then [Draw] else [] in
      let e := exported ++ images ++ drawn in
      if (y_image_ok os || uv_image_ok os)
         && negb (s_eglDestroyImageKHR ext)
      then (e, NullDereference)
      else
        (e ++ (if y_image_ok os then [Release Image] else [])
           ++ (if uv_image_ok os then [Release Image] else [])
           ++ replicate (num_objects os) (Release DmaBuf),
         Done true)
    else (exported ++ [PutSurface], Done (put_surface_ok os)).

(** [egl_renderer_get_window] *)
Definition egl_renderer_get_window (r : EglRenderer) : Z := x_window r.

(** A system on which every call succeeds. *)
Definition working : InitOS :=
  {| window_os := {| visual_ok := true; created_window := 4194305;
                     xfixes_ok := true |};
     get_display_ok := true; egl_initialize_ok := true;
     choose_config_ok := true; create_context_ok := true;
     create_surface_ok := true; make_current_ok := true;
     extensions := {| s_eglCreateImageKHR := true;
                      s_eglDestroyImageKHR := true;
                      s_glEGLImageTargetTexture2DOES := true |};
     program_os := {| vertex_shader := 1; vertex_compiled := true;
                      fragment_shader := 2; fragment_compiled := true;
                      program := 3; linked := true |};
     y_texture_name := 1; uv_texture_name := 2 |}.

(** The same system, but the fragment shader does not compile. *)
Definition shader_fails : InitOS :=
  {| window_os := window_os working;
     get_display_ok := true; egl_initialize_ok := true;
     choose_config_ok := true; create_context_ok := true;
     create_surface_ok := true; make_current_ok := true;
     extensions := extensions working;
     program_os := {| vertex_shader := 1; vertex_compiled := true;
                      fragment_shader := 2; fragment_compiled := false;
                      program := 3; linked := true |};
     y_texture_name := 1; uv_texture_name := 2 |}.

(** The export of a surface succeeds, with two descriptors. *)
Definition exports_two : RenderOS :=
  {| render_current_ok := true; export_ok := true; num_objects := 2;
     y_image_ok := true; uv_image_ok := true; put_surface_ok := true |}.

End Egl.

(** * Properties *)

(** ** Vectors, loops and wrap-around *)

Section VecFacts.
Context {A : Type}.
Implicit Types (v : list A) (k : Z) (x d : A).

Lemma Vec_length_set v k x : length (Vec.set v k x) = length v.
Proof.
  unfold Vec.set. destruct (_ && _); [apply length_insert | reflexivity].
Qed.

Lemma Vec_get_outside d v k :
  Z.of_nat (length v) <= k -> Vec.get d v k = d.
Proof.
  intros Hk. unfold Vec.get.
  destruct (0 <=? k) eqn:H0; simpl; [|reflexivity].
  destruct (k <? Z.of_nat (length v)) eqn:H1; [|reflexivity].
  apply Z.ltb_lt in H1. lia.
Qed.

Lemma Vec_get_set_eq d v k x :
  0 <= k < Z.of_nat (length v) -> Vec.get d (Vec.set v k x) k = x.
Proof.
  intros [H0 H1]. unfold Vec.get. rewrite Vec_length_set. unfold Vec.set.
  apply Z.leb_le in H0 as H0'. apply Z.ltb_lt in H1 as H1'.
  rewrite H0', H1'. simpl.
  rewrite list_lookup_insert_eq by lia. reflexivity.
Qed.

Lemma Vec_get_set_ne d v k k' x :
  k <> k' -> Vec.get d (Vec.set v k x) k' = Vec.get d v k'.
Proof.
  intros Hne. unfold Vec.get. rewrite Vec_length_set. unfold Vec.set.
  destruct ((0 <=? k) && (k <? Z.of_nat (length v))) eqn:Hk; [|reflexivity].
  destruct ((0 <=? k') && (k' <? Z.of_nat (length v))) eqn:Hk'; [|reflexivity].
  apply andb_true_iff in Hk as [Hk0 _]. apply andb_true_iff in Hk' as [Hk0' _].
  apply Z.leb_le in Hk0, Hk0'.
  rewrite list_lookup_insert_ne by lia. reflexivity.
Qed.

Lemma Vec_get_lookup d v (i : nat) x :
  v !! i = Some x -> Vec.get d v (Z.of_nat i) = x.
Proof.
  intros Hx. unfold Vec.get. apply lookup_lt_Some in Hx as Hlt.
  destruct (0 <=? Z.of_nat i) eqn:H0; [|apply Z.leb_gt in H0; lia].
  destruct (Z.of_nat i <? Z.of_nat (length v)) eqn:H1;
    [|apply Z.ltb_ge in H1; lia].
  simpl. rewrite Nat2Z.id, Hx. reflexivity.
Qed.

Lemma Vec_lookup_get d v (i : nat) :
  (i < length v)%nat -> v !! i = Some (Vec.get d v (Z.of_nat i)).
Proof.
  intros Hlt. destruct (lookup_lt_is_Some_2 v i Hlt) as [x Hx].
  rewrite Hx. f_equal. symmetry. now apply Vec_get_lookup.
Qed.
End VecFacts.

(** The invariant rule of [for_loop]. *)
Lemma for_loop_invariant {S : Type} (P : nat -> S -> Prop) (n : nat)
    (body : nat -> S -> S) (s : S) :
  P O s ->
  (forall i s, (i < n)%nat -> P i s -> P (Datatypes.S i) (body i s)) ->
  P n (for_loop n body s).
Proof.
  intros H0 Hstep. induction n as [|n IH]; simpl; [exact H0|].
  apply Hstep; [lia|]. apply IH. intros i s' Hi. apply Hstep. lia.
Qed.

(** Doubling commutes with wrap-around: an even index stays even and the
    odd index that follows it stays next to it. *)
Lemma wrap_double (w i : Z) :
  0 < w -> Int.wrap w (i * 2) = 2 * (i mod 2 ^ (w - 1)).
Proof.
  intros Hw. unfold Int.wrap.
  replace (2 ^ w) with (2 * 2 ^ (w - 1)).
  - rewrite (Z.mul_comm i 2). apply Z.mul_mod_distr_l; lia.
  - rewrite <- Z.pow_succ_r by lia. f_equal. lia.
Qed.

Lemma wrap_double_succ (w i : Z) :
  0 < w -> Int.wrap w (i * 2 + 1) = 2 * (i mod 2 ^ (w - 1)) + 1.
Proof.
  intros Hw. unfold Int.wrap.
  assert (Hp : 0 < 2 ^ (w - 1)) by (apply Z.pow_pos_nonneg; lia).
  assert (E : 2 ^ w = 2 * 2 ^ (w - 1)).
  { rewrite <- Z.pow_succ_r by lia. f_equal. lia. }
  rewrite E. symmetry.
  apply Z.mod_unique with (q := i / 2 ^ (w - 1)).
  - left. pose proof (Z.mod_pos_bound i (2 ^ (w - 1)) Hp). lia.
  - pose proof (Z.div_mod i (2 ^ (w - 1))). lia.
Qed.

Lemma wrap_small (w z : Z) : 0 <= z < 2 ^ w -> Int.wrap w z = z.
Proof. intros H. unfold Int.wrap. apply Z.mod_small. exact H. Qed.

Lemma wrap_range (w z : Z) : 0 <= w -> 0 <= Int.wrap w z < 2 ^ w.
Proof.
  intros Hw. unfold Int.wrap. apply Z.mod_pos_bound.
  apply Z.pow_pos_nonneg; lia.
Qed.

Lemma size_t_of_double_range (d : spec_float) :
  0 <= Cast.size_t_of_double d < 2 ^ 64.
Proof.
  unfold Cast.size_t_of_double, Cast.size_t_indefinite.
  destruct (IEEE.trunc d) as [v|]; [|lia].
  destruct ((0 <=? v) && (v <? 2 ^ 64)) eqn:E; [|lia].
  apply andb_true_iff in E as [E1 E2].
  apply Z.leb_le in E1. apply Z.ltb_lt in E2. lia.
Qed.

Lemma for_loop_ext {S : Type} (n : nat) (body body' : nat -> S -> S) (s : S) :
  (forall i s, (i < n)%nat -> body i s = body' i s) ->
  for_loop n body s = for_loop n body' s.
Proof.
  intros H. induction n as [|n IH]; simpl; [reflexivity|].
  rewrite IH by (intros; apply H; lia). apply H. lia.
Qed.

(** ** Loops that store the same value at [2i] and [2i + 1] *)

Section PairedStores.
Context {A : Type} (d : A).

Variable M : Z.
Variable f : nat -> A.
Hypothesis M_pos : 0 < M.

Lemma store_pair_length i buf : length (Vec.store_pair M f i buf) = length buf.
Proof. unfold Vec.store_pair. now rewrite !Vec_length_set. Qed.

Lemma store_pair_other i buf j :
  j <> Z.of_nat i mod M ->
  Vec.get d (Vec.store_pair M f i buf) (2 * j) = Vec.get d buf (2 * j) /\
  Vec.get d (Vec.store_pair M f i buf) (2 * j + 1) = Vec.get d buf (2 * j + 1).
Proof.
  intros Hj. unfold Vec.store_pair. split; rewrite !Vec_get_set_ne by lia; reflexivity.
Qed.

Lemma store_pair_same i buf :
  2 * (Z.of_nat i mod M) + 1 < Z.of_nat (length buf) ->
  Vec.get d (Vec.store_pair M f i buf) (2 * (Z.of_nat i mod M)) = f i /\
  Vec.get d (Vec.store_pair M f i buf) (2 * (Z.of_nat i mod M) + 1) = f i.
Proof.
  intros Hlen. pose proof (Z.mod_pos_bound (Z.of_nat i) M M_pos) as Hq.
  unfold Vec.store_pair. split.
  - rewrite Vec_get_set_ne by lia. apply Vec_get_set_eq. lia.
  - apply Vec_get_set_eq. rewrite Vec_length_set. lia.
Qed.

Lemma paired_stores (n : nat) (buf : list A) :
  Z.of_nat (length buf) <= 2 * M ->
  Z.Even (Z.of_nat (length buf)) ->
  Z.of_nat (length buf) <= 2 * Z.of_nat n ->
  length (for_loop n (Vec.store_pair M f) buf) = length buf /\
  Vec.paired d (for_loop n (Vec.store_pair M f) buf).
Proof.
  intros HM Heven Hn.
  assert (Inv : length (for_loop n (Vec.store_pair M f) buf) = length buf /\
                forall j, 0 <= j < Z.of_nat n ->
                          2 * j + 1 < Z.of_nat (length buf) ->
                          Vec.get d (for_loop n (Vec.store_pair M f) buf) (2 * j) =
                          Vec.get d (for_loop n (Vec.store_pair M f) buf) (2 * j + 1)).
  { apply (for_loop_invariant
             (fun i s => length s = length buf /\
                         forall j, 0 <= j < Z.of_nat i ->
                                   2 * j + 1 < Z.of_nat (length buf) ->
                                   Vec.get d s (2 * j) = Vec.get d s (2 * j + 1))).
    - split; [reflexivity|]. intros j Hj. lia.
    - intros i s Hi [Hlen IH]. split.
      + now rewrite store_pair_length.
      + intros j Hj Hin.
        destruct (Z.eq_dec j (Z.of_nat i mod M)) as [->|Hne].
        * destruct (store_pair_same i s) as [E1 E2]; [rewrite Hlen; lia|].
          now rewrite E1, E2.
        * destruct (store_pair_other i s j Hne) as [E1 E2].
          rewrite E1, E2. apply IH; [|exact Hin].
          destruct (Z.eq_dec j (Z.of_nat i)) as [->|Hji]; [|lia].
          exfalso. apply Hne. symmetry. apply Z.mod_small. lia. }
  destruct Inv as [Hlen Hpairs]. split; [exact Hlen|].
  intros j Hj.
  destruct (Z_lt_dec (2 * j + 1) (Z.of_nat (length buf))) as [Hin|Hout].
  - apply Hpairs; lia.
  - destruct Heven as [h Hh].
    rewrite !Vec_get_outside by (rewrite Hlen; lia). reflexivity.
Qed.
End PairedStores.

(** ** Audio normalisation *)

Module AudioFacts.
Import Audio.

Lemma convert_loop_length fmt data n buf :
  length (convert_loop fmt data n buf) = length buf.
Proof.
  unfold convert_loop.
  apply (for_loop_invariant (fun _ s => length s = length buf)); [reflexivity|].
  intros i s _ Hs. now rewrite !Vec_length_set.
Qed.

Lemma direct_loop_length rs outFrames out :
  length (direct_loop rs outFrames out) = length out.
Proof.
  unfold direct_loop.
  apply (for_loop_invariant (fun _ s => length s = length out)); [reflexivity|].
  intros i s _ Hs. now rewrite Vec_length_set.
Qed.

Lemma resample_loop_length rs n outFrames out :
  length (resample_loop rs n outFrames out) = length out.
Proof.
  unfold resample_loop.
  apply (for_loop_invariant (fun _ s => length s = length out)); [reflexivity|].
  intros i s _ Hs. now rewrite !Vec_length_set.
Qed.

(** [NormalizeAudio] leaves [outputFrames * 2] samples in the output
    buffer (the product taken in [size_t]). *)
Lemma NormalizeAudio_length fmt data n b :
  length (m_outputBuffer (NormalizeAudio fmt data n b)) =
  Z.to_nat (Int.u64 (outputFrames fmt n * 2)).
Proof.
  unfold NormalizeAudio. simpl.
  destruct (m_sampleRate fmt =? 48000).
  - rewrite direct_loop_length. apply length_resize.
  - rewrite resample_loop_length. apply length_resize.
Qed.

Lemma silence_length fmt n b :
  length (m_outputBuffer (silence fmt n b)) =
  Z.to_nat (Int.u64 (silentFrames fmt n * 2)).
Proof. unfold silence. simpl. apply length_replicate. Qed.

(** *** C2 *)

(** C2 as stated fails: for three frames at 192 kHz the exact ratio is
    0.75, which rounds to one frame; the code produces none. *)
Lemma C2_counterexample :
  frames_in (m_outputBuffer
               (NormalizeAudio (pcm16 1 192000) (replicate 6 x00) 3 no_buffers))
  <> spec_outputFrames 3 192000.
Proof. vm_compute. discriminate. Qed.

(** C2, as amended: when the native rate is not 48000 Hz, the number of
    output frames of the normalisation is the double-precision product
    [numFrames * (48000.0 / rate)] truncated toward zero, for a buffer of
    at least two frames and fewer than [2 ^ 31] that holds its frames:
    the range in which the function stays inside its vectors (with a
    single frame at a rate below 48000 Hz the interpolation reads outside
    [m_resampleBuffer], and from [2 ^ 31] frames on [numFrames * 2] wraps
    around). *)
Theorem C2_output_frames_truncated fmt data n b v :
  2 <= n < 2 ^ 31 ->
  n * bytesPerFrame fmt <= Z.of_nat (length data) ->
  m_sampleRate fmt <> 48000 ->
  IEEE.trunc (F64.mul (F64.of_Z n)
                      (F64.div (F64.of_Z 48000) (F64.of_Z (m_sampleRate fmt))))
    = Some v ->
  0 <= v < 2 ^ 63 ->
  Z.of_nat (length (m_outputBuffer (NormalizeAudio fmt data n b))) = 2 * v /\
  frames_in (m_outputBuffer (NormalizeAudio fmt data n b)) = v.
Proof.
  intros _ _ Hrate Hv Hrange.
  assert (Hout : outputFrames fmt n = v).
  { unfold outputFrames. apply Z.eqb_neq in Hrate. rewrite Hrate.
    unfold Cast.size_t_of_double. rewrite Hv.
    destruct (0 <=? v) eqn:E0; [|apply Z.leb_gt in E0; lia].
    destruct (v <? 2 ^ 64) eqn:E1; [reflexivity|apply Z.ltb_ge in E1; lia]. }
  assert (Hlen : Z.of_nat (length (m_outputBuffer (NormalizeAudio fmt data n b)))
                 = 2 * v).
  { rewrite NormalizeAudio_length, Hout. unfold Int.u64.
    rewrite wrap_small by lia. lia. }
  split; [exact Hlen|].
  unfold frames_in. rewrite Hlen, Z.mul_comm. apply Z.div_mul. lia.
Qed.

(** The scenario of the spec: 441 frames of 44.1 kHz mono give 480 frames. *)
Lemma C2_output_frames_truncated_witness :
  frames_in (m_outputBuffer
               (NormalizeAudio (pcm16 1 44100) (replicate 882 x00) 441 no_buffers))
  = 480.
Proof.
  apply (C2_output_frames_truncated
           (pcm16 1 44100) (replicate 882 x00) 441 no_buffers 480).
  - lia.
  - vm_compute. discriminate.
  - simpl. lia.
  - vm_compute. reflexivity.
  - lia.
Defined.

(** For the usual 44.1 kHz and 96 kHz mixes and packets of up to 20 ms, the
    buffer duration requested in [Initialize], the truncated product is the
    integer part of the exact ratio. *)
Lemma outputFrames_exact_floor_upto_20ms :
  forallb (fun n => outputFrames (pcm16 2 44100) n =? n * 48000 / 44100)
          (seqZ 0 883) = true /\
  forallb (fun n => outputFrames (pcm16 2 96000) n =? n * 48000 / 96000)
          (seqZ 0 1921) = true.
Proof. split; vm_compute; reflexivity. Qed.

(** *** C3 *)

(** C3 does not hold of the code: for 55 frames at 44 kHz the silent
    branch computes [55 * 48000.0 / 44000 = 60.0] and zero-fills 60
    frames, the normalisation computes [55 * (48000.0 / 44000)], just
    below 60, and truncates it to 59 frames. *)
Theorem C3_silent_and_real_counts_differ :
  frames_in (m_outputBuffer (silence (pcm16 1 44000) 55 no_buffers)) = 60 /\
  frames_in (m_outputBuffer
               (NormalizeAudio (pcm16 1 44000) (replicate 110 x00) 55 no_buffers))
    = 59.
Proof. split; vm_compute; reflexivity. Qed.

(** The scenario of the spec: a silent buffer of 960 frames at 48 kHz
    gives 1920 zero samples. *)
Example silent_960_frames :
  m_outputBuffer (silence (pcm16 2 48000) 960 no_buffers) = replicate 1920 0.
Proof. vm_compute. reflexivity. Qed.

(** At the target rate both branches keep the frame count. *)
Lemma same_count_at_48000 fmt n :
  m_sampleRate fmt = 48000 -> silentFrames fmt n = outputFrames fmt n.
Proof.
  intros H. unfold silentFrames, outputFrames. rewrite H. reflexivity.
Qed.

(** *** C8 *)

Lemma convert_frame_mono fmt data i :
  m_channels fmt = 1 ->
  snd (convert_frame fmt data i) = fst (convert_frame fmt data i).
Proof.
  intros H. unfold convert_frame. rewrite H. simpl.
  repeat match goal with |- context [if ?c then _ else _] => destruct c end;
    reflexivity.
Qed.

(** The float buffer of a mono input holds every sample twice. *)
Lemma convert_loop_paired fmt data n buf :
  m_channels fmt = 1 ->
  0 <= n ->
  length buf = Z.to_nat (Int.u32 (n * 2)) ->
  Vec.paired F32.zero (convert_loop fmt data n buf).
Proof.
  intros Hmono Hn Hlen. unfold convert_loop.
  rewrite (for_loop_ext _ _
             (Vec.store_pair (2 ^ 31) (fun i => fst (convert_frame fmt data (Z.of_nat i))))).
  - assert (E : Int.u32 (n * 2) = 2 * (n mod 2 ^ 31))
      by (apply (wrap_double 32); lia).
    pose proof (Z.mod_pos_bound n (2 ^ 31) ltac:(lia)) as Hm.
    pose proof (Z.mod_le n (2 ^ 31) Hn ltac:(lia)) as Hle.
    apply paired_stores; [lia| | |]; rewrite Hlen, E, Z2Nat.id by lia.
    + lia.
    + now exists (n mod 2 ^ 31).
    + rewrite Z2Nat.id by lia. lia.
  - intros i s _. unfold Vec.store_pair.
    rewrite convert_frame_mono by exact Hmono.
    unfold Int.u32. rewrite (wrap_double 32), (wrap_double_succ 32) by lia.
    reflexivity.
Qed.

(** After the direct loop every sample of the output is the conversion of
    the float at the same index. *)
Lemma direct_loop_get rs outFrames out i :
  length out = Z.to_nat (Int.u64 (outFrames * 2)) ->
  0 <= i < Z.of_nat (length out) ->
  Vec.get 0 (direct_loop rs outFrames out) i = to_int16 (float_at rs i).
Proof.
  intros Hlen Hi. unfold direct_loop. rewrite <- Hlen.
  assert (Inv : forall n, (n <= length out)%nat ->
            let s := for_loop n
              (fun i out => Vec.set out (Z.of_nat i)
                              (to_int16 (float_at rs (Z.of_nat i)))) out in
            length s = length out /\
            forall j, 0 <= j < Z.of_nat n ->
                      Vec.get 0 s j = to_int16 (float_at rs j)).
  { induction n as [|n IH]; intros Hn; simpl.
    - split; [reflexivity|]. intros j Hj. lia.
    - destruct IH as [IHlen IHget]; [lia|]. split.
      + now rewrite Vec_length_set.
      + intros j Hj. destruct (Z.eq_dec j (Z.of_nat n)) as [->|Hne].
        * apply Vec_get_set_eq. rewrite IHlen. lia.
        * rewrite Vec_get_set_ne by lia. apply IHget. lia. }
  apply (Inv (length out)); lia.
Qed.

Lemma resample_frame_mono rs n ratio i :
  Vec.paired F32.zero rs ->
  snd (resample_frame rs n ratio i) = fst (resample_frame rs n ratio i).
Proof.
  intros Hp. unfold resample_frame. simpl.
  set (s := fst (src_index n ratio i)).
  unfold float_at, Int.u64.
  rewrite !(wrap_double 64), !(wrap_double_succ 64) by lia.
  rewrite <- !Hp; [reflexivity| |]; apply Z.mod_pos_bound; lia.
Qed.

Lemma resample_loop_paired rs n outFrames out :
  Vec.paired F32.zero rs ->
  0 <= outFrames ->
  length out = Z.to_nat (Int.u64 (outFrames * 2)) ->
  Vec.paired 0 (resample_loop rs n outFrames out).
Proof.
  intros Hp Hn Hlen. unfold resample_loop.
  set (ratio := resample_ratio n outFrames).
  rewrite (for_loop_ext _ _
             (Vec.store_pair (2 ^ 63)
                (fun i => fst (resample_frame rs n ratio (Z.of_nat i))))).
  - assert (E : Int.u64 (outFrames * 2) = 2 * (outFrames mod 2 ^ 63))
      by (apply (wrap_double 64); lia).
    pose proof (Z.mod_pos_bound outFrames (2 ^ 63) ltac:(lia)) as Hm.
    pose proof (Z.mod_le outFrames (2 ^ 63) Hn ltac:(lia)) as Hle.
    apply paired_stores; [lia| | |]; rewrite Hlen, E, Z2Nat.id by lia.
    + lia.
    + now exists (outFrames mod 2 ^ 63).
    + rewrite Z2Nat.id by lia. lia.
  - intros i s _. unfold Vec.store_pair.
    rewrite resample_frame_mono by exact Hp.
    unfold Int.u64. rewrite (wrap_double 64), (wrap_double_succ 64) by lia.
    reflexivity.
Qed.

Lemma outputFrames_nonneg fmt n : 0 <= n -> 0 <= outputFrames fmt n.
Proof.
  intros Hn. unfold outputFrames. destruct (_ =? _); [exact Hn|].
  apply size_t_of_double_range.
Qed.

(** C8: for a mono input of at least two frames and fewer than [2 ^ 31]
    (a buffer that holds its frames), whatever the sample format and the
    (positive) native rate, the output holds whole stereo frames and in
    every frame the left sample equals the right sample.  The bounds are
    those in which every access of [NormalizeAudio] is inside its
    vectors ([clamp_index_range], [resample_buffer_length]): with a
    single frame at a rate below 48000 Hz the interpolation reads outside
    [m_resampleBuffer], and the code has no output of which the claim
    could speak. *)
Theorem C8_mono_left_equals_right fmt data n b (k : nat) :
  m_channels fmt = 1 ->
  0 < m_sampleRate fmt ->
  2 <= n < 2 ^ 31 ->
  n * bytesPerFrame fmt <= Z.of_nat (length data) ->
  let out := m_outputBuffer (NormalizeAudio fmt data n b) in
  Nat.Even (length out) /\
  ((2 * k + 1 < length out)%nat -> out !! (2 * k)%nat = out !! (2 * k + 1)%nat).
Proof.
  intros Hmono _ Hn _ out.
  assert (Hlen : length out = Z.to_nat (Int.u64 (outputFrames fmt n * 2)))
    by apply NormalizeAudio_length.
  assert (E : Int.u64 (outputFrames fmt n * 2) = 2 * (outputFrames fmt n mod 2 ^ 63))
    by (apply (wrap_double 64); lia).
  pose proof (Z.mod_pos_bound (outputFrames fmt n) (2 ^ 63) ltac:(lia)) as Hm.
  split.
  { exists (Z.to_nat (outputFrames fmt n mod 2 ^ 63)). rewrite Hlen, E. lia. }
  intros Hk.
  assert (Hrs : Vec.paired F32.zero
            (convert_loop fmt data n
               (resize (Z.to_nat (Int.u32 (n * 2))) F32.zero (m_resampleBuffer b)))).
  { apply convert_loop_paired; [exact Hmono|lia|apply length_resize]. }
  assert (Hout : Vec.paired 0 out).
  { subst out. unfold NormalizeAudio in *. simpl in *.
    destruct (m_sampleRate fmt =? 48000) eqn:Hrate.
    - intros j Hj.
      set (rs := convert_loop _ _ _ _) in *.
      set (out0 := resize _ 0 _) in *.
      assert (L0 : length out0 = Z.to_nat (Int.u64 (outputFrames fmt n * 2)))
        by apply length_resize.
      destruct (Z_lt_dec (2 * j + 1) (Z.of_nat (length out0))) as [Hin|Hno].
      + rewrite !direct_loop_get by (try exact L0; lia).
        unfold float_at. now rewrite Hrs.
      + rewrite !Vec_get_outside; [reflexivity| |];
          rewrite direct_loop_length, L0, E; rewrite L0, E in Hno; lia.
    - apply resample_loop_paired;
        [exact Hrs|apply outputFrames_nonneg; lia|apply length_resize]. }
  rewrite (Vec_lookup_get 0 out (2 * k)) by lia.
  rewrite (Vec_lookup_get 0 out (2 * k + 1)) by lia.
  f_equal. specialize (Hout (Z.of_nat k) ltac:(lia)).
  replace (Z.of_nat (2 * k)) with (2 * Z.of_nat k) by lia.
  replace (Z.of_nat (2 * k + 1)) with (2 * Z.of_nat k + 1) by lia.
  exact Hout.
Qed.

Lemma C8_mono_left_equals_right_witness :
  let out := m_outputBuffer
               (NormalizeAudio (pcm16 1 44100) four_mono_frames 4 no_buffers) in
  out !! 2%nat = out !! 3%nat.
Proof.
  apply (C8_mono_left_equals_right (pcm16 1 44100) four_mono_frames 4 no_buffers 1).
  - reflexivity.
  - simpl. lia.
  - lia.
  - vm_compute. discriminate.
  - vm_compute. lia.
Defined.

(** *** C9 *)

Lemma clamp_index_range n s frac :
  2 <= n < 2 ^ 32 -> 0 <= s ->
  0 <= fst (clamp_index n s frac) <= n - 2.
Proof.
  intros Hn Hs. unfold clamp_index, Int.u32.
  rewrite !wrap_small by lia.
  destruct (n - 1 <=? s) eqn:E; simpl.
  - lia.
  - apply Z.leb_gt in E. lia.
Qed.

(** C9: in the resampling path, for an input of at least two frames, the
    clamped source index of every output frame is at most
    [numFrames - 2], so the frames [srcIndex] and [srcIndex + 1] are
    frames of the input and the four reads stay below [2 * numFrames];
    with a single input frame the clamp yields [numFrames - 2] wrapped
    around in [UINT32], which is no frame of the input. *)
Theorem C9_interpolation_reads_in_range :
  (forall fmt n i,
      m_sampleRate fmt <> 48000 ->
      2 <= n < 2 ^ 32 ->
      0 <= i < outputFrames fmt n ->
      let s := fst (src_index n (resample_ratio n (outputFrames fmt n)) i) in
      0 <= s <= n - 2 /\ s + 1 < n /\
      Int.u64 ((s + 1) * 2 + 1) < 2 * n) /\
  (forall ratio i, fst (src_index 1 ratio i) = 2 ^ 32 - 1).
Proof.
  split.
  - intros fmt n i _ Hn _ s.
    assert (Hs : 0 <= s <= n - 2).
    { apply clamp_index_range; [exact Hn|apply size_t_of_double_range]. }
    repeat split; try lia.
    unfold Int.u64. rewrite wrap_small by lia. lia.
  - intros ratio i. unfold src_index, clamp_index.
    pose proof (size_t_of_double_range (srcPos ratio i)) as Hs.
    change (Int.u32 (1 - 1)) with 0.
    destruct (0 <=? Cast.size_t_of_double (srcPos ratio i)) eqn:E.
    + reflexivity.
    + apply Z.leb_gt in E. lia.
Qed.

Lemma C9_interpolation_reads_in_range_witness :
  let s := fst (src_index 4 (resample_ratio 4 (outputFrames (pcm16 1 44100) 4)) 3) in
  0 <= s <= 4 - 2 /\ s + 1 < 4 /\ Int.u64 ((s + 1) * 2 + 1) < 2 * 4.
Proof.
  apply (proj1 C9_interpolation_reads_in_range (pcm16 1 44100) 4 3).
  - simpl. lia.
  - lia.
  - vm_compute. split; [discriminate|reflexivity].
Defined.

(** The float buffer read by the interpolation has [2 * numFrames]
    entries. *)
Lemma resample_buffer_length fmt data n b :
  0 <= n < 2 ^ 31 ->
  Z.of_nat (length (m_resampleBuffer (NormalizeAudio fmt data n b))) = 2 * n.
Proof.
  intros Hn. unfold NormalizeAudio. simpl.
  rewrite convert_loop_length, length_resize. unfold Int.u32.
  rewrite wrap_small by lia. lia.
Qed.

(** *** C10 *)

Lemma u64_double (x : Z) : Int.u64 (x * 2) = 2 * (x mod 2 ^ 63).
Proof. apply (wrap_double 64). lia. Qed.

Lemma output_even fmt p b :
  exists q, 0 <= q /\
    Z.of_nat (length (m_outputBuffer
      (if silent p then silence fmt (numFrames p) b
       else NormalizeAudio fmt (data p) (numFrames p) b))) = 2 * q.
Proof.
  destruct (silent p).
  - rewrite silence_length, u64_double.
    pose proof (Z.mod_pos_bound (silentFrames fmt (numFrames p)) (2 ^ 63)
                  ltac:(lia)).
    eexists; split; [|rewrite Z2Nat.id by lia; reflexivity]. lia.
  - rewrite NormalizeAudio_length, u64_double.
    pose proof (Z.mod_pos_bound (outputFrames fmt (numFrames p)) (2 ^ 63)
                  ltac:(lia)).
    eexists; split; [|rewrite Z2Nat.id by lia; reflexivity]. lia.
Qed.

(** C10: a packet handed to the audio callback is self-consistent.  Its
    size is the header size plus [frameCount * 2 * 2] bytes, [frameCount]
    is half the number of samples of the payload, and [timestampMs] is
    the timestamp argument of the call.  The frame count is taken to fit
    the 32-bit field of the header. *)
Theorem C10_packet_self_consistent sizeof_header c p c' call :
  0 <= sizeof_header < 2 ^ 32 ->
  on_buffer sizeof_header c p = (c', Some call) ->
  frames_in (packet_samples call) < 2 ^ 32 ->
  arg_size call = sizeof_header + frameCount (packet_header call) * 2 * 2 /\
  2 * frameCount (packet_header call) = Z.of_nat (length (packet_samples call)) /\
  timestampMs (packet_header call) = arg_timestamp call.
Proof.
  intros Hsz Hrun Hfit. unfold on_buffer in Hrun.
  destruct (output_even (format c) p (buffers c)) as (q & Hq & Hlen).
  set (b := if silent p then _ else _) in *.
  destruct (m_callback c && negb (bool_decide (m_outputBuffer b = [])));
    [|discriminate].
  injection Hrun as _ <-. simpl in *. unfold frames_in in Hfit.
  rewrite Hlen in *.
  replace (2 * q / 2) with q in * by (rewrite Z.mul_comm, Z.div_mul; lia).
  unfold Int.u32, Int.u64.
  rewrite (wrap_small 64 (2 * q * 2)), (wrap_small 32 q) by lia.
  rewrite wrap_small by lia. lia.
Qed.

Lemma C10_packet_self_consistent_witness :
  exists call,
    snd (on_buffer 12 ready_capturer four_frames_at_7ms) = Some call /\
    arg_size call = 12 + frameCount (packet_header call) * 2 * 2 /\
    2 * frameCount (packet_header call) = Z.of_nat (length (packet_samples call)) /\
    timestampMs (packet_header call) = arg_timestamp call.
Proof.
  destruct (on_buffer 12 ready_capturer four_frames_at_7ms) as [c' [call|]] eqn:E;
    [|vm_compute in E; discriminate].
  exists call. split; [reflexivity|].
  apply (C10_packet_self_consistent 12 ready_capturer four_frames_at_7ms c' call).
  - lia.
  - exact E.
  - vm_compute in E. injection E as _ <-. vm_compute. reflexivity.
Defined.

End AudioFacts.

(** ** NV12 read-back *)

Module ColorFacts.
Import Color.

Lemma memcpy_length dst d src s n :
  length (memcpy dst d src s n) = length dst.
Proof.
  unfold memcpy.
  apply (for_loop_invariant (fun _ t => length t = length dst)); [reflexivity|].
  intros i t _ Ht. now rewrite Vec_length_set.
Qed.

Lemma copy_planes_length c src pitch :
  length (copy_planes c src pitch) = length (m_nv12Buffer c).
Proof.
  unfold copy_planes.
  apply (for_loop_invariant (fun _ t => length t = length (m_nv12Buffer c))).
  - apply (for_loop_invariant (fun _ t => length t = length (m_nv12Buffer c)));
      [reflexivity|].
    intros i t _ Ht. now rewrite memcpy_length.
  - intros i t _ Ht. now rewrite memcpy_length.
Qed.

Lemma Initialize_sized dev width height c0 ok c :
  Initialize dev width height c0 = (ok, c) -> sized width height c.
Proof.
  unfold Initialize. intros H.
  assert (E : c = {| m_width := width; m_height := height;
                     m_nv12Size := nv12_size width height;
                     m_nv12Buffer := resize (Z.to_nat (nv12_size width height)) x00
                                            (m_nv12Buffer c0) |}).
  { destruct (negb (video_processor_ok dev));
      [|destruct (negb (output_textures_ok dev))]; congruence. }
  subst c. split; simpl; [reflexivity|apply length_resize].
Qed.

Lemma Convert_sized width height r c :
  sized width height c -> sized width height (snd (Convert r c)).
Proof.
  intros [Hs Hl]. destruct r; simpl; try (split; assumption).
  split; simpl; [exact Hs|]. now rewrite copy_planes_length.
Qed.

Lemma nv12_size_exact width height :
  0 <= width < 2 ^ 31 -> 0 <= height < 2 ^ 31 ->
  nv12_size width height = width * height * 3 / 2.
Proof.
  intros Hw Hh. unfold nv12_size, Int.u64.
  assert (0 <= width * height < 2 ^ 62) by nia.
  rewrite (wrap_small 64 width), (wrap_small 64 height) by lia.
  rewrite (wrap_small 64 (width * height)) by lia.
  rewrite wrap_small by lia. reflexivity.
Qed.

(** [Convert] and the callback: the converter keeps its size, and the
    frame handed over has that size. *)
Lemma convert_and_deliver_sized width height has_callback r ts c :
  sized width height c ->
  sized width height (fst (convert_and_deliver has_callback r ts c)) /\
  forall f, snd (convert_and_deliver has_callback r ts c) = Some f ->
            frame_size f = nv12_size width height /\
            Z.of_nat (length (frame_bytes f)) = nv12_size width height.
Proof.
  intros Hc. unfold convert_and_deliver.
  pose proof (Convert_sized width height r c Hc) as Hc'.
  destruct (Convert r c) as [nv12Data c']. simpl in Hc'.
  destruct (nv12Data && has_callback); simpl; (split; [exact Hc'|]);
    [|discriminate].
  intros f Hf. injection Hf as <-. destruct Hc' as [Hs Hl]. simpl.
  split; [exact Hs|].
  rewrite length_take, Hl, Nat.min_id, Hs.
  apply Z2Nat.id. unfold nv12_size.
  apply Z.div_pos; [|lia]. apply wrap_range. lia.
Qed.

Lemma deliveries_sized width height has_callback rs : forall c,
  sized width height c ->
  Forall (fun f => frame_size f = nv12_size width height /\
                   Z.of_nat (length (frame_bytes f)) = nv12_size width height)
         (deliveries has_callback rs c).
Proof.
  induction rs as [|[r ts] rs IH]; intros c Hc; simpl; [constructor|].
  destruct (convert_and_deliver_sized width height has_callback r ts c Hc)
    as [Hc' Hf].
  destruct (convert_and_deliver has_callback r ts c) as [c' [f|]]; simpl in *.
  - constructor; [apply Hf; reflexivity|apply IH; exact Hc'].
  - apply IH. exact Hc'.
Qed.

(** [memcpy] stores the source bytes in the destination range and leaves
    the rest of the destination as it was. *)
Lemma memcpy_get dst d src s n :
  0 <= d ->
  forall j,
    (d <= j < d + n -> j < Z.of_nat (length dst) ->
     Vec.get x00 (memcpy dst d src s n) j = Vec.get x00 src (s + (j - d))) /\
    (j < d \/ d + n <= j ->
     Vec.get x00 (memcpy dst d src s n) j = Vec.get x00 dst j).
Proof.
  intros Hd. unfold memcpy.
  destruct (Z_le_dec 0 n) as [Hn|Hn].
  2:{ replace (Z.to_nat n) with O by lia. simpl. intros j. split; [lia|reflexivity]. }
  assert (Inv : forall k, (k <= Z.to_nat n)%nat ->
            let t := for_loop k
              (fun k dst => Vec.set dst (d + Z.of_nat k)
                              (Vec.get x00 src (s + Z.of_nat k))) dst in
            length t = length dst /\
            forall j,
              (d <= j < d + Z.of_nat k -> j < Z.of_nat (length dst) ->
               Vec.get x00 t j = Vec.get x00 src (s + (j - d))) /\
              (j < d \/ d + Z.of_nat k <= j -> Vec.get x00 t j = Vec.get x00 dst j)).
  { induction k as [|k IH]; intros Hk; simpl.
    - split; [reflexivity|]. intros j. split; [lia|reflexivity].
    - destruct IH as [IHlen IHget]; [lia|]. split; [now rewrite Vec_length_set|].
      intros j. destruct (IHget j) as [IHin IHout]. split.
      + intros Hj Hlen. destruct (Z.eq_dec j (d + Z.of_nat k)) as [->|Hne].
        * rewrite Vec_get_set_eq by (rewrite IHlen; lia). f_equal. lia.
        * rewrite Vec_get_set_ne by lia. apply IHin; lia.
      + intros Hj. rewrite Vec_get_set_ne by lia. apply IHout. lia. }
  intros j. destruct (Inv (Z.to_nat n) ltac:(lia)) as [_ Hget].
  specialize (Hget j). rewrite Z2Nat.id in Hget by lia. exact Hget.
Qed.

(** A loop of row copies: row [r] of the destination, [w] bytes at
    [base + r * w], holds the [w] source bytes at [soff r]. *)
Lemma row_copies_get (src : list byte) (base w : Z) (soff : nat -> Z)
    (rows : nat) (buf : list byte) :
  0 <= base -> 0 <= w ->
  let out := for_loop rows
               (fun y dst => memcpy dst (base + Z.of_nat y * w) src (soff y) w) buf in
  length out = length buf /\
  (forall (r : nat) x,
      (r < rows)%nat -> 0 <= x < w ->
      base + Z.of_nat r * w + x < Z.of_nat (length buf) ->
      Vec.get x00 out (base + Z.of_nat r * w + x) = Vec.get x00 src (soff r + x)) /\
  (forall j, j < base \/ base + Z.of_nat rows * w <= j ->
             Vec.get x00 out j = Vec.get x00 buf j).
Proof.
  intros Hbase Hw. induction rows as [|n IH]; simpl.
  - split; [reflexivity|]. split; [lia|reflexivity].
  - destruct IH as (IHlen & IHrow & IHrest).
    set (t := for_loop n _ buf) in *.
    assert (Hd : 0 <= base + Z.of_nat n * w) by nia.
    split; [now rewrite memcpy_length|]. split.
    + intros r x Hr Hx Hlen.
      destruct (Nat.eq_dec r n) as [->|Hne].
      * destruct (memcpy_get t (base + Z.of_nat n * w) src (soff n) w Hd
                    (base + Z.of_nat n * w + x)) as [Hin _].
        rewrite Hin by (rewrite ?IHlen; lia). f_equal. lia.
      * destruct (memcpy_get t (base + Z.of_nat n * w) src (soff n) w Hd
                    (base + Z.of_nat r * w + x)) as [_ Hout].
        rewrite Hout by (left; nia). apply IHrow; [lia|exact Hx|exact Hlen].
    + intros j Hj.
      destruct (memcpy_get t (base + Z.of_nat n * w) src (soff n) w Hd j)
        as [_ Hout].
      rewrite Hout by nia. apply IHrest. nia.
Qed.

(** X1: the layout [Convert] leaves in the buffer: the [height] rows of the Y
    plane, [width] bytes each, taken from the rows of the mapped texture at
    its row pitch, then the [height / 2] rows of the interleaved UV plane,
    taken from the rows that follow the Y plane in the mapped texture.
    For a frame of fewer than [2 ^ 31] pixels: there the products
    [y * m_width] and [m_width * m_height], which the code takes in
    [int], do not overflow. *)
Lemma Convert_layout width height pData RowPitch c :
  m_width c = width -> m_height c = height ->
  0 <= width < 2 ^ 31 -> 0 <= height < 2 ^ 31 ->
  width * height < 2 ^ 31 ->
  sized width height c ->
  let out := m_nv12Buffer (snd (Convert (Mapped pData RowPitch) c)) in
  (forall x y, 0 <= x < width -> 0 <= y < height ->
     Vec.get x00 out (y * width + x)
     = Vec.get x00 pData (Int.u32 (y * RowPitch) + x)) /\
  (forall x y, 0 <= x < width -> 0 <= y < height / 2 ->
     Vec.get x00 out (width * height + y * width + x)
     = Vec.get x00 pData (Int.u32 (RowPitch * height) + Int.u32 (y * RowPitch) + x)).
Proof.
  intros Ew Eh Hw Hh _ [Hs Hl] out. subst out. simpl. unfold copy_planes.
  rewrite Ew, Eh.
  assert (Hlen : Z.of_nat (length (m_nv12Buffer c)) = width * height * 3 / 2).
  { rewrite Hl, Hs, nv12_size_exact by lia. apply Z2Nat.id.
    apply Z.div_pos; nia. }
  assert (Hq : Z.quot height 2 = height / 2) by (apply Z.quot_div_nonneg; lia).
  assert (Hhalf : 0 <= height / 2) by (apply Z.div_pos; lia).
  assert (Huv : width * height + height / 2 * width <= width * height * 3 / 2).
  { apply Z.div_le_lower_bound; [lia|].
    pose proof (Z.mul_div_le height 2 ltac:(lia)). nia. }
  set (ybody := fun (y : nat) (dst : list byte) =>
                  memcpy dst (Z.of_nat y * width) pData
                         (Int.u32 (Z.of_nat y * RowPitch)) width).
  rewrite (for_loop_ext (Z.to_nat height) ybody
             (fun y dst => memcpy dst (0 + Z.of_nat y * width) pData
                             (Int.u32 (Z.of_nat y * RowPitch)) width))
    by (intros; reflexivity).
  destruct (row_copies_get pData 0 width
              (fun y => Int.u32 (Z.of_nat y * RowPitch))
              (Z.to_nat height) (m_nv12Buffer c) ltac:(lia) ltac:(lia))
    as (Ylen & Yrow & _).
  set (ybuf := for_loop (Z.to_nat height) _ (m_nv12Buffer c)) in *.
  rewrite Hq.
  destruct (row_copies_get pData (width * height) width
              (fun y => Int.u32 (RowPitch * height) + Int.u32 (Z.of_nat y * RowPitch))
              (Z.to_nat (height / 2)) ybuf ltac:(nia) ltac:(lia))
    as (_ & UVrow & UVrest).
  split.
  - intros x y Hx Hy.
    rewrite UVrest by (left; nia).
    specialize (Yrow (Z.to_nat y) x ltac:(lia) Hx).
    rewrite Z2Nat.id in Yrow by lia. simpl in Yrow.
    apply Yrow. rewrite Hlen.
    assert (width * height <= width * height * 3 / 2)
      by (apply Z.div_le_lower_bound; nia).
    nia.
  - intros x y Hx Hy.
    specialize (UVrow (Z.to_nat y) x ltac:(lia) Hx).
    rewrite Z2Nat.id in UVrow by lia.
    apply UVrow. rewrite Ylen, Hlen. nia.
Qed.

(** The read-back of that texture: the Y rows without their padding, then
    the interleaved UV row. *)
Example convert_4x2 :
  m_nv12Buffer (snd (Convert mapped_4x2 (snd (Initialize working_device 4 2 fresh))))
  = [x10; x11; x12; x13; x14; x15; x16; x17; x80; x81; x82; x83].
Proof. vm_compute. reflexivity. Qed.

End ColorFacts.

(** ** Display capture *)

Module DisplayFacts.
Import Texture Display.

Lemma display_Initialize_ready os width height fps c :
  Initialize os width height fps fresh = (true, c) -> ready os width height c.
Proof.
  unfold Initialize, ReinitializeDuplication. simpl.
  destruct (create_device_ok os); simpl; [|discriminate].
  destruct (dxgi_device_ok os); simpl; [|discriminate].
  destruct (adapter_ok os); simpl; [|discriminate].
  destruct (output_found os); simpl; [|discriminate].
  destruct (output1_ok os); simpl; [|discriminate].
  fold (differs os width height).
  destruct (differs os width height) eqn:Hd; simpl.
  - destruct (scaled_texture_ok os); simpl; [|discriminate].
    destruct (duplicate_output_ok os); simpl; [|discriminate].
    destruct (Color.Initialize _ _ _ _) as [ok k] eqn:Hk. intros H.
    injection H as -> <-. unfold ready. simpl. rewrite Hd.
    apply ColorFacts.Initialize_sized in Hk.
    repeat split; eauto; try discriminate;
      try (intros _; eexists; repeat split).
  - destruct (duplicate_output_ok os); simpl; [|discriminate].
    destruct (Color.Initialize _ _ _ _) as [ok k] eqn:Hk. intros H.
    injection H as -> <-. unfold ready. simpl. rewrite Hd.
    apply ColorFacts.Initialize_sized in Hk.
    repeat split; eauto; try discriminate;
      try (intros _; eexists; repeat split).
Qed.

Lemma CopySubresourceRegion_size dst x y src b :
  Width (CopySubresourceRegion dst x y src b) = Width dst /\
  Height (CopySubresourceRegion dst x y src b) = Height dst.
Proof. unfold CopySubresourceRegion. destruct (box_fits _ _ _ _ _); auto. Qed.

Lemma AcquireNextFrame_ready os width height tos c calls t c' :
  ready os width height c ->
  AcquireNextFrame tos c = (calls, Done (t, c')) ->
  ready os width height c'.
Proof.
  intros Hr. pose proof Hr as (Hw & Hh & Ho & Hk & Hn & Hs).
  assert (Hdup : forall b, ready os width height (with_duplication b c)).
  { intros b. unfold ready. simpl. auto 10. }
  assert (Hscaled : forall desktop scaled,
             m_scaledTexture c = Some scaled ->
             ready os width height
               (with_scaledTexture
                  (Some (CopySubresourceRegion scaled 0 0 desktop
                           (srcBox (m_width c) (m_height c)))) c) /\
             forall b, ready os width height
               (with_scaledTexture
                  (Some (CopySubresourceRegion scaled 0 0 desktop
                           (srcBox (m_width c) (m_height c))))
                  (with_duplication b c))).
  { intros desktop scaled Es.
    destruct (CopySubresourceRegion_size scaled 0 0 desktop
                (srcBox (m_width c) (m_height c))) as [E1 E2].
    split; [|intros b]; unfold ready; simpl; repeat split; auto;
      intros Hd; destruct (Hs Hd) as (scaled0 & Es0 & Ew & Eh);
      eexists; (split; [reflexivity|]); rewrite E1, E2; split; congruence. }
  unfold AcquireNextFrame, ReinitializeDuplication. simpl. rewrite Ho. simpl.
  destruct (m_duplication c) eqn:Hdc; simpl.
  - destruct (acquire tos) as [| | |[desktop|]]; simpl;
      try (intros H; injection H as _ _ <-; solve [apply Hdup | exact Hr]).
    destruct (m_needsScaling c).
    + destruct (m_scaledTexture c) as [scaled|] eqn:Es; [|discriminate].
      intros H. injection H as _ _ <-. now apply Hscaled.
    + destruct (copy_texture_ok tos); simpl;
        intros H; injection H as _ _ <-; exact Hr.
  - destruct (duplicate_ok tos); simpl.
    + destruct (acquire tos) as [| | |[desktop|]]; simpl;
        try (intros H; injection H as _ _ <-; solve [apply Hdup]).
      destruct (m_needsScaling c).
      * destruct (m_scaledTexture c) as [scaled|] eqn:Es; [|discriminate].
        intros H. injection H as _ _ <-. now apply Hscaled.
      * destruct (copy_texture_ok tos); simpl;
          intros H; injection H as _ _ <-; apply Hdup.
    + intros H; injection H as _ _ <-. apply Hdup.
Qed.

Lemma display_session_ready os width height c :
  session os width height c -> ready os width height c.
Proof.
  induction 1 as [fps c Hinit|c c' spawned _ IH Hstart|c _ IH
                 |tos c calls frame c' _ IH Htick].
  - eapply display_Initialize_ready. exact Hinit.
  - unfold Start in Hstart. destruct (m_running c).
    + injection Hstart as <- _. exact IH.
    + injection Hstart as <- _. unfold ready in *. simpl. exact IH.
  - unfold Stop, ready in *. simpl. exact IH.
  - unfold tick in Htick.
    destruct (AcquireNextFrame tos c) as [calls0 [[[t|] c1]|]] eqn:Ha;
      try discriminate.
    + pose proof (AcquireNextFrame_ready _ _ _ _ _ _ _ _ IH Ha) as R1.
      destruct R1 as (Hw & Hh & Ho & (k & Ek & Sk) & Hn & Hsc).
      rewrite Ek in Htick.
      destruct (ColorFacts.convert_and_deliver_sized width height
                  (m_callback c1) (convert tos) (now tos) k Sk) as [Sk' _].
      destruct (Color.convert_and_deliver _ _ _ _) as [k' f].
      injection Htick as _ _ <-.
      unfold ready. simpl. repeat split; eauto.
    + injection Htick as _ _ <-.
      eapply AcquireNextFrame_ready; [exact IH|exact Ha].
Qed.

End DisplayFacts.

(** ** Window capture *)

Module WindowFacts.
Import Texture Window.

Lemma window_Initialize_ready os width height fps c :
  Initialize os width height fps fresh = (true, c) -> ready os width height c.
Proof.
  unfold Initialize. simpl.
  destruct (is_supported os); simpl; [|discriminate].
  destruct (create_device_ok os); simpl; [|discriminate].
  destruct (capture_item_ok os); simpl; [|discriminate].
  fold (differs os width height).
  destruct (differs os width height) eqn:Hd; simpl.
  - destruct (scaled_texture_ok os); simpl; [|discriminate].
    destruct (Color.Initialize _ _ _ _) as [ok k] eqn:Hk. intros H.
    injection H as -> <-. unfold ready. simpl. rewrite Hd.
    apply ColorFacts.Initialize_sized in Hk.
    repeat split; eauto; try discriminate;
      try (intros _; eexists; repeat split).
  - destruct (Color.Initialize _ _ _ _) as [ok k] eqn:Hk. intros H.
    injection H as -> <-. unfold ready. simpl. rewrite Hd.
    apply ColorFacts.Initialize_sized in Hk.
    repeat split; eauto; try discriminate;
      try (intros _; eexists; repeat split).
Qed.

Lemma process_texture_ready os width height fos c t c' :
  ready os width height c ->
  process_texture fos c = Done (t, c') ->
  ready os width height c'.
Proof.
  intros Hr. pose proof Hr as (Hw & Hh & Hk & Hn & Hs).
  unfold process_texture.
  destruct (m_running c); simpl; [|intros H; injection H as _ <-; exact Hr].
  destruct (next_frame fos) as [[texture|]|];
    try (intros H; injection H as _ <-; exact Hr).
  destruct (m_needsScaling c) eqn:En.
  - destruct (m_scaledTexture c) as [scaled|] eqn:Es; [|discriminate].
    intros H. injection H as _ <-.
    destruct (DisplayFacts.CopySubresourceRegion_size scaled 0 0 texture
                (srcBox (m_width c) (m_height c))) as [E1 E2].
    unfold ready; simpl. split; [exact Hw|]. split; [exact Hh|].
    split; [exact Hk|]. split; [congruence|].
    intros Hd. destruct (Hs Hd) as (scaled0 & Es0 & Ew & Eh).
    eexists. split; [reflexivity|]. rewrite E1, E2. split; congruence.
  - destruct (copy_texture_ok fos); simpl;
      intros H; injection H as _ <-; exact Hr.
Qed.

Lemma window_session_ready os width height c :
  session os width height c -> ready os width height c.
Proof.
  induction 1 as [fps c Hinit|c c' started _ IH Hstart|c _ IH
                 |fos c frame c' _ IH Hframe].
  - eapply window_Initialize_ready. exact Hinit.
  - unfold Start in Hstart. destruct (m_running c).
    + injection Hstart as <- _. exact IH.
    + simpl in Hstart. destruct (m_session c); simpl in Hstart; [|discriminate].
      injection Hstart as <- _. unfold ready in *. simpl. exact IH.
  - unfold Stop. destruct (m_running c); simpl; [|exact IH].
    unfold ready in *. simpl. exact IH.
  - unfold OnFrameArrived in Hframe.
    destruct (process_texture fos c) as [[[t|] c1]|] eqn:Hp; try discriminate.
    + pose proof (process_texture_ready _ _ _ _ _ _ _ IH Hp) as R1.
      destruct R1 as (Hw & Hh & (k & Ek & Sk) & Hn & Hsc).
      rewrite Ek in Hframe.
      destruct (ColorFacts.convert_and_deliver_sized width height
                  (m_callback c1) (convert fos) (now fos) k Sk) as [Sk' _].
      destruct (Color.convert_and_deliver _ _ _ _) as [k' f].
      injection Hframe as _ <-.
      unfold ready. simpl. repeat split; eauto.
    + injection Hframe as _ <-.
      eapply process_texture_ready; [exact IH|exact Hp].
Qed.

End WindowFacts.

(** ** Claims on the capturers *)

Module CaptureFacts.
Import Texture.

(** *** C4 *)

(** C4: once the color converter has been initialized at [width] x
    [height], every frame handed to the callback is a buffer of exactly
    [width * height * 3 / 2] bytes, whatever the device returns for the
    input textures: for any run of [Convert] on the converter, for the
    ticks of a display session and for the frames of a window session. *)
Theorem C4_frame_size width height :
  0 <= width < 2 ^ 31 ->
  0 <= height < 2 ^ 31 ->
  (forall dev c0 c has_callback rs,
      Color.Initialize dev width height c0 = (true, c) ->
      Forall (fun f => Color.frame_size f = width * height * 3 / 2 /\
                       Z.of_nat (length (Color.frame_bytes f))
                       = width * height * 3 / 2)
             (Color.deliveries has_callback rs c)) /\
  (forall os c tos calls f c',
      Display.session os width height c ->
      Display.tick tos c = (calls, Done (Some f, c')) ->
      Color.frame_size f = width * height * 3 / 2 /\
      Z.of_nat (length (Color.frame_bytes f)) = width * height * 3 / 2) /\
  (forall os c fos f c',
      Window.session os width height c ->
      Window.OnFrameArrived fos c = Done (Some f, c') ->
      Color.frame_size f = width * height * 3 / 2 /\
      Z.of_nat (length (Color.frame_bytes f)) = width * height * 3 / 2).
Proof.
  intros Hw Hh. rewrite <- (ColorFacts.nv12_size_exact width height Hw Hh).
  split; [|split].
  - intros dev c0 c has_callback rs Hinit.
    apply ColorFacts.deliveries_sized.
    eapply ColorFacts.Initialize_sized. exact Hinit.
  - intros os c tos calls f c' Hs Htick.
    pose proof (DisplayFacts.display_session_ready _ _ _ _ Hs) as Hr.
    unfold Display.tick in Htick.
    destruct (Display.AcquireNextFrame tos c) as [calls0 [[[t|] c1]|]] eqn:Ha;
      try discriminate.
    destruct (DisplayFacts.AcquireNextFrame_ready _ _ _ _ _ _ _ _ Hr Ha)
      as (_ & _ & _ & (k & Ek & Sk) & _).
    rewrite Ek in Htick.
    destruct (ColorFacts.convert_and_deliver_sized width height
                (Display.m_callback c1) (Display.convert tos) (Display.now tos)
                k Sk) as [_ Hf].
    destruct (Color.convert_and_deliver _ _ _ _) as [k' f'].
    injection Htick as _ -> _. apply Hf. reflexivity.
  - intros os c fos f c' Hs Hframe.
    pose proof (WindowFacts.window_session_ready _ _ _ _ Hs) as Hr.
    unfold Window.OnFrameArrived in Hframe.
    destruct (Window.process_texture fos c) as [[[t|] c1]|] eqn:Hp;
      try discriminate.
    destruct (WindowFacts.process_texture_ready _ _ _ _ _ _ _ Hr Hp)
      as (_ & _ & (k & Ek & Sk) & _).
    rewrite Ek in Hframe.
    destruct (ColorFacts.convert_and_deliver_sized width height
                (Window.m_callback c1) (Window.convert fos) (Window.now fos)
                k Sk) as [_ Hf].
    destruct (Color.convert_and_deliver _ _ _ _) as [k' f'].
    injection Hframe as -> _. apply Hf. reflexivity.
Qed.

Lemma C4_frame_size_witness :
  Forall (fun f => Color.frame_size f = 4 * 2 * 3 / 2 /\
                   Z.of_nat (length (Color.frame_bytes f)) = 4 * 2 * 3 / 2)
         (Color.deliveries true
            [(Color.mapped_4x2, 0); (Color.BltFailed, 33); (Color.mapped_4x2, 66)]
            (snd (Color.Initialize Color.working_device 4 2 Color.fresh))).
Proof.
  apply (proj1 (C4_frame_size 4 2 ltac:(lia) ltac:(lia)) Color.working_device
               Color.fresh).
  reflexivity.
Defined.

(** *** C5 *)

(** The copy made when scaling is needed is the top-left crop, provided
    the requested size fits the source. *)
Lemma copy_is_crop scaled native w h :
  Width scaled = w -> Height scaled = h ->
  0 <= w <= Width native -> 0 <= h <= Height native ->
  w < 2 ^ 32 -> h < 2 ^ 32 ->
  top_left_crop w h native (CopySubresourceRegion scaled 0 0 native (srcBox w h)).
Proof.
  intros Ew Eh Hw Hh Hw32 Hh32.
  assert (B : box_fits scaled 0 0 native (srcBox w h) = true).
  { unfold box_fits, srcBox. simpl. unfold Int.u32.
    rewrite !wrap_small by lia.
    repeat (apply andb_true_iff; split); apply Z.leb_le; lia. }
  unfold CopySubresourceRegion. rewrite B.
  split; [exact Ew|]. split; [exact Eh|].
  intros x y Hx Hy. unfold texel, srcBox. simpl.
  unfold Int.u32. rewrite !wrap_small by lia. rewrite Ew, Eh.
  assert (X : (0 <=? x) && (x <? w) && (0 <=? y) && (y <? h) = true).
  { repeat (apply andb_true_iff; split);
      (apply Z.leb_le || apply Z.ltb_lt); lia. }
  assert (N : (0 <=? x) && (x <? Width native) && (0 <=? y)
              && (y <? Height native) = true).
  { repeat (apply andb_true_iff; split);
      (apply Z.leb_le || apply Z.ltb_lt); lia. }
  assert (I : (0 <=? x) && (x <? 0 + (w - 0)) && (0 <=? y)
              && (y <? 0 + (h - 0)) = true).
  { repeat (apply andb_true_iff; split);
      (apply Z.leb_le || apply Z.ltb_lt); lia. }
  rewrite X, N, I. f_equal. f_equal; lia.
Qed.

(** C5 as stated fails: for a 2 x 2 request on a 1 x 1 display the texture
    handed to the color converter is 2 x 2, and no 2 x 2 texture is a
    sub-region of a 1 x 1 frame, whatever the copy leaves in it. *)
Lemma C5_counterexample :
  exists c calls t c',
    Display.Initialize (Scenario.display_of 1 1) 2 2 30 Display.fresh = (true, c) /\
    Display.AcquireNextFrame (Scenario.frame_tick 1 1) c = (calls, Done (Some t, c')) /\
    ~ top_left_crop 2 2 (Scenario.desktop_frame 1 1) t.
Proof.
  eexists _, _, _, _. split; [reflexivity|]. split; [reflexivity|].
  intros (_ & _ & H). specialize (H 1 1 ltac:(lia) ltac:(lia)).
  vm_compute in H. discriminate.
Qed.

(** C5, as amended: in a display or window session whose requested size
    differs from the native size and fits within it, the texture passed
    on to color conversion is the requested [width] x [height] region at
    the top-left corner of the native frame, texel for texel. *)
Theorem C5_crop_when_request_fits :
  (forall os width height c tos native calls t c',
      Display.session os width height c ->
      width <> Display.nativeWidth os \/ height <> Display.nativeHeight os ->
      0 <= width <= Display.nativeWidth os ->
      0 <= height <= Display.nativeHeight os ->
      Display.nativeWidth os < 2 ^ 32 -> Display.nativeHeight os < 2 ^ 32 ->
      Width native = Display.nativeWidth os ->
      Height native = Display.nativeHeight os ->
      Display.acquire tos = Display.Acquired (Some native) ->
      Display.AcquireNextFrame tos c = (calls, Done (Some t, c')) ->
      top_left_crop width height native t) /\
  (forall os width height c fos native t c',
      Window.session os width height c ->
      width <> Window.windowWidth os \/ height <> Window.windowHeight os ->
      0 <= width <= Window.windowWidth os ->
      0 <= height <= Window.windowHeight os ->
      Window.windowWidth os < 2 ^ 32 -> Window.windowHeight os < 2 ^ 32 ->
      Width native = Window.windowWidth os ->
      Height native = Window.windowHeight os ->
      Window.next_frame fos = Some (Some native) ->
      Window.process_texture fos c = Done (Some (Some t), c') ->
      top_left_crop width height native t).
Proof.
  split.
  - intros os width height c tos native calls t c' Hs Hdiff Hw Hh Hnw Hnh
           Ew Eh Hacq Hrun.
    destruct (DisplayFacts.display_session_ready _ _ _ _ Hs)
      as (Mw & Mh & Mo & _ & Mn & Ms).
    assert (Hd : Display.differs os width height = true).
    { unfold Display.differs. apply orb_true_iff.
      destruct Hdiff as [D|D]; [left|right];
        apply negb_true_iff; apply Z.eqb_neq; exact D. }
    destruct (Ms Hd) as (scaled & Es & Sw & Sh).
    unfold Int.u32 in Sw, Sh. rewrite wrap_small in Sw, Sh by lia.
    unfold Display.AcquireNextFrame, Display.ReinitializeDuplication in Hrun.
    simpl in Hrun. rewrite Mo, Hacq in Hrun. simpl in Hrun.
    assert (Ht : t = CopySubresourceRegion scaled 0 0 native (srcBox width height)).
    { destruct (Display.m_duplication c); simpl in Hrun;
        [|destruct (Display.duplicate_ok tos); simpl in Hrun; [|discriminate]];
        rewrite Mn, Hd, Es, Mw, Mh in Hrun; congruence. }
    subst t. apply copy_is_crop; lia.
  - intros os width height c fos native t c' Hs Hdiff Hw Hh Hnw Hnh
           Ew Eh Hnext Hrun.
    destruct (WindowFacts.window_session_ready _ _ _ _ Hs)
        as (Mw & Mh & _ & Mn & Ms).
    assert (Hd : Window.differs os width height = true).
    { unfold Window.differs. apply orb_true_iff.
      destruct Hdiff as [D|D]; [left|right];
        apply negb_true_iff; apply Z.eqb_neq; exact D. }
    destruct (Ms Hd) as (scaled & Es & Sw & Sh).
    unfold Int.u32 in Sw, Sh. rewrite wrap_small in Sw, Sh by lia.
    unfold Window.process_texture in Hrun.
    rewrite Hnext, Mn, Hd, Es, Mw, Mh in Hrun.
    assert (Ht : t = CopySubresourceRegion scaled 0 0 native (srcBox width height)).
    { destruct (Window.m_running c); simpl in Hrun; congruence. }
    subst t. apply copy_is_crop; lia.
Qed.

Lemma C5_crop_when_request_fits_witness :
  top_left_crop 2 2 (Scenario.desktop_frame 4 4)
    (CopySubresourceRegion (blank 2 2) 0 0 (Scenario.desktop_frame 4 4) (srcBox 2 2)).
Proof.
  apply (proj1 C5_crop_when_request_fits (Scenario.display_of 4 4) 2 2
           (snd (Display.Initialize (Scenario.display_of 4 4) 2 2 30 Display.fresh))
           (Scenario.frame_tick 4 4) (Scenario.desktop_frame 4 4)
           [Display.AcquireFrame; Display.ReleaseFrame]
           _
           (Display.with_scaledTexture
              (Some (CopySubresourceRegion (blank 2 2) 0 0 (Scenario.desktop_frame 4 4)
                       (srcBox 2 2)))
              (snd (Display.Initialize (Scenario.display_of 4 4) 2 2 30 Display.fresh)))).
  - apply (Display.session_Initialize _ _ _ 30). reflexivity.
  - left. simpl. lia.
  - simpl. lia.
  - simpl. lia.
  - simpl. lia.
  - simpl. lia.
  - reflexivity.
  - reflexivity.
  - reflexivity.
  - reflexivity.
Defined.

(** *** C6 *)

(** C6 as stated fails: [Start] on objects on which [Initialize] was never
    called, and on a display capturer whose [Initialize] has returned
    false.  The audio and window capturers call through a null handle, the
    display capturer sets the flag and spawns its capture thread. *)
Lemma C6_counterexample :
  Audio.Start true Audio.fresh = NullDereference /\
  Window.Start Window.fresh = NullDereference /\
  (exists c', Display.Start Display.fresh = Done (c', true) /\
              Display.m_running c' = true) /\
  (exists c c',
      Display.Initialize Scenario.no_such_display 1920 1080 30 Display.fresh = (false, c) /\
      Display.Start c = Done (c', true) /\ Display.m_running c' = true).
Proof.
  split; [reflexivity|]. split; [reflexivity|]. split.
  - eexists. split; reflexivity.
  - eexists _, _. split; [reflexivity|]. split; reflexivity.
Qed.

(** C6, as amended: [Start] is rejected, returning at once and leaving
    the capturer as it is, exactly on the guard it has, that of a session
    already running.  It does not ask whether [Initialize] has succeeded:
    on a capturer that is not running the display capturer always spawns
    its thread, and the audio and window capturers call through their
    client and session handle, null when [Initialize] did not set it. *)
Theorem C6_start_rejects_only_running :
  (forall ok c, Audio.m_running c = true -> Audio.Start ok c = Done (c, false)) /\
  (forall c, Display.m_running c = true -> Display.Start c = Done (c, false)) /\
  (forall c, Window.m_running c = true -> Window.Start c = Done (c, false)) /\
  (forall ok c, Audio.m_running c = false -> Audio.m_audioClient c = None ->
                Audio.Start ok c = NullDereference) /\
  (forall c, Display.m_running c = false ->
             exists c', Display.Start c = Done (c', true)) /\
  (forall c, Window.m_running c = false -> Window.m_session c = false ->
             Window.Start c = NullDereference).
Proof.
  repeat split.
  - intros ok c H. unfold Audio.Start. now rewrite H.
  - intros c H. unfold Display.Start. now rewrite H.
  - intros c H. unfold Window.Start. now rewrite H.
  - intros ok c H Hc. unfold Audio.Start. rewrite H. simpl. now rewrite Hc.
  - intros c H. unfold Display.Start. rewrite H. eexists. reflexivity.
  - intros c H Hs. unfold Window.Start. rewrite H. simpl. now rewrite Hs.
Qed.

Lemma C6_start_rejects_only_running_witness :
  Display.Start (Display.with_running true Display.fresh)
  = Done (Display.with_running true Display.fresh, false).
Proof.
  apply (proj1 (proj2 C6_start_rejects_only_running)). reflexivity.
Defined.

(** *** C7 *)

(** C7: in a display session a tick never calls through a null handle
    and recreates the duplication at most once.  An access loss discards
    the handle, ends the tick without a frame and without a recreation
    after the loss.  A tick that starts without a handle recreates it
    exactly once, before anything else; when that fails the tick ends
    there, without a frame and still without a handle. *)
Theorem C7_access_loss_recovery os width height c tos :
  Display.session os width height c ->
  let result := Display.AcquireNextFrame tos c in
  (exists t c', snd result = Done (t, c')) /\
  (Display.recreations (fst result) <= 1)%nat /\
  (Display.acquire tos = Display.AccessLost ->
   Display.m_duplication c = true \/ Display.duplicate_ok tos = true ->
   exists c', snd result = Done (None, c') /\
              Display.m_duplication c' = false /\
              last (fst result) = Some Display.AcquireFrame /\
              (Display.m_duplication c = true ->
               Display.recreations (fst result) = O) /\
              forall tos',
                Display.recreations (fst (Display.AcquireNextFrame tos' c')) = 1%nat) /\
  (Display.m_duplication c = false ->
   exists rest, fst result = Display.DuplicateOutput :: rest /\
                Display.recreations rest = O) /\
  (Display.m_duplication c = false -> Display.duplicate_ok tos = false ->
   exists c', result = ([Display.DuplicateOutput], Done (None, c')) /\
              Display.m_duplication c' = false).
Proof.
  intros Hs result.
  destruct (DisplayFacts.display_session_ready _ _ _ _ Hs)
    as (_ & _ & Mo & _ & Mn & Ms).
  assert (Hsc : Display.m_needsScaling c = true ->
                exists scaled, Display.m_scaledTexture c = Some scaled).
  { intros E. rewrite Mn in E. destruct (Ms E) as (scaled & Es & _).
    now exists scaled. }
  assert (Hnext : forall c', Display.m_output c' = true ->
            Display.m_duplication c' = false ->
            forall tos',
              Display.recreations (fst (Display.AcquireNextFrame tos' c')) = 1%nat).
  { intros c' Ho Hd tos'.
    unfold Display.AcquireNextFrame, Display.ReinitializeDuplication.
    simpl. rewrite Ho, Hd. simpl.
    destruct (Display.duplicate_ok tos'); simpl; [|reflexivity].
    destruct (Display.acquire tos') as [| | |[desktop|]]; simpl; try reflexivity.
    destruct (Display.m_needsScaling c');
      [destruct (Display.m_scaledTexture c')
      |destruct (Display.copy_texture_ok tos')]; reflexivity. }
  subst result.
  unfold Display.AcquireNextFrame, Display.ReinitializeDuplication.
  simpl. rewrite Mo. simpl.
  destruct (Display.m_duplication c) eqn:Hd; simpl.
  - destruct (Display.acquire tos) as [| | |[desktop|]] eqn:Ha; simpl.
    + repeat split; eauto; try discriminate.
    + repeat split; eauto; try discriminate.
      intros _ _. exists (Display.with_duplication false c).
      repeat split.
      apply (Hnext (Display.with_duplication false c)); [exact Mo|reflexivity].
    + repeat split; eauto; try discriminate.
    + destruct (Display.m_needsScaling c) eqn:En.
      * destruct (Hsc eq_refl) as (scaled & Es). rewrite Es. simpl.
        repeat split; eauto; try discriminate.
      * destruct (Display.copy_texture_ok tos); simpl;
          repeat split; eauto; try discriminate.
    + repeat split; eauto; try discriminate.
  - destruct (Display.duplicate_ok tos) eqn:Hdup; simpl.
    + destruct (Display.acquire tos) as [| | |[desktop|]] eqn:Ha; simpl.
      * repeat split; eauto; try discriminate.
      * repeat split; eauto; try discriminate.
        intros _ _. exists (Display.with_duplication false c).
        repeat split; try discriminate.
        apply (Hnext (Display.with_duplication false c)); [exact Mo|reflexivity].
      * repeat split; eauto; try discriminate.
      * destruct (Display.m_needsScaling c) eqn:En.
        -- destruct (Hsc eq_refl) as (scaled & Es). rewrite Es. simpl.
           repeat split; eauto; try discriminate.
        -- destruct (Display.copy_texture_ok tos); simpl;
             repeat split; eauto; try discriminate.
      * repeat split; eauto; try discriminate.
    + repeat split; eauto; try discriminate.
      intros _ [H|H]; discriminate.
Qed.

Lemma C7_access_loss_recovery_witness :
  exists c',
    Display.AcquireNextFrame Scenario.access_lost_tick
      (snd (Display.Initialize (Scenario.display_of 4 4) 4 4 30 Display.fresh))
    = ([Display.AcquireFrame], Done (None, c')) /\
    Display.m_duplication c' = false /\
    forall tos',
      Display.recreations (fst (Display.AcquireNextFrame tos' c')) = 1%nat.
Proof.
  destruct (C7_access_loss_recovery (Scenario.display_of 4 4) 4 4
              (snd (Display.Initialize (Scenario.display_of 4 4) 4 4 30 Display.fresh))
              Scenario.access_lost_tick) as (_ & _ & H & _).
  - apply (Display.session_Initialize _ _ _ 30). reflexivity.
  - destruct H as (c' & E & Hd & _ & _ & Hn); [reflexivity|left; reflexivity|].
    exists c'. split; [|split; assumption].
    simpl in E. injection E as <-. reflexivity.
Defined.

End CaptureFacts.

(** ** Stop and the capture thread *)

Module ThreadFacts.
Import Threads.

Lemma audio_step_invariant c s :
  audio_invariant s -> audio_invariant (step AudioKind c s).
Proof.
  unfold audio_invariant. intros (I1 & I2 & I3 & I4).
  destruct (existsb is_stop (trace s)) eqn:Hstop;
    destruct (stopper s) eqn:Hst;
    destruct (worker s) as [| |[|]| | | | |] eqn:Hw;
    destruct (m_running s) eqn:Hr;
    try (specialize (I1 eq_refl)); try (specialize (I2 eq_refl));
    try (specialize (I3 eq_refl)); try discriminate;
    destruct c as [[|] [|]|]; simpl; unfold worker_step, stop_step;
    rewrite ?Hst, ?Hw, ?Hr; simpl; rewrite ?Hst, ?Hw, ?Hr, ?Hstop, ?I4;
    repeat split; intros; congruence.
Qed.

Lemma audio_exec_invariant sched : forall s,
  audio_invariant s -> audio_invariant (exec AudioKind sched s).
Proof.
  induction sched as [|c sched IH]; intros s Hs; simpl; [exact Hs|].
  apply IH. apply audio_step_invariant. exact Hs.
Qed.

(** C1: for the audio capturer no schedule invokes the callback after
    [Stop] has returned, for [Stop] joins the capture thread; the display
    capturer detaches its thread and [Stop] only clears the flag, so a
    tick that has passed the loop test still delivers its frame. *)
Theorem C1_stop_quiescence :
  (forall sched, late_callback (trace (exec AudioKind sched started)) = false) /\
  late_callback (trace (exec DisplayKind late_frame_schedule started)) = true /\
  stopper (exec DisplayKind late_frame_schedule started) = Returned.
Proof.
  split; [|split; reflexivity].
  intros sched.
  apply (audio_exec_invariant sched started).
  unfold audio_invariant, started. simpl. repeat split; auto; discriminate.
Qed.

End ThreadFacts.

(** ** The NV12 buffer outside the two planes *)

Module ColorTailFacts.
Import Color.

Lemma copy_planes_rest c src pitch j :
  0 <= m_width c -> 0 <= m_height c ->
  m_width c * m_height c + m_height c / 2 * m_width c <= j ->
  Vec.get x00 (copy_planes c src pitch) j = Vec.get x00 (m_nv12Buffer c) j.
Proof.
  intros Hw Hh Hj. unfold copy_planes.
  assert (Hq : Z.quot (m_height c) 2 = m_height c / 2)
    by (apply Z.quot_div_nonneg; lia).
  assert (Hhalf : 0 <= m_height c / 2) by (apply Z.div_pos; lia).
  rewrite Hq.
  set (ybody := fun (y : nat) (dst : list byte) =>
                  memcpy dst (Z.of_nat y * m_width c) src
                         (Int.u32 (Z.of_nat y * pitch)) (m_width c)).
  rewrite (for_loop_ext (Z.to_nat (m_height c)) ybody
             (fun y dst => memcpy dst (0 + Z.of_nat y * m_width c) src
                             (Int.u32 (Z.of_nat y * pitch)) (m_width c)))
    by (intros; reflexivity).
  destruct (ColorFacts.row_copies_get src 0 (m_width c)
              (fun y => Int.u32 (Z.of_nat y * pitch))
              (Z.to_nat (m_height c)) (m_nv12Buffer c) ltac:(lia) Hw)
    as (_ & _ & Yrest).
  set (ybuf := for_loop (Z.to_nat (m_height c)) _ (m_nv12Buffer c)) in *.
  destruct (ColorFacts.row_copies_get src (m_width c * m_height c) (m_width c)
              (fun y => Int.u32 (pitch * m_height c) + Int.u32 (Z.of_nat y * pitch))
              (Z.to_nat (m_height c / 2)) ybuf ltac:(nia) Hw)
    as (_ & _ & UVrest).
  rewrite UVrest by (right; rewrite Z2Nat.id by lia; lia).
  apply Yrest. right. rewrite Z2Nat.id by lia. nia.
Qed.

(** X2: [Convert] stores nothing past the two planes.  Whatever the device
    returns, frame after frame, the bytes of the buffer from
    [width * height + (height / 2) * width] on are the zeros that
    [Initialize] put there: with an odd height, the last [width / 2] bytes
    of every frame. *)
Theorem Convert_leaves_tail dev width height ok c0
    (rs : list DeviceResult) (j : Z) :
  0 <= width -> 0 <= height ->
  Initialize dev width height fresh = (ok, c0) ->
  width * height + height / 2 * width <= j < nv12_size width height ->
  m_nv12Buffer (fold_left (fun c r => snd (Convert r c)) rs c0) !! Z.to_nat j
  = Some x00.
Proof.
  intros Hw Hh Hinit Hj.
  assert (Hj0 : 0 <= j).
  { pose proof (Z.div_pos height 2 Hh ltac:(lia)). nia. }
  assert (Inv : m_width c0 = width /\ m_height c0 = height /\
                sized width height c0 /\
                Vec.get x00 (m_nv12Buffer c0) j = x00).
  { split; [|split; [|split]].
    1,2,4: unfold Initialize in Hinit;
      assert (E : c0 = {| m_width := width; m_height := height;
                          m_nv12Size := nv12_size width height;
                          m_nv12Buffer := resize (Z.to_nat (nv12_size width height))
                                                 x00 (m_nv12Buffer fresh) |})
        by (destruct (negb (video_processor_ok dev));
              [|destruct (negb (output_textures_ok dev))]; congruence);
      subst c0; simpl; try reflexivity.
    - rewrite resize_nil. unfold Vec.get. destruct (_ && _) eqn:E; [|reflexivity].
      apply andb_true_iff in E as [E1 E2].
      apply Z.leb_le in E1. apply Z.ltb_lt in E2.
      rewrite length_replicate in E2.
      rewrite lookup_replicate_2 by (clear - E1 E2; lia). reflexivity.
    - eapply ColorFacts.Initialize_sized. exact Hinit. }
  clear Hinit. revert c0 Inv.
  induction rs as [|r rs IH]; intros c0 (Ew & Eh & Hs & E0); simpl.
  - destruct Hs as [Hs Hl].
    rewrite (Vec_lookup_get x00) by (rewrite Hl, Hs; lia).
    rewrite Z2Nat.id by lia. now rewrite E0.
  - apply IH. split; [|split; [|split]].
    + destruct r; simpl; assumption.
    + destruct r; simpl; assumption.
    + now apply ColorFacts.Convert_sized.
    + destruct r; simpl; try assumption.
      rewrite copy_planes_rest; [exact E0|lia|lia|].
      rewrite Ew, Eh. lia.
Qed.

Lemma Convert_leaves_tail_witness :
  m_nv12Buffer
    (fold_left (fun c r => snd (Convert r c))
       [Mapped (replicate 64 xff) 8; BltFailed; Mapped (replicate 64 x80) 8]
       (snd (Initialize working_device 4 3 fresh))) !! Z.to_nat 17
  = Some x00.
Proof.
  apply (Convert_leaves_tail working_device 4 3 true
           (snd (Initialize working_device 4 3 fresh))).
  - lia.
  - lia.
  - reflexivity.
  - vm_compute. split; [discriminate|reflexivity].
Defined.

Lemma Convert_layout_witness :
  let out := m_nv12Buffer
               (snd (Convert mapped_4x2 (snd (Initialize working_device 4 2 fresh)))) in
  Vec.get x00 out (1 * 4 + 2)
  = Vec.get x00 [x10; x11; x12; x13; x00; x00; x00; x00;
                 x14; x15; x16; x17; x00; x00; x00; x00;
                 x80; x81; x82; x83; x00; x00; x00; x00]
            (Int.u32 (1 * 8) + 2).
Proof.
  apply (proj1 (ColorFacts.Convert_layout 4 2
                  [x10; x11; x12; x13; x00; x00; x00; x00;
                   x14; x15; x16; x17; x00; x00; x00; x00;
                   x80; x81; x82; x83; x00; x00; x00; x00] 8
                  (snd (Initialize working_device 4 2 fresh))
                  eq_refl eq_refl ltac:(lia) ltac:(lia) ltac:(lia)
                  ltac:(split; reflexivity)));
    lia.
Defined.

End ColorTailFacts.

(** ** Audio: the 48 kHz path, empty buffers, sessions *)

Module AudioPathFacts.
Import Audio AudioControl.

Lemma all_from_spec (n : nat) (p : Z -> bool) : forall lo,
  all_from n p lo = true ->
  forall v, lo <= v < lo + Z.of_nat n -> p v = true.
Proof.
  induction n as [|n IH]; intros lo H v Hv; simpl in *; [lia|].
  apply andb_true_iff in H as [H0 H1].
  destruct (Z.eq_dec v lo) as [->|Hne]; [exact H0|].
  apply (IH (lo + 1)); [exact H1|lia].
Qed.

(** Every 16-bit sample, through [/ 32768.0f], the clamp, [* 32767.0f] and
    the conversion back: checked on all 65536 of them. *)
Lemma to_int16_of_int16 (v : Z) :
  -32768 <= v <= 32767 ->
  to_int16 (F32.div (F32.of_Z v) f32768) = toward_zero v.
Proof.
  intros Hv. apply Z.eqb_eq.
  apply (all_from_spec (Z.to_nat 65536)
           (fun v => to_int16 (F32.div (F32.of_Z v) f32768) =? toward_zero v)
           (-32768)); [vm_cast_no_check (eq_refl true)|lia].
Qed.

Lemma read_i16_range data k : -32768 <= read_i16 data k <= 32767.
Proof.
  unfold read_i16, Int.i16, Int.swrap, Int.wrap.
  pose proof (Z.mod_pos_bound (read_u16 data k) (2 ^ 16) ltac:(lia)) as H.
  change (2 ^ (16 - 1)) with 32768. change (2 ^ 16) with 65536 in *.
  destruct (_ <? _) eqn:E; [apply Z.ltb_lt in E|apply Z.ltb_ge in E]; lia.
Qed.

(** After the first loop the float buffer holds, for every frame, the pair
    converted from it. *)
Lemma convert_loop_get fmt data n buf i :
  0 <= n < 2 ^ 31 ->
  Z.of_nat (length buf) = 2 * n ->
  0 <= i < n ->
  float_at (convert_loop fmt data n buf) (2 * i) = fst (convert_frame fmt data i) /\
  float_at (convert_loop fmt data n buf) (2 * i + 1) = snd (convert_frame fmt data i).
Proof.
  intros Hn Hlen Hi. unfold convert_loop, float_at.
  set (body := fun (i : nat) (buf : list spec_float) =>
                 let lr := convert_frame fmt data (Z.of_nat i) in
                 Vec.set (Vec.set buf (Int.u32 (Z.of_nat i * 2)) (fst lr))
                         (Int.u32 (Z.of_nat i * 2 + 1)) (snd lr)).
  assert (Inv : forall k, (k <= Z.to_nat n)%nat ->
            length (for_loop k body buf) = length buf /\
            forall j, 0 <= j < Z.of_nat k ->
              Vec.get F32.zero (for_loop k body buf) (2 * j)
              = fst (convert_frame fmt data j) /\
              Vec.get F32.zero (for_loop k body buf) (2 * j + 1)
              = snd (convert_frame fmt data j)).
  { induction k as [|k IH]; intros Hk.
    - split; [reflexivity|]. intros j Hj. lia.
    - destruct IH as [IHlen IHget]; [lia|].
      cbn [for_loop]. set (s := for_loop k body buf) in *.
      unfold body. cbv zeta.
      split; [now rewrite !Vec_length_set|].
      intros j Hj.
      assert (E0 : Int.u32 (Z.of_nat k * 2) = 2 * Z.of_nat k)
        by (unfold Int.u32; rewrite wrap_small; lia).
      assert (E1 : Int.u32 (Z.of_nat k * 2 + 1) = 2 * Z.of_nat k + 1)
        by (unfold Int.u32; rewrite wrap_small; lia).
      rewrite E0, E1.
      destruct (Z.eq_dec j (Z.of_nat k)) as [->|Hne].
      + split.
        * rewrite Vec_get_set_ne by lia. apply Vec_get_set_eq.
          rewrite IHlen. lia.
        * apply Vec_get_set_eq. rewrite Vec_length_set, IHlen. lia.
      + rewrite !Vec_get_set_ne by lia. apply IHget. lia. }
  destruct (Inv (Z.to_nat n) ltac:(lia)) as [_ Hget].
  apply Hget. lia.
Qed.

(** X3: at 48 kHz a 16-bit input is not passed through unchanged.  Every
    output sample is the input sample of the same frame and channel moved
    one step toward zero: 0 stays 0, 1 and -1 become 0, 32767 becomes
    32766 and -32768 becomes -32767; the output holds one stereo frame per
    input frame (the right channel of a mono input repeats the left). *)
Theorem direct_path_16bit fmt data n b :
  m_bitsPerSample fmt = 16 ->
  m_sampleRate fmt = 48000 ->
  1 <= m_channels fmt ->
  0 <= n < 2 ^ 31 ->
  n * (2 * m_channels fmt) <= 2 ^ 32 ->
  let out := m_outputBuffer (NormalizeAudio fmt data n b) in
  let right := if 2 <=? m_channels fmt then 2 else 0 in
  Z.of_nat (length out) = 2 * n /\
  forall i, 0 <= i < n ->
    Vec.get 0 out (2 * i)
    = toward_zero (read_i16 data (i * (2 * m_channels fmt))) /\
    Vec.get 0 out (2 * i + 1)
    = toward_zero (read_i16 data (i * (2 * m_channels fmt) + right)).
Proof.
  intros Hbits Hrate Hch Hn Hwrap out right.
  assert (Hof : outputFrames fmt n = n)
    by (unfold outputFrames; now rewrite Hrate).
  assert (E64 : Int.u64 (n * 2) = 2 * n)
    by (unfold Int.u64; rewrite wrap_small; lia).
  assert (E32 : Int.u32 (n * 2) = 2 * n)
    by (unfold Int.u32; rewrite wrap_small; lia).
  assert (Hlen : Z.of_nat (length out) = 2 * n).
  { subst out. rewrite AudioFacts.NormalizeAudio_length, Hof, E64. lia. }
  split; [exact Hlen|]. intros i Hi.
  subst out. unfold NormalizeAudio in *. simpl in *.
  rewrite Hrate in *. simpl in *. rewrite Hof in *.
  set (rs := convert_loop _ _ _ _) in *.
  set (out0 := resize _ 0 _) in *.
  assert (L0 : length out0 = Z.to_nat (Int.u64 (n * 2))) by apply length_resize.
  destruct (convert_loop_get fmt data n
              (resize (Z.to_nat (Int.u32 (n * 2))) F32.zero (m_resampleBuffer b)) i)
    as [El Er]; [lia|rewrite length_resize, E32; lia|lia|].
  fold rs in El, Er.
  rewrite !AudioFacts.direct_loop_get by (try exact L0; rewrite L0, E64; lia).
  rewrite El, Er.
  assert (Hframe : frame_at fmt i = i * (2 * m_channels fmt)).
  { unfold frame_at, bytesPerFrame, bytesPerSample. rewrite Hbits.
    change (Z.quot 16 8) with 2. unfold Int.u32. apply wrap_small. nia. }
  unfold convert_frame. rewrite Hbits, Hframe. simpl.
  rewrite andb_false_r. simpl. subst right.
  destruct (2 <=? m_channels fmt); simpl;
    rewrite ?to_int16_of_int16 by apply read_i16_range;
    rewrite ?Z.add_0_r; split; reflexivity.
Qed.

Lemma direct_path_16bit_witness :
  let out := m_outputBuffer
               (NormalizeAudio (pcm16 2 48000) two_stereo_frames 2 no_buffers) in
  Vec.get 0 out (2 * 1) = toward_zero (read_i16 two_stereo_frames (1 * (2 * 2))) /\
  Vec.get 0 out (2 * 1 + 1)
  = toward_zero (read_i16 two_stereo_frames (1 * (2 * 2) + 2)).
Proof.
  apply (proj2 (direct_path_16bit (pcm16 2 48000) two_stereo_frames 2 no_buffers
                  eq_refl eq_refl ltac:(simpl; lia) ltac:(lia) ltac:(simpl; lia))).
  lia.
Defined.





Lemma audio_Initialize_true os c0 c :
  Initialize os c0 = (true, c) ->
  m_running c = m_running c0 /\ m_captureThread c = m_captureThread c0 /\
  m_audioClient c = Some true.
Proof.
  unfold Initialize. intros H.
  repeat match type of H with
         | (if ?b then _ else _) = _ => destruct b
         | match ?o with Some _ => _ | None => _ end = _ => destruct o
         end; try discriminate.
  injection H as <-. simpl. repeat split.
Qed.

(** X5: in a session of the audio capturer (a successful [Initialize] on
    a new object, then any calls of [Start] and [Stop] and any buffers)
    the capture thread is joinable only while the capturer is running, so
    the assignment to [m_captureThread] in [Start] never meets a joinable
    thread; the audio client stays initialized, so [Start] never goes
    through a null handle; and [Start] on a stopped session spawns the
    capture thread exactly when [IAudioClient::Start] succeeds, leaving the
    capturer stopped otherwise. *)
Theorem audio_session_start c :
  session c ->
  (m_captureThread c = true -> m_running c = true) /\
  m_audioClient c = Some true /\
  forall start_ok, exists c' spawned,
    Start start_ok c = Done (c', spawned) /\
    (m_running c = false ->
     spawned = start_ok /\ m_running c' = start_ok /\
     m_captureThread c' = start_ok).
Proof.
  intros Hs.
  assert (Inv : (m_captureThread c = true -> m_running c = true) /\
                m_audioClient c = Some true).
  { induction Hs as [os c Hinit|start_ok c c' spawned Hs [IHt IHc] Hstart
                    |c Hs [IHt IHc]|sz c p Hs [IHt IHc]].
    - destruct (audio_Initialize_true _ _ _ Hinit) as (Hr & Ht & Hc).
      simpl in Hr, Ht. rewrite Ht. split; [discriminate|exact Hc].
    - unfold Start in Hstart.
      destruct (m_running c) eqn:Hr.
      + injection Hstart as <- _. rewrite Hr. split; [reflexivity|exact IHc].
      + simpl in Hstart. rewrite IHc in Hstart.
        destruct start_ok; simpl in Hstart; injection Hstart as <- _; simpl.
        * split; [reflexivity|exact IHc].
        * split; [|exact IHc]. intros Ht. apply IHt in Ht. discriminate.
    - unfold Stop. destruct (m_running c) eqn:Hr; simpl.
      + split; [discriminate|exact IHc].
      + rewrite Hr. split; [exact IHt|exact IHc].
    - unfold on_buffer.
      destruct (_ && _); simpl; (split; [exact IHt|exact IHc]). }
  destruct Inv as [Ht Hc]. split; [exact Ht|]. split; [exact Hc|].
  intros start_ok. unfold Start.
  destruct (m_running c) eqn:Hr.
  - exists c, false. split; [reflexivity|discriminate].
  - simpl. rewrite Hc. destruct start_ok; simpl; eexists _, _;
      (split; [reflexivity|]); intros _; simpl; repeat split.
    destruct (m_captureThread c); [specialize (Ht eq_refl); discriminate|].
    reflexivity.
Qed.

Lemma audio_session_start_witness :
  exists c' spawned,
    Start true (snd (Initialize (working_setup (pcm16 2 48000)) fresh))
    = Done (c', spawned) /\ spawned = true.
Proof.
  destruct (audio_session_start
              (snd (Initialize (working_setup (pcm16 2 48000)) fresh))
              (session_Initialize (working_setup (pcm16 2 48000)) _ eq_refl))
    as (_ & _ & H).
  destruct (H true) as (c' & spawned & E & Hsp).
  exists c', spawned. split; [exact E|]. apply Hsp. reflexivity.
Defined.

End AudioPathFacts.

(** ** Window capture after Stop *)

Module WindowStopFacts.
Import Window.

(** X6: [WindowCapturer::Stop] is final.  After it the frame handler
    ignores every frame that still arrives (no callback, no change of the
    capturer); and since [Stop] on a running capturer closes the session
    and sets it to null, a later [Start] calls [StartCapture] through the
    null session: a window capturer cannot be restarted. *)
Theorem window_Stop_final (c : WindowCapturer) :
  (forall fos, OnFrameArrived fos (Stop c) = Done (None, Stop c)) /\
  (m_running c = true -> Start (Stop c) = NullDereference).
Proof.
  split.
  - intros fos. unfold OnFrameArrived, process_texture, Stop.
    destruct (m_running c) eqn:Hr; simpl; [reflexivity|].
    now rewrite Hr.
  - intros Hr. unfold Start, Stop. rewrite Hr. reflexivity.
Qed.

End WindowStopFacts.

(** ** Acquired frames are released *)

Module FrameFacts.
Import Display Frames.

Lemma releases_app calls calls' :
  releases (calls ++ calls') = (releases calls + releases calls')%nat.
Proof.
  induction calls as [|[] calls IH]; simpl; rewrite ?IH; reflexivity.
Qed.

Lemma acquires_app calls calls' :
  acquires (calls ++ calls') = (acquires calls + acquires calls')%nat.
Proof.
  induction calls as [|[] calls IH]; simpl; rewrite ?IH; reflexivity.
Qed.

(** X7: whenever [AcquireNextFrame] returns, the frame it acquired from
    the duplication, if any, has been released exactly once, also on the
    paths that fail after the acquisition; when no frame was acquired
    (timeout, access lost, error, failed re-creation of the duplication)
    [ReleaseFrame] is not called; and a texture is handed out only after
    the release. *)
Theorem acquired_frames_released os c calls r :
  AcquireNextFrame os c = (calls, Done r) ->
  (acquires calls <= 1)%nat /\
  releases calls = (if acquired (acquire os) then acquires calls else O) /\
  (fst r <> None -> releases calls = 1%nat).
Proof.
  unfold AcquireNextFrame. intros H.
  assert (Hre : forall calls0 o,
            (if negb (m_duplication c)
             then match ReinitializeDuplication (duplicate_ok os) c with
                  | NullDereference => ([], NullDereference)
                  | Done r => ([DuplicateOutput], Done r)
                  end
             else ([], Done (true, c))) = (calls0, o) ->
            acquires calls0 = O /\ releases calls0 = O).
  { intros calls0 o E. destruct (negb (m_duplication c)).
    - destruct (ReinitializeDuplication _ _); injection E as <- _; split; reflexivity.
    - injection E as <- _. split; reflexivity. }
  destruct (if negb (m_duplication c) then _ else _) as [calls0 o] eqn:E.
  destruct (Hre _ _ eq_refl) as [Ha Hr]. clear Hre E.
  destruct o as [[[] c1]|]; [| |discriminate].
  - destruct (acquire os) as [| | |[desktopTexture|]]; simpl.
    1-3: injection H as <- <-; rewrite acquires_app, releases_app, Ha, Hr; simpl;
         (split; [lia|split; [reflexivity|intros F; now elim F]]).
    + destruct (m_needsScaling c1).
      * destruct (m_scaledTexture c1); [|discriminate].
        injection H as <- <-. rewrite acquires_app, releases_app, Ha, Hr. simpl.
        split; [lia|split; reflexivity].
      * destruct (negb (copy_texture_ok os)); injection H as <- <-;
          rewrite acquires_app, releases_app, Ha, Hr; simpl;
          (split; [lia|split; reflexivity]).
    + injection H as <- <-. rewrite acquires_app, releases_app, Ha, Hr. simpl.
      split; [lia|split; reflexivity].
  - injection H as <- <-. rewrite Ha, Hr. simpl.
    split; [lia|split; [now destruct (acquired _)|intros F; now elim F]].
Qed.

Lemma acquired_frames_released_witness :
  releases (fst (AcquireNextFrame (Scenario.frame_tick 4 2)
                   (snd (Initialize (Scenario.display_of 4 2) 4 2 30 fresh))))
  = 1%nat.
Proof.
  refine (proj2 (proj2 (acquired_frames_released (Scenario.frame_tick 4 2)
            (snd (Initialize (Scenario.display_of 4 2) 4 2 30 fresh))
            _ _ eq_refl)) _).
  discriminate.
Defined.

End FrameFacts.

(** ** Frame-rate limiting *)

Module PacingFacts.
Import Pacing.

Lemma frameDuration_range fps :
  1 <= fps -> 0 <= frameDuration fps <= 1000000000.
Proof.
  intros Hf. unfold frameDuration.
  rewrite Z.quot_div_nonneg by lia.
  pose proof (Z.div_pos 1000000 fps ltac:(lia) ltac:(lia)).
  assert (1000000 / fps <= 1000000); [|lia].
  apply Z.div_le_upper_bound; nia.
Qed.

Lemma CaptureLoop_within d : forall ticks last nextFrameTime,
  nextFrameTime <= last ->
  steady d last nextFrameTime ticks ->
  Forall (within d) (CaptureLoop d nextFrameTime ticks).
Proof.
  induction ticks as [|k rest IH]; intros last next Hnext Hsteady; simpl;
    [constructor|].
  simpl in Hsteady. destruct Hsteady as [Hlast Hrest].
  unfold limit in *.
  destruct (0 <? next + d - after_work k) eqn:E.
  - apply Z.ltb_lt in E. constructor; [simpl; lia|].
    apply (IH (after_work k + (next + d - after_work k))); [lia|exact Hrest].
  - destruct Hrest as [Hreset Hrest].
    constructor; [exact I|]. apply (IH (at_reset k)); [lia|exact Hrest].
Qed.

(** X8: the frame-rate limiting of the display capture loop.  With a
    steady clock (no reading earlier than the one before, [sleep_for]
    returning no earlier than asked) every sleep the loop asks for is
    positive and at most one frame period, [1000000 / m_fps] microseconds,
    however long the iterations before it took; and the frame period is at
    most one second. *)
Theorem capture_loop_pacing (m_fps start : Z) (ticks : list Clock) :
  1 <= m_fps ->
  steady (frameDuration m_fps) start start ticks ->
  Forall (within (frameDuration m_fps)) (CaptureLoop (frameDuration m_fps) start ticks) /\
  frameDuration m_fps <= 1000000000.
Proof.
  intros Hf Hsteady. split.
  - apply (CaptureLoop_within _ ticks start start); [lia|exact Hsteady].
  - apply frameDuration_range. exact Hf.
Qed.

Lemma capture_loop_pacing_witness :
  Forall (within (frameDuration 30))
    (CaptureLoop (frameDuration 30) 0
       [ {| after_work := 5000000; at_reset := 5000000 |};
         {| after_work := 80000000; at_reset := 80000100 |};
         {| after_work := 90000000; at_reset := 90000000 |} ]).
Proof.
  apply (capture_loop_pacing 30 0); [lia|].
  vm_compute. repeat split; discriminate.
Defined.

End PacingFacts.

(** ** The timestamps *)

Module TimestampFacts.
Import Timestamps.

Lemma i64_small z : - 2 ^ 63 <= z < 2 ^ 63 -> i64 z = z.
Proof.
  intros H. unfold i64, Int.swrap, Int.wrap.
  change (2 ^ (64 - 1)) with (2 ^ 63).
  change (2 ^ 64) with (2 * 2 ^ 63) in *.
  destruct (Z_lt_le_dec z 0) as [Hn|Hp].
  - assert (E : z mod (2 * 2 ^ 63) = z + 2 * 2 ^ 63).
    { symmetry. apply (Z.mod_unique _ _ (-1)); lia. }
    rewrite E. destruct (_ <? _) eqn:El; [apply Z.ltb_lt in El|]; lia.
  - rewrite Z.mod_small by lia.
    destruct (_ <? _) eqn:El; [|apply Z.ltb_ge in El]; lia.
Qed.

Lemma video_timestamp_value f now :
  0 < f -> 0 <= now -> now * 1000 < 2 ^ 63 ->
  video_timestamp f now = now * 1000 / f.
Proof.
  intros Hf Hn Ho. unfold video_timestamp.
  rewrite i64_small by lia. rewrite Z.quot_div_nonneg by lia.
  unfold Int.u64, Int.wrap. apply Z.mod_small. split.
  - apply Z.div_pos; lia.
  - apply Z.le_lt_trans with (now * 1000); [|lia].
    apply Z.div_le_upper_bound; nia.
Qed.

Lemma audio_timestamp_value f start now :
  0 < f -> 0 <= start <= now -> now * 1000 < 2 ^ 63 ->
  audio_timestamp f start now = (now - start) * 1000 / f.
Proof.
  intros Hf Hn Ho. unfold audio_timestamp.
  rewrite (i64_small (now - start)) by lia.
  rewrite i64_small by lia. rewrite Z.quot_div_nonneg by lia.
  unfold Int.u64, Int.wrap. apply Z.mod_small. split.
  - apply Z.div_pos; lia.
  - apply Z.le_lt_trans with ((now - start) * 1000); [|lia].
    apply Z.div_le_upper_bound; nia.
Qed.

(** X28: the two clocks of the callbacks.  As long as the performance
    counter times 1000 fits a [LONGLONG], a video timestamp is the time
    since the counter was zero and an audio timestamp the time since
    [AudioCapturer::Start], both in whole milliseconds: the timestamp of
    an audio packet is the video timestamp of the same instant minus the
    video timestamp of the start, or one millisecond less.  Both kinds
    of timestamps never decrease. *)
Theorem timestamps_of_one_instant f start now :
  0 < f -> 0 <= start <= now -> now * 1000 < 2 ^ 63 ->
  video_timestamp f now = now * 1000 / f /\
  audio_timestamp f start now = (now - start) * 1000 / f /\
  video_timestamp f now - video_timestamp f start - 1
  <= audio_timestamp f start now
  <= video_timestamp f now - video_timestamp f start /\
  forall later, now <= later -> later * 1000 < 2 ^ 63 ->
    video_timestamp f now <= video_timestamp f later /\
    audio_timestamp f start now <= audio_timestamp f start later.
Proof.
  intros Hf Hs Ho.
  rewrite (video_timestamp_value f now), (video_timestamp_value f start),
    audio_timestamp_value by lia.
  split; [reflexivity|]. split; [reflexivity|]. split.
  - pose proof (Z.div_mod (now * 1000) f ltac:(lia)) as E1.
    pose proof (Z.mod_pos_bound (now * 1000) f Hf) as B1.
    pose proof (Z.div_mod (start * 1000) f ltac:(lia)) as E2.
    pose proof (Z.mod_pos_bound (start * 1000) f Hf) as B2.
    split.
    + apply Z.div_le_lower_bound; [exact Hf|]. nia.
    + apply Z.lt_succ_r. apply Z.div_lt_upper_bound; [exact Hf|]. nia.
  - intros later Hl Hlo.
    rewrite (video_timestamp_value f later), (audio_timestamp_value f start later)
      by lia.
    split; apply Z.div_le_mono; lia.
Qed.

Lemma timestamps_of_one_instant_witness :
  video_timestamp 10000000 36000000000 = 3600000 /\
  audio_timestamp 10000000 35999995001 36000000000 = 0.
Proof.
  destruct (timestamps_of_one_instant 10000000 35999995001 36000000000
              ltac:(lia) ltac:(lia) ltac:(lia)) as (Hv & Ha & _).
  split; [exact Hv|exact Ha].
Defined.

End TimestampFacts.

(** ** The command line *)

Module CliFacts.
Import Cli.

Lemma digits_nonneg s : forall acc, 0 <= acc -> 0 <= digits s acc.
Proof.
  induction s as [|c s IH]; intros acc Hacc; simpl; [exact Hacc|].
  unfold digit. destruct (_ && _) eqn:E; [|exact Hacc].
  apply andb_true_iff in E as [E1 E2]. apply Z.leb_le in E1.
  apply IH. lia.
Qed.

Lemma stoi_range s v : stoi s = Value v -> - 2 ^ 31 <= v < 2 ^ 31.
Proof.
  unfold stoi. destruct (sign (skip_space s)) as [minus r].
  destruct (starts_with_digit r); [|discriminate].
  destruct (_ && _) eqn:E; [|discriminate].
  intros H. injection H as <-.
  apply andb_true_iff in E as [E1 E2].
  apply Z.leb_le in E1. apply Z.ltb_lt in E2. lia.
Qed.

Lemma stoull_range s v : stoull s = Value v -> 0 <= v < 2 ^ 64.
Proof.
  unfold stoull. destruct (sign (skip_space s)) as [minus r].
  destruct (starts_with_digit r); [|discriminate].
  destruct (_ <? _) eqn:E; [|discriminate].
  intros H. injection H as <-. apply Z.ltb_lt in E.
  destruct minus; [apply wrap_range; lia|].
  split; [apply digits_nonneg; lia|exact E].
Qed.

Lemma parse_representable args : forall o o',
  representable o -> parse args o = inl o' -> representable o'.
Proof.
  induction args as [args IH] using (well_founded_induction
    (well_founded_ltof _ (@length string))).
  intros o o' Ho H. destruct args as [|a [|v rest']]; simpl in H.
  - injection H as <-. exact Ho.
  - destruct (String.eqb a "--audio"); injection H as <-; exact Ho.
  - assert (IH1 : forall o1, representable o1 -> parse (v :: rest') o1 = inl o' ->
                             representable o')
      by (intros o1; apply IH; unfold ltof; simpl; lia).
    assert (IH2 : forall o1, representable o1 -> parse rest' o1 = inl o' ->
                             representable o')
      by (intros o1; apply IH; unfold ltof; simpl; lia).
    destruct Ho as (H1 & H2 & H3 & H4 & H5).
    repeat match type of H with
           | (if ?b then _ else _) = _ => destruct b
           end;
      try (destruct (stoi v) as [n|e] eqn:E; [|discriminate];
           apply stoi_range in E);
      try (destruct (stoull v) as [n|e] eqn:E; [|discriminate];
           apply stoull_range in E);
      first [ eapply IH2; [|exact H]; repeat split; simpl; lia
            | eapply IH1; [|exact H]; repeat split; simpl; lia ].
Qed.

(** X9: [main] calls [Capture] only with a width and a height between 1
    and 4096 and a frame rate between 1 and 120, a display index that is
    an [int] and a window handle that is a pointer value, whatever the
    command line.  For these the size of an NV12 frame is computed without
    wrap-around and is at most 24 MiB, and the frame period of the display
    capture loop is between 8333 microseconds and one second. *)
Theorem main_validates args o :
  main args = RunCapture o ->
  (1 <= width o <= 4096 /\ 1 <= height o <= 4096 /\ 1 <= fps o <= 120) /\
  (- 2 ^ 31 <= displayIndex o < 2 ^ 31 /\ 0 <= windowHandle o < 2 ^ 64) /\
  (Color.nv12_size (width o) (height o) = width o * height o * 3 / 2 /\
   Color.nv12_size (width o) (height o) <= 25165824) /\
  8333000 <= Pacing.frameDuration (fps o) <= 1000000000.
Proof.
  unfold main. destruct (existsb is_help args); [discriminate|].
  destruct (is_list args); [discriminate|].
  destruct (parse (drop 1 args) defaults) as [o1|e] eqn:Hp; [|discriminate].
  unfold validate.
  destruct (_ || _) eqn:Ew; [discriminate|].
  destruct (_ || _) eqn:Eh in |- *; [discriminate|].
  destruct (_ || _) eqn:Ef in |- *; [discriminate|].
  intros H. injection H as ->.
  apply orb_false_iff in Ew as [Ew1 Ew2], Eh as [Eh1 Eh2], Ef as [Ef1 Ef2].
  apply Z.leb_gt in Ew1, Eh1, Ef1. apply Z.ltb_ge in Ew2, Eh2, Ef2.
  assert (Hr : representable o).
  { apply (parse_representable (drop 1 args) defaults o); [|exact Hp].
    repeat split; simpl; lia. }
  destruct Hr as (H1 & H2 & _).
  split; [lia|]. split; [lia|]. split.
  - rewrite ColorFacts.nv12_size_exact by lia. split; [reflexivity|].
    apply Z.div_le_upper_bound; nia.
  - unfold Pacing.frameDuration. rewrite Z.quot_div_nonneg by lia.
    assert (8333 <= 1000000 / fps o) by (apply Z.div_le_lower_bound; lia).
    assert (1000000 / fps o <= 1000000) by (apply Z.div_le_upper_bound; nia).
    lia.
Qed.

Lemma main_validates_witness :
  1 <= 640 <= 4096 /\ 1 <= 480 <= 4096 /\ 1 <= 60 <= 120.
Proof.
  apply (main_validates
           ["SnackaCaptureWindows.exe"; "--width"; "640"; "--height"; "480";
            "--fps"; " +60fps"; "--audio"]%string
           {| displayIndex := 0; windowHandle := 0; width := 640; height := 480;
              fps := 60; captureAudio := true |}).
  vm_compute. reflexivity.
Defined.

(** *** Identifiers printed by the listing, read back by [main] *)

Lemma digits_of_uint_acc d : forall acc,
  digits (NilEmpty.string_of_uint d) (Z.pos acc) = Z.pos (Pos.of_uint_acc d acc).
Proof.
  induction d; intros acc; simpl; try reflexivity; rewrite <- IHd; f_equal; lia.
Qed.

Lemma digits_of_uint d :
  digits (NilEmpty.string_of_uint d) 0 = Z.of_uint d.
Proof.
  unfold Z.of_uint.
  induction d; simpl; try reflexivity; try exact IHd;
    apply (digits_of_uint_acc d).
Qed.

(** The digits [to_string] writes for a value that is not negative are
    read back as that value. *)
Lemma to_string_value n :
  0 <= n ->
  sign (skip_space (SourceLister.to_string n)) = (false, SourceLister.to_string n) /\
  starts_with_digit (SourceLister.to_string n) = true /\
  digits (SourceLister.to_string n) 0 = n.
Proof.
  intros Hn. unfold SourceLister.to_string.
  destruct n as [|p|p]; [repeat split| |lia].
  pose proof (DecimalZ.of_to (Z.pos p)) as Hd. simpl in Hd |- *.
  set (d := Pos.to_uint p) in *. clearbody d.
  destruct d; simpl in *;
    (split; [reflexivity|split; [reflexivity|]]);
    try (rewrite <- Hd; unfold Z.of_uint; simpl;
         first [reflexivity | apply digits_of_uint | apply (digits_of_uint_acc d)]).
Qed.

Lemma stoi_to_string n :
  0 <= n < 2 ^ 31 -> stoi (SourceLister.to_string n) = Value n.
Proof.
  intros Hn.
  destruct (to_string_value n ltac:(lia)) as (E1 & E2 & E3).
  unfold stoi. rewrite E1, E2, E3.
  destruct (_ && _) eqn:E; [reflexivity|].
  apply andb_false_iff in E as [E|E];
    [apply Z.leb_gt in E|apply Z.ltb_ge in E]; lia.
Qed.

Lemma stoull_to_string n :
  0 <= n < 2 ^ 64 -> stoull (SourceLister.to_string n) = Value n.
Proof.
  intros Hn.
  destruct (to_string_value n ltac:(lia)) as (E1 & E2 & E3).
  unfold stoull. rewrite E1, E2, E3.
  destruct (_ <? _) eqn:E; [reflexivity|]. apply Z.ltb_ge in E. lia.
Qed.

Lemma stoi_not_help s n : stoi s = Value n -> is_help s = false.
Proof.
  intros H. unfold is_help.
  destruct (String.eqb_spec s "--help") as [->|_]; [discriminate|].
  destruct (String.eqb_spec s "-h") as [->|_]; [discriminate|reflexivity].
Qed.

Lemma stoull_not_help s n : stoull s = Value n -> is_help s = false.
Proof.
  intros H. unfold is_help.
  destruct (String.eqb_spec s "--help") as [->|_]; [discriminate|].
  destruct (String.eqb_spec s "-h") as [->|_]; [discriminate|reflexivity].
Qed.

End CliFacts.

(** ** The listing and the command line *)

Module ListingFacts.
Import SourceLister.

Lemma EnumerateDisplays_ids monitors : forall ctx,
  0 <= index ctx ->
  index ctx + Z.of_nat (length monitors) < 2 ^ 31 ->
  Z.of_nat (length (displays ctx)) = index ctx ->
  (forall k d, displays ctx !! k = Some d -> id d = to_string (Z.of_nat k)) ->
  forall k d,
    displays (fold_left (fun ctx mi => MonitorEnumProc mi ctx) monitors ctx) !! k
    = Some d ->
    id d = to_string (Z.of_nat k).
Proof.
  induction monitors as [|mi monitors IH]; intros ctx H0 Hlt Hlen Hids k d;
    simpl; [apply Hids|].
  simpl in Hlt. apply IH; clear IH.
  - destruct mi; simpl; [|exact H0]. unfold Int.i32, Int.swrap, Int.wrap.
    rewrite Z.mod_small by lia. change (2 ^ (32 - 1)) with (2 ^ 31).
    destruct (_ <? _) eqn:E; [lia|apply Z.ltb_ge in E; lia].
  - destruct mi; simpl; [|lia]. unfold Int.i32, Int.swrap, Int.wrap.
    rewrite Z.mod_small by lia. change (2 ^ (32 - 1)) with (2 ^ 31).
    destruct (_ <? _) eqn:E; [lia|apply Z.ltb_ge in E; lia].
  - destruct mi; simpl; [|exact Hlen]. rewrite length_app. simpl.
    unfold Int.i32, Int.swrap, Int.wrap.
    rewrite Z.mod_small by lia. change (2 ^ (32 - 1)) with (2 ^ 31).
    destruct (_ <? _) eqn:E; [lia|apply Z.ltb_ge in E; lia].
  - destruct mi; simpl; [|exact Hids]. intros k' d' Hk'.
    apply lookup_app_Some in Hk' as [Hk'|[Hge Hk']]; [now apply Hids|].
    destruct (k' - length (displays ctx))%nat eqn:Ek; [|discriminate].
    injection Hk' as <-. simpl. f_equal. lia.
Qed.

(** X10: the identifiers of the listing are read back as the numbers they
    were printed from.  The display at position [k] of
    [EnumerateDisplays] has the id [to_string k] (a monitor whose
    [GetMonitorInfoW] fails takes no position), and [main], given
    [--display] and that id, calls [Capture] with the display index [k]
    and the defaults; given [--window] and the id [to_string hwnd] that
    [WindowEnumProc] prints for a window, it calls [Capture] with the
    handle [hwnd] of that window.  (Which monitor the display capturer
    opens for the index [k] is decided by [IDXGIAdapter::EnumOutputs]; that
    its order is the one of [EnumDisplayMonitors] is not part of the
    statement.) *)
Theorem listed_ids_round_trip (prog : string) :
  Cli.is_help prog = false ->
  (forall monitors (k : nat) d,
      Z.of_nat (length monitors) < 2 ^ 31 ->
      EnumerateDisplays monitors !! k = Some d ->
      id d = to_string (Z.of_nat k) /\
      Cli.main [prog; "--display"; id d]%string
      = Cli.RunCapture (Cli.with_displayIndex (Z.of_nat k) Cli.defaults)) /\
  (forall hwnd,
      0 <= hwnd < 2 ^ 64 ->
      Cli.main [prog; "--window"; to_string hwnd]%string
      = Cli.RunCapture (Cli.with_windowHandle hwnd Cli.defaults)).
Proof.
  intros Hprog. split.
  - intros monitors k d Hlen Hk.
    assert (Hid : id d = to_string (Z.of_nat k)).
    { apply (EnumerateDisplays_ids monitors {| displays := []; index := 0 |});
        simpl; try lia; [intros k' d' H; discriminate|exact Hk]. }
    split; [exact Hid|]. rewrite Hid.
    assert (Hk' : (k < length (EnumerateDisplays monitors))%nat)
      by (apply lookup_lt_is_Some; eauto).
    assert (Hle : (length (EnumerateDisplays monitors) <= length monitors)%nat).
    { unfold EnumerateDisplays.
      assert (G : forall ms ctx,
                (length (displays (fold_left (fun ctx mi => MonitorEnumProc mi ctx)
                                             ms ctx))
                 <= length (displays ctx) + length ms)%nat).
      { induction ms as [|mi ms IH]; intros ctx; simpl; [lia|].
        etransitivity; [apply IH|]. destruct mi; simpl; [|lia].
        rewrite length_app. simpl. lia. }
      apply (G monitors {| displays := []; index := 0 |}). }
    pose proof (CliFacts.stoi_to_string (Z.of_nat k) ltac:(lia)) as Hs.
    pose proof (CliFacts.stoi_not_help _ _ Hs) as Hh.
    unfold Cli.main. simpl. rewrite Hprog, Hh. simpl. now rewrite Hs.
  - intros hwnd Hh.
    pose proof (CliFacts.stoull_to_string hwnd Hh) as Hs.
    pose proof (CliFacts.stoull_not_help _ _ Hs) as Hn.
    unfold Cli.main. simpl. rewrite Hprog, Hn. simpl. now rewrite Hs.
Qed.

Lemma listed_ids_round_trip_witness :
  Cli.main ["SnackaCaptureWindows.exe"; "--display"; "1"]%string
  = Cli.RunCapture (Cli.with_displayIndex 1 Cli.defaults) /\
  Cli.main ["SnackaCaptureWindows.exe"; "--window"; to_string 1311768]%string
  = Cli.RunCapture (Cli.with_windowHandle 1311768 Cli.defaults).
Proof.
  split.
  - exact (proj2 (proj1 (listed_ids_round_trip "SnackaCaptureWindows.exe"
                           eq_refl)
                    two_monitors_one_silent 1%nat _ ltac:(simpl; lia)
                    eq_refl)).
  - apply (proj2 (listed_ids_round_trip "SnackaCaptureWindows.exe" eq_refl)).
    lia.
Defined.

End ListingFacts.

(** ** Capture *)

Module CaptureRunFacts.
Import Cli.

Lemma window_Initialize_true os width height fps c :
  Window.Initialize os width height fps Window.fresh = (true, c) ->
  Window.m_running c = false /\ Window.m_session c = true.
Proof.
  unfold Window.Initialize. intros H.
  repeat match type of H with
         | (if ?b then _ else _) = _ => destruct b; try discriminate
         end.
  destruct (Color.Initialize _ _ _ _) as [ok k].
  injection H as _ <-. split; reflexivity.
Qed.

(** X11: [Capture] starts a capturer only after its [Initialize] has
    returned true, so none of its calls of [Start] goes through a null
    handle; and its return value is 0 exactly when the video capturer it
    selects (the window capturer for a handle that is not null, the
    display capturer otherwise) initializes: a failure of the audio
    capturer to initialize or to start never changes it. *)
Theorem Capture_returns os o :
  Capture os o = Done (if video_initializes os o then 0 else 1).
Proof.
  unfold Capture.
  assert (Ha : exists audio, start_audio os o = Done audio).
  { unfold start_audio. destruct (captureAudio o); [|eauto].
    destruct (Audio.Initialize (audio_os os) Audio.fresh) as [[] a] eqn:Hi;
      simpl; [|eauto].
    destruct (AudioPathFacts.audio_Initialize_true _ _ _ Hi) as (Hr & _ & Hc).
    unfold Audio.Start. rewrite Hr. simpl. rewrite Hc.
    destruct (audio_start_ok os); simpl; eauto. }
  destruct Ha as [audio ->].
  assert (Hv : run_video os o = Done (video_initializes os o)).
  { unfold run_video, video_initializes.
    destruct (negb (windowHandle o =? 0)).
    - destruct (Window.Initialize _ _ _ _ _) as [[] w] eqn:Hi; simpl;
        [|reflexivity].
      destruct (window_Initialize_true _ _ _ _ _ Hi) as [Hr Hs].
      unfold Window.Start. rewrite Hr. simpl. now rewrite Hs.
    - destruct (Display.Initialize _ _ _ _ _) as [[] d] eqn:Hi; simpl;
        [|reflexivity].
      unfold Display.Start. now destruct (Display.m_running d). }
  rewrite Hv. reflexivity.
Qed.

(** *** The write loop of the callbacks *)

Lemma write_loop_prefix progress data steps : forall written out,
  Z.of_nat (length data) < 2 ^ 32 ->
  0 <= written <= Z.of_nat (length data) ->
  out = take (Z.to_nat written) data ->
  obeys progress (Z.of_nat (length data)) steps written ->
  (exists n, stream (write_loop data (Z.of_nat (length data)) steps written out)
             = take n data) /\
  (progress = true ->
   Z.of_nat (length data) - written <= Z.of_nat (length steps) ->
   write_loop data (Z.of_nat (length data)) steps written out = Completed data).
Proof.
  set (size := Z.of_nat (length data)).
  induction steps as [|st rest IH]; intros written out Hsize Hw Hout Hob.
  - simpl. destruct (written <? size) eqn:E; simpl.
    + split; [eauto|]. intros _ Hlen. apply Z.ltb_lt in E. simpl in Hlen. lia.
    + apply Z.ltb_ge in E. split; [eauto|]. intros _ _. f_equal.
      rewrite Hout. apply take_ge. subst size. lia.
  - simpl. destruct (written <? size) eqn:E; simpl.
    2:{ apply Z.ltb_ge in E. split; [eauto|]. intros _ _. f_equal.
        rewrite Hout. apply take_ge. subst size. lia. }
    apply Z.ltb_lt in E. simpl in Hob. destruct (Hob E) as [Hres Hnext].
    assert (Hcount : count size written = size - written).
    { unfold count, Int.u32, Int.u64.
      rewrite (wrap_small 64) by lia. apply wrap_small. lia. }
    rewrite Hcount in Hres.
    destruct (running st) eqn:Hrun; simpl.
    2:{ split; [eauto|]. intros ->. destruct Hres as [Hres _]. discriminate. }
    destruct (result st <? 0) eqn:Eneg; simpl.
    { apply Z.ltb_lt in Eneg. split; [eauto|]. intros ->. lia. }
    apply Z.ltb_ge in Eneg.
    assert (Hr : result st <= size - written) by (destruct progress; lia).
    assert (E64 : Int.u64 (written + result st) = written + result st)
      by (unfold Int.u64; rewrite wrap_small; lia).
    rewrite E64 in *.
    destruct (IH (written + result st)
                 (out ++ take (Z.to_nat (result st)) (drop (Z.to_nat written) data))
                 Hsize ltac:(lia)) as [IH1 IH2].
    + rewrite Hout, take_take_drop. f_equal. lia.
    + apply Hnext; [reflexivity|lia].
    + split; [exact IH1|]. intros -> Hlen. apply IH2; [reflexivity|].
      simpl in Hlen. lia.
Qed.

(** X12: the write loop of the frame and packet callbacks.  As long as
    [_write] keeps its contract (it returns -1 or a count of bytes written
    that is at most the count asked for), what the loop has put on the
    stream is at every moment a prefix of the frame, however the writes
    are split and however the loop ends (completion, write error, shutdown
    in the middle of a frame); and if every call writes at least one byte
    and [g_running] stays set, the loop ends after at most [size] calls
    with exactly the frame on the stream. *)
Theorem callback_writes_frame progress data steps :
  Z.of_nat (length data) < 2 ^ 32 ->
  obeys progress (Z.of_nat (length data)) steps 0 ->
  (exists n, stream (write_loop data (Z.of_nat (length data)) steps 0 [])
             = take n data) /\
  (progress = true ->
   (length data <= length steps)%nat ->
   write_loop data (Z.of_nat (length data)) steps 0 [] = Completed data).
Proof.
  intros Hsize Hob.
  destruct (write_loop_prefix progress data steps 0 [] Hsize ltac:(lia)
              eq_refl Hob) as [H1 H2].
  split; [exact H1|]. intros Hp Hlen. apply H2; [exact Hp|lia].
Qed.

Lemma callback_writes_frame_witness :
  write_loop [x10; x11; x12; x13] 4
    [ {| running := true; result := 1 |}; {| running := true; result := 2 |};
      {| running := true; result := 1 |}; {| running := true; result := 9 |} ]
    0 []
  = Completed [x10; x11; x12; x13].
Proof.
  apply (proj2 (callback_writes_frame true [x10; x11; x12; x13]
            [ {| running := true; result := 1 |}; {| running := true; result := 2 |};
              {| running := true; result := 1 |}; {| running := true; result := 9 |} ]
            ltac:(simpl; lia)
            ltac:(vm_compute; repeat split; intros; try discriminate))).
  - reflexivity.
  - simpl. lia.
Defined.

End CaptureRunFacts.

(** ** The source listing *)

Module SourceListerFacts.
Import SourceLister.

Lemma json_unescape_escape c rest :
  json_unescape (escape c ++ rest)
  = match json_unescape rest with
    | Some t => Some (String c t)
    | None => None
    end.
Proof.
  destruct c as [[] [] [] [] [] [] [] []]; reflexivity.
Qed.

Lemma printable_app s t :
  printable (s ++ t) = printable s && printable t.
Proof.
  induction s as [|c s IH]; simpl; [reflexivity|].
  now rewrite IH, andb_assoc.
Qed.

Lemma printable_escape c : printable (escape c) = true.
Proof.
  destruct c as [[] [] [] [] [] [] [] []]; reflexivity.
Qed.

(** X13: [EscapeJson] writes the body of a JSON string that reads back
    as the input, for every input (all 256 values of a [char], also 0 and
    the bytes of UTF-8 sequences), and its output holds no control
    character. *)
Theorem EscapeJson_round_trip (s : string) :
  json_unescape (EscapeJson s) = Some s /\
  printable (EscapeJson s) = true.
Proof.
  induction s as [|c s [IH1 IH2]]; simpl; [split; reflexivity|].
  rewrite json_unescape_escape, IH1, printable_app, printable_escape, IH2.
  split; reflexivity.
Qed.

Lemma find_last_None p path :
  Forall (fun c => p c = false) path -> find_last p path = None.
Proof.
  induction 1 as [|c path Hc _ IH]; simpl; [reflexivity|].
  now rewrite IH, Hc.
Qed.

Lemma find_last_lt p path k : find_last p path = Some k -> (k < length path)%nat.
Proof.
  revert k. induction path as [|c path IH]; intros k; simpl; [discriminate|].
  destruct (find_last p path) as [k'|].
  - intros H. injection H as <-. specialize (IH k' eq_refl). lia.
  - destruct (p c); [|discriminate]. intros H. injection H as <-. lia.
Qed.

Lemma find_last_app_clean p l1 l2 :
  Forall (fun c => p c = false) l2 ->
  find_last p (l1 ++ l2) = find_last p l1.
Proof.
  intros H2. induction l1 as [|c l1 IH]; simpl.
  - now apply find_last_None.
  - now rewrite IH.
Qed.

Lemma find_last_app_hit p l1 c l2 :
  p c = true ->
  Forall (fun c => p c = false) l2 ->
  find_last p (l1 ++ c :: l2) = Some (length l1).
Proof.
  intros Hc H2. induction l1 as [|c1 l1 IH]; simpl.
  - now rewrite (find_last_None p l2 H2), Hc.
  - now rewrite IH.
Qed.

(** X14: the application name of a window, as [WindowEnumProc] cuts it
    out of the path of the executable.  For [dir \ stem . ext] it is
    [stem], the file name up to its last dot; for a file name without a
    dot it is the whole file name, also when a directory of the path has a
    dot in its name; and a path without a separator gives no name. *)
Theorem fileName_of_path (dir : list Z) (sep : Z) :
  is_separator sep = true ->
  (forall stem ext,
      Forall (fun c => is_separator c = false) (stem ++ 46 :: ext) ->
      Forall (fun c => is_dot c = false) ext ->
      fileName (dir ++ sep :: stem ++ 46 :: ext) = Some stem) /\
  (forall name,
      Forall (fun c => is_separator c = false) name ->
      Forall (fun c => is_dot c = false) name ->
      fileName (dir ++ sep :: name) = Some name) /\
  (forall path,
      Forall (fun c => is_separator c = false) path ->
      fileName path = None).
Proof.
  intros Hsep.
  assert (Hnd : is_dot sep = false).
  { unfold is_separator, is_dot in *.
    destruct (sep =? 46) eqn:E; [|reflexivity].
    apply Z.eqb_eq in E. subst sep. discriminate. }
  split; [|split].
  - intros stem ext Hns Hnd'. unfold fileName.
    rewrite (find_last_app_hit is_separator dir sep _ Hsep Hns).
    replace (dir ++ sep :: stem ++ 46 :: ext)
      with ((dir ++ sep :: stem) ++ 46 :: ext)
      by (rewrite <- app_assoc; reflexivity).
    rewrite (find_last_app_hit is_dot (dir ++ sep :: stem) 46 ext eq_refl Hnd').
    rewrite length_app. simpl.
    destruct (_ <? _)%nat eqn:E; [|apply Nat.ltb_ge in E; lia].
    f_equal. unfold substr.
    assert (Ep : (dir ++ sep :: stem) ++ 46 :: ext
                 = (dir ++ [sep]) ++ stem ++ 46 :: ext)
      by (rewrite <- !app_assoc; reflexivity).
    rewrite Ep.
    replace (length dir + 1)%nat with (length (dir ++ [sep]))
      by (rewrite length_app; simpl; lia).
    rewrite drop_app_length.
    replace (length dir + S (length stem) - length dir - 1)%nat
      with (length stem) by lia.
    apply take_app_length.
  - intros name Hns Hnd'. unfold fileName.
    rewrite (find_last_app_hit is_separator dir sep _ Hsep Hns).
    assert (Hdrop : substr_from (dir ++ sep :: name) (length dir + 1) = name).
    { unfold substr_from.
      replace (dir ++ sep :: name) with ((dir ++ [sep]) ++ name)
        by (rewrite <- app_assoc; reflexivity).
      replace (length dir + 1)%nat with (length (dir ++ [sep]))
        by (rewrite length_app; simpl; lia).
      apply drop_app_length. }
    rewrite Hdrop.
    replace (dir ++ sep :: name) with (dir ++ (sep :: name)) by reflexivity.
    rewrite (find_last_app_clean is_dot dir (sep :: name))
      by (constructor; assumption).
    destruct (find_last is_dot dir) as [lastDot|] eqn:Ed; [|reflexivity].
    apply find_last_lt in Ed.
    destruct (_ <? _)%nat eqn:E; [apply Nat.ltb_lt in E; lia|reflexivity].
  - intros path Hns. unfold fileName.
    now rewrite (find_last_None is_separator path Hns).
Qed.

Lemma fileName_of_path_witness :
  (* C:\apps.d\tool.v2.exe *)
  fileName ([67; 58; 92; 97; 112; 112; 115; 46; 100] ++ 92 ::
            [116; 111; 111; 108; 46; 118; 50] ++ 46 :: [101; 120; 101])
  = Some [116; 111; 111; 108; 46; 118; 50].
Proof.
  apply (proj1 (fileName_of_path [67; 58; 92; 97; 112; 112; 115; 46; 100] 92
                  eq_refl)).
  - repeat constructor.
  - repeat constructor.
Defined.

End SourceListerFacts.

(** ** The VA-API decoder *)

Module VaapiFacts.
Import Vaapi.

Lemma create_decoder_context_true os d events d' :
  create_decoder_context os d = (events, true, d') ->
  num_surfaces d' = NUM_SURFACES /\ va_surfaces d' = true.
Proof.
  unfold create_decoder_context. intros H.
  repeat match type of H with
         | (if ?b then _ else _) = _ => destruct b; try discriminate
         end.
  injection H as _ <-. split; reflexivity.
Qed.

Lemma vaapi_initialize_true os w h sps_data pps_data d events d' :
  vaapi_decoder_initialize os w h sps_data pps_data d = (events, true, d') ->
  initialized d' = true /\ num_surfaces d' = NUM_SURFACES /\
  current_surface d' = 0 /\ va_surfaces d' = true.
Proof.
  unfold vaapi_decoder_initialize.
  destruct (initialized d); [discriminate|].
  destruct (_ || _); [discriminate|].
  destruct (init_va_display os _) as [[e3 []] d3]; simpl; [|discriminate].
  destruct (create_decoder_context os d3) as [[e4 []] d4] eqn:E4; simpl;
    [|discriminate].
  destruct (create_decoder_context_true _ _ _ _ E4) as [Hn Hs].
  destruct (renderer_create_ok os); simpl; [|discriminate].
  destruct (renderer_init_ok os); simpl; [|discriminate].
  intros H. injection H as _ <-. simpl. repeat split; assumption.
Qed.

Lemma vaapi_decode_step os d calls ok d' :
  initialized d = true ->
  num_surfaces d = NUM_SURFACES ->
  0 <= current_surface d < NUM_SURFACES ->
  vaapi_decoder_decode_and_render os d = (calls, ok, d') ->
  initialized d' = true /\ num_surfaces d' = NUM_SURFACES /\
  0 <= current_surface d' < NUM_SURFACES /\
  current_surface d'
  = (current_surface d + (if ok then 1 else 0)) mod NUM_SURFACES /\
  Forall (fun c => forall s, surface_of c = Some s -> s = current_surface d) calls.
Proof.
  unfold NUM_SURFACES. intros Hi Hn Hc.
  unfold vaapi_decoder_decode_and_render. rewrite Hi. simpl.
  assert (Hfail : forall calls0,
            Forall (fun c => forall s, surface_of c = Some s ->
                                       s = current_surface d) calls0 ->
            (calls0, false, d) = (calls, ok, d') ->
            initialized d' = true /\ num_surfaces d' = 17 /\
            0 <= current_surface d' < 17 /\
            current_surface d'
            = (current_surface d + (if ok then 1 else 0)) mod 17 /\
            Forall (fun c => forall s, surface_of c = Some s ->
                                       s = current_surface d) calls).
  { intros calls0 Hcalls H. injection H as <- <- <-.
    rewrite Z.add_0_r, Z.mod_small by lia. repeat split; assumption || lia. }
  assert (Hsurf : forall c, c ∈ [BeginPicture (current_surface d); CreateBuffer;
                                 RenderPicture; EndPicture; DestroyBuffer;
                                 SyncSurface (current_surface d);
                                 RenderSurface (current_surface d)] ->
                            forall s, surface_of c = Some s -> s = current_surface d).
  { intros c Hin s Hs. rewrite !elem_of_cons, elem_of_nil in Hin.
    repeat (destruct Hin as [->|Hin]; [simpl in Hs; congruence|]).
    destruct Hin. }
  destruct (begin_ok os); simpl; [|apply Hfail; constructor].
  destruct (create_buffer_ok os); simpl;
    [|apply Hfail; apply Forall_forall; intros c Hin; apply Hsurf;
     rewrite ?elem_of_cons, ?elem_of_nil in *; tauto].
  destruct (render_ok os); simpl;
    [|apply Hfail; apply Forall_forall; intros c Hin; apply Hsurf;
     rewrite ?elem_of_cons, ?elem_of_nil in *; tauto].
  destruct (end_ok os); simpl;
    [|apply Hfail; apply Forall_forall; intros c Hin; apply Hsurf;
     rewrite ?elem_of_cons, ?elem_of_nil in *; tauto].
  destruct (sync_ok os); simpl;
    [|apply Hfail; apply Forall_forall; intros c Hin; apply Hsurf;
     rewrite ?elem_of_cons, ?elem_of_nil in *; tauto].
  intros H. injection H as <- <- <-. simpl. rewrite Hn.
  assert (E : Z.rem (Int.i32 (current_surface d + 1)) 17
              = (current_surface d + 1) mod 17).
  { unfold Int.i32, Int.swrap, Int.wrap.
    rewrite (Z.mod_small (current_surface d + 1)) by lia.
    change (2 ^ (32 - 1)) with 2147483648.
    destruct (_ <? _) eqn:E; [|apply Z.ltb_ge in E; lia].
    apply Z.rem_mod_nonneg; lia. }
  rewrite E. split; [exact Hi|]. split; [reflexivity|].
  split; [apply Z.mod_pos_bound; lia|]. split; [reflexivity|].
  apply Forall_forall. intros c Hin. apply Hsurf.
  destruct (renderer d); simpl in Hin;
    rewrite ?elem_of_cons, ?elem_of_nil in *; tauto.
Qed.

Lemma successes_cons calls ok results :
  successes ((calls, ok) :: results)
  = (if ok then 1 else 0) + successes results.
Proof. reflexivity. Qed.

Lemma decode_all_surfaces oss : forall d results d',
  initialized d = true ->
  num_surfaces d = NUM_SURFACES ->
  0 <= current_surface d < NUM_SURFACES ->
  decode_all oss d = (results, d') ->
  current_surface d' = (current_surface d + successes results) mod NUM_SURFACES /\
  forall (i : nat) calls ok,
    results !! i = Some (calls, ok) ->
    Forall (fun c => forall s, surface_of c = Some s ->
                     s = (current_surface d + successes (take i results))
                         mod NUM_SURFACES) calls.
Proof.
  induction oss as [|os oss IH]; intros d results d' Hi Hn Hc; simpl.
  - intros H. injection H as <- <-. simpl.
    rewrite Z.add_0_r, Z.mod_small by exact Hc. split; [reflexivity|].
    intros i calls ok Hl. destruct i; discriminate.
  - destruct (vaapi_decoder_decode_and_render os d) as [[calls ok] d1] eqn:E1.
    destruct (decode_all oss d1) as [results1 d2] eqn:E2.
    intros H. injection H as <- <-.
    destruct (vaapi_decode_step os d calls ok d1 Hi Hn Hc E1)
      as (Hi1 & Hn1 & Hc1 & Hcur & Hcalls).
    destruct (IH d1 results1 d2 Hi1 Hn1 Hc1 E2) as [IH1 IH2].
    unfold NUM_SURFACES in *. split.
    + rewrite IH1, Hcur, successes_cons, Z.add_mod_idemp_l by lia.
      f_equal. lia.
    + intros [|i] calls' ok' Hl; simpl in Hl.
      * injection Hl as <- <-. simpl.
        rewrite Z.add_0_r, Z.mod_small by exact Hc. exact Hcalls.
      * specialize (IH2 i calls' ok' Hl). simpl.
        eapply Forall_impl; [exact IH2|].
        intros c Hs s Hc'. rewrite (Hs s Hc'), Hcur.
        rewrite Z.add_mod_idemp_l by lia. f_equal. lia.
Qed.

(** X15: the surface pool of the VA-API decoder.  After a successful
    [vaapi_decoder_initialize], however many calls of
    [vaapi_decoder_decode_and_render] succeed or fail, the surface a call
    decodes into, syncs and renders is the one whose index is the number
    of calls that succeeded before it, modulo 17: the index stays inside
    the pool of 17 surfaces, only a call that returns true advances it,
    and a surface is reused only after 16 other frames. *)
Theorem surface_round_robin os w h sps_data pps_data d0 taken d oss results d' :
  vaapi_decoder_initialize os w h sps_data pps_data d0 = (taken, true, d) ->
  decode_all oss d = (results, d') ->
  current_surface d' = successes results mod 17 /\
  forall (i : nat) calls ok,
    results !! i = Some (calls, ok) ->
    Forall (fun c => forall s, surface_of c = Some s ->
                     s = successes (take i results) mod 17 /\ 0 <= s < 17) calls.
Proof.
  intros Hinit Hrun.
  destruct (vaapi_initialize_true _ _ _ _ _ _ _ _ Hinit) as (Hi & Hn & Hc & _).
  destruct (decode_all_surfaces oss d results d' Hi Hn
              ltac:(rewrite Hc; unfold NUM_SURFACES; lia) Hrun) as [H1 H2].
  rewrite Hc in *. unfold NUM_SURFACES in *. simpl in *.
  split; [exact H1|]. intros i calls ok Hl.
  eapply Forall_impl; [exact (H2 i calls ok Hl)|].
  intros c Hs s Hc'. rewrite (Hs s Hc'). split; [reflexivity|].
  apply Z.mod_pos_bound. lia.
Qed.

Lemma surface_round_robin_witness :
  current_surface
    (snd (decode_all (replicate 18 decode_ok ++ [sync_fails; decode_ok])
            (snd (vaapi_decoder_initialize working_init 640 480 [x67] [x68]
                    vaapi_decoder_create))))
  = successes
      (fst (decode_all (replicate 18 decode_ok ++ [sync_fails; decode_ok])
              (snd (vaapi_decoder_initialize working_init 640 480 [x67] [x68]
                      vaapi_decoder_create)))) mod 17.
Proof.
  refine (proj1 (surface_round_robin working_init 640 480 [x67] [x68]
                   vaapi_decoder_create _ _ _ _ _ eq_refl _)).
  apply surjective_pairing.
Defined.

(** X16: [vaapi_decoder_decode_and_render] leaves nothing open.  On every
    path, for every answer of the driver, each picture it begins is ended
    and each buffer it creates is destroyed before it returns; a call that
    returns false leaves the decoder as it was, and a decoder that is not
    initialized makes no call at all. *)
Theorem decode_leaves_nothing_open os d :
  let '(calls, ok, d') := vaapi_decoder_decode_and_render os d in
  open_after calls 0 0 = (0, 0) /\
  (ok = false -> d' = d) /\
  (initialized d = false -> calls = [] /\ ok = false).
Proof.
  unfold vaapi_decoder_decode_and_render.
  destruct (initialized d); simpl; [|repeat split].
  destruct (begin_ok os), (create_buffer_ok os), (render_ok os), (end_ok os),
    (sync_ok os); simpl; try (repeat split; discriminate).
  destruct (renderer d); simpl; repeat split; discriminate.
Qed.

Lemma va_held_app r e1 e2 : held r (e1 ++ e2) = held r e1 + held r e2.
Proof.
  induction e1 as [|[r'|r'] e1 IH]; simpl; rewrite ?IH; lia.
Qed.

(** The cases of [held] on a list of events that is written out. *)
Ltac count_held :=
  simpl;
  repeat match goal with
         | |- context [negb (?x =? ?y)] =>
             destruct (Z.eqb_spec x y); simpl
         end;
  repeat match goal with
         | |- context [bool_decide ?P] =>
             destruct (bool_decide_reflect P); [try subst|]; simpl
         end;
  first [reflexivity | congruence | lia].

(** The paths of [vaapi_decoder_initialize], one for each call that can
    fail and one for success; [Efd] relates the two tests of the DRM
    descriptor, [fin] settles a path. *)
Ltac init_paths os Efd fin :=
  destruct (sps_malloc_ok os), (pps_malloc_ok os); simpl; try fin;
  (destruct (x_open_ok os); simpl; [|fin]);
  destruct (drm_open os <? 0); simpl in Efd;
  (destruct (va_x11_ok os); simpl; [|try fin]);
  try (destruct (va_drm_ok os); simpl; [|fin]);
  (destruct (va_initialize_ok os); simpl; [|fin]);
  (destruct (attributes_ok os); simpl; [|fin]);
  (destruct (yuv420_ok os); simpl; [|fin]);
  (destruct (create_config_ok os); simpl; [|fin]);
  (destruct (surfaces_malloc_ok os); simpl; [|fin]);
  (destruct (create_surfaces_ok os); simpl; [|fin]);
  (destruct (create_context_ok os); simpl; [|fin]);
  (destruct (renderer_create_ok os); simpl; [|fin]);
  destruct (renderer_init_ok os); simpl; fin.

Lemma drm_tests fd : (0 <=? fd) = negb (fd <? 0).
Proof. apply Z.leb_antisym. Qed.

(** The three parts of the statement on what is given back, once the
    answers of the system are fixed. *)
Ltac balanced Hmem Efd :=
  rewrite ?Efd; simpl;
  (split; [apply Hmem; count_held
          |split; [count_held
                  |try discriminate;
                   let Hcfg := fresh "Hcfg" in let Hctx := fresh "Hctx" in
                   intros _ Hcfg Hctx r; destruct r; count_held]]).

(** X22: [vaapi_decoder_destroy] gives back what a first
    [vaapi_decoder_initialize] took, at whichever step it failed: the
    copies of SPS and PPS, the X11 connection, the DRM descriptor, the
    array of surface ids, the surfaces and the renderer are each given
    back exactly once if they were taken and not at all otherwise.  The
    exception is a VA display on which [vaInitialize] failed:
    [vaTerminate] is not called for it.  After an initialization that
    succeeded the config and the context are given back as well, by the
    ids the driver stored. *)
Theorem vaapi_destroy_gives_back os w h sps_data pps_data :
  let '(taken, ok, d) :=
    vaapi_decoder_initialize os w h sps_data pps_data vaapi_decoder_create in
  let events := taken ++ vaapi_decoder_destroy d in
  (forall r, r ∈ [SpsCopy; PpsCopy; XDisplay; DrmFd; SurfaceArray; Surfaces;
                  Renderer] -> held r events = 0) /\
  held VaDisplay events
  = (if va_display d && negb (va_initialized d) then 1 else 0) /\
  (ok = true ->
   va_config d <> VA_INVALID_ID -> va_context d <> VA_INVALID_ID ->
   forall r, held r events = 0).
Proof.
  unfold vaapi_decoder_initialize, init_va_display, create_decoder_context,
    vaapi_decoder_destroy.
  simpl.
  assert (Hmem : forall (P : Resource -> Prop),
            P SpsCopy -> P PpsCopy -> P XDisplay -> P DrmFd ->
            P SurfaceArray -> P Surfaces -> P Renderer ->
            forall r, r ∈ [SpsCopy; PpsCopy; XDisplay; DrmFd; SurfaceArray;
                           Surfaces; Renderer] -> P r).
  { intros P H1 H2 H3 H4 H5 H6 H7 r Hr.
    rewrite !elem_of_cons, elem_of_nil in Hr.
    repeat (destruct Hr as [->|Hr]; [assumption|]). destruct Hr. }
  pose proof (drm_tests (drm_open os)) as Efd.
  init_paths os Efd ltac:(balanced Hmem Efd).
Qed.

(** The list of events holds no [Acquire] of the kind of [Hno]: it holds
    one. *)
Ltac absurd_absent Hno :=
  solve [exfalso; eapply Hno;
         repeat first [apply list_elem_of_here | apply list_elem_of_further]].

Ltac never_created_cases :=
  (split; [|split]);
  [ let Hno := fresh "Hno" in
    intros Hno;
    first [ absurd_absent Hno
          | split;
            [ first [left; reflexivity
                    | destruct (context_stored _);
                      [right; reflexivity | left; reflexivity]]
            | intros ?; count_held ] ]
  | let Hno := fresh "Hno" in
    intros Hno;
    first [ absurd_absent Hno
          | split;
            [ first [left; reflexivity
                    | destruct (config_stored _);
                      [right; reflexivity | left; reflexivity]]
            | intros ?; count_held ] ]
  | first [discriminate | intros _; split; count_held] ].

Ltac never_created Efd :=
  let H := fresh "H" in let Hva := fresh "Hva" in
  intros H Hva; injection H as <- <- <-; simpl in Hva |- *;
  rewrite ?Efd; simpl;
  first [discriminate Hva | never_created_cases].

(** X23: [vaapi_decoder_destroy] after an initialization that failed.
    Once [vaInitialize] has succeeded, [vaapi_decoder_destroy] calls
    [vaDestroyContext] and [vaDestroyConfig] with whatever the two id
    fields hold, unless that is [VA_INVALID_ID]; when
    [vaapi_decoder_initialize] failed before it created a context (a
    config), the field holds the 0 of [calloc] or what the failing call
    stored, so that an id which was never created is destroyed.  When
    [vaGetConfigAttributes] fails, both calls are made with the id 0. *)
Theorem vaapi_destroy_ids_never_created os w h sps_data pps_data taken ok d :
  vaapi_decoder_initialize os w h sps_data pps_data vaapi_decoder_create
  = (taken, ok, d) ->
  va_initialized d = true ->
  ((forall id, Acquire (Context id) ∉ taken) ->
   (va_context d = 0 \/ context_stored os = Some (va_context d)) /\
   (va_context d <> VA_INVALID_ID ->
    held (Context (va_context d)) (taken ++ vaapi_decoder_destroy d) = -1)) /\
  ((forall id, Acquire (Config id) ∉ taken) ->
   (va_config d = 0 \/ config_stored os = Some (va_config d)) /\
   (va_config d <> VA_INVALID_ID ->
    held (Config (va_config d)) (taken ++ vaapi_decoder_destroy d) = -1)) /\
  (attributes_ok os = false ->
   held (Context 0) (taken ++ vaapi_decoder_destroy d) = -1 /\
   held (Config 0) (taken ++ vaapi_decoder_destroy d) = -1).
Proof.
  unfold vaapi_decoder_initialize, init_va_display, create_decoder_context,
    vaapi_decoder_destroy, VA_INVALID_ID.
  simpl.
  pose proof (drm_tests (drm_open os)) as Efd.
  init_paths os Efd ltac:(never_created Efd).
Qed.

Lemma vaapi_destroy_ids_never_created_witness :
  held (Context 0)
    (fst (fst (vaapi_decoder_initialize no_attributes 640 480 [x67] [x68]
                 vaapi_decoder_create))
     ++ vaapi_decoder_destroy
          (snd (vaapi_decoder_initialize no_attributes 640 480 [x67] [x68]
                  vaapi_decoder_create))) = -1 /\
  held (Config 0)
    (fst (fst (vaapi_decoder_initialize no_attributes 640 480 [x67] [x68]
                 vaapi_decoder_create))
     ++ vaapi_decoder_destroy
          (snd (vaapi_decoder_initialize no_attributes 640 480 [x67] [x68]
                  vaapi_decoder_create))) = -1.
Proof.
  refine (proj2 (proj2 (vaapi_destroy_ids_never_created no_attributes 640 480
                          [x67] [x68] _ _ _ eq_refl eq_refl)) eq_refl).
Defined.

(** What [vaapi_decoder_destroy] does with the copies of SPS and PPS and
    with the X11 connection. *)
Lemma vaapi_destroy_copies d :
  held SpsCopy (vaapi_decoder_destroy d)
  = - (match sps d with Some _ => 1 | None => 0 end) /\
  held PpsCopy (vaapi_decoder_destroy d)
  = - (match pps d with Some _ => 1 | None => 0 end) /\
  held XDisplay (vaapi_decoder_destroy d) = - (if x_display d then 1 else 0).
Proof.
  unfold vaapi_decoder_destroy.
  destruct d as [disp cfg ctx surf n cur w h s p x rend init va fd]; simpl.
  destruct rend, va, surf, x, (0 <=? fd), s, p,
    (negb (ctx =? VA_INVALID_ID)), (negb (cfg =? VA_INVALID_ID));
    repeat split; reflexivity.
Qed.

(** What a call of [vaapi_decoder_initialize] that is not rejected does
    with them: it replaces the two copies, and the X11 connection if it
    gets as far as [init_va_display]. *)
Lemma vaapi_initialize_copies os w h sps_data pps_data d taken ok d' :
  initialized d = false ->
  vaapi_decoder_initialize os w h sps_data pps_data d = (taken, ok, d') ->
  held SpsCopy taken = (if sps_malloc_ok os then 1 else 0) /\
  held PpsCopy taken = (if pps_malloc_ok os then 1 else 0) /\
  match sps d' with Some _ => 1 | None => 0 end
  = (if sps_malloc_ok os then 1 else 0) /\
  match pps d' with Some _ => 1 | None => 0 end
  = (if pps_malloc_ok os then 1 else 0) /\
  (if sps_malloc_ok os && pps_malloc_ok os
   then held XDisplay taken = (if x_display d' then 1 else 0)
   else held XDisplay taken = 0 /\ x_display d' = x_display d) /\
  (ok = false -> initialized d' = false).
Proof.
  intros Hi. unfold vaapi_decoder_initialize, init_va_display,
    create_decoder_context.
  destruct d as [disp cfg ctx surf n cur w0 h0 s p x rend init va fd].
  simpl in Hi. subst init. simpl.
  pose proof (drm_tests (drm_open os)) as Efd.
  init_paths os Efd
    ltac:(let H := fresh "H" in
          intros H; injection H as <- <- <-; simpl;
          repeat split; first [reflexivity | discriminate]).
Qed.

(** X24: a failed [vaapi_decoder_initialize] cannot be tried again without
    a leak.  The decoder stays uninitialized, so a second call is not
    rejected; it overwrites the pointers of the first, and whatever the
    second call and [vaapi_decoder_destroy] then do, the copies of SPS
    and PPS that the first call made are never freed, and neither is its
    X11 connection when the second call opens its own. *)
Theorem vaapi_retry_leaks os1 w1 h1 sps1 pps1 taken1 d1
    os2 w2 h2 sps2 pps2 taken2 ok2 d2 :
  vaapi_decoder_initialize os1 w1 h1 sps1 pps1 vaapi_decoder_create
  = (taken1, false, d1) ->
  vaapi_decoder_initialize os2 w2 h2 sps2 pps2 d1 = (taken2, ok2, d2) ->
  let events := taken1 ++ taken2 ++ vaapi_decoder_destroy d2 in
  initialized d1 = false /\
  held SpsCopy events = (if sps_malloc_ok os1 then 1 else 0) /\
  held PpsCopy events = (if pps_malloc_ok os1 then 1 else 0) /\
  held XDisplay events
  = (if x_display d1 && sps_malloc_ok os2 && pps_malloc_ok os2
     then 1 else 0).
Proof.
  intros H1 H2 events. subst events.
  destruct (vaapi_initialize_copies os1 w1 h1 sps1 pps1 vaapi_decoder_create
              taken1 false d1 eq_refl H1)
    as (S1 & P1 & S1' & P1' & X1 & I1).
  specialize (I1 eq_refl).
  destruct (vaapi_initialize_copies _ _ _ _ _ _ _ _ _ I1 H2)
    as (S2 & P2 & S2' & P2' & X2 & _).
  destruct (vaapi_destroy_copies d2) as (DS & DP & DX).
  rewrite !va_held_app, S1, S2, DS, S2', P1, P2, DP, P2', DX.
  split; [exact I1|]. split; [lia|]. split; [lia|].
  assert (X1' : held XDisplay taken1 = (if x_display d1 then 1 else 0)).
  { destruct (sps_malloc_ok os1 && pps_malloc_ok os1); [exact X1|].
    destruct X1 as [-> ->]. reflexivity. }
  rewrite X1'.
  destruct (sps_malloc_ok os2 && pps_malloc_ok os2) eqn:E2.
  - rewrite X2. apply andb_true_iff in E2 as [-> ->].
    destruct (x_display d1), (x_display d2); reflexivity.
  - destruct X2 as [-> ->].
    destruct (x_display d1); simpl; [|reflexivity].
    destruct (sps_malloc_ok os2), (pps_malloc_ok os2);
      try discriminate; reflexivity.
Qed.

Lemma vaapi_retry_leaks_witness :
  held SpsCopy
    (fst (fst (vaapi_decoder_initialize no_attributes 640 480 [x67] [x68]
                 vaapi_decoder_create))
     ++ fst (fst (vaapi_decoder_initialize working_init 640 480 [x67] [x68]
                    (snd (vaapi_decoder_initialize no_attributes 640 480
                            [x67] [x68] vaapi_decoder_create))))
     ++ vaapi_decoder_destroy
          (snd (vaapi_decoder_initialize working_init 640 480 [x67] [x68]
                  (snd (vaapi_decoder_initialize no_attributes 640 480
                          [x67] [x68] vaapi_decoder_create))))) = 1.
Proof.
  refine (proj1 (proj2 (vaapi_retry_leaks no_attributes 640 480 [x67] [x68]
                          _ _ working_init 640 480 [x67] [x68] _ _ _ _ _))).
  - vm_compute. reflexivity.
  - vm_compute. reflexivity.
Defined.

(** X25: [vaapi_decoder_is_available] closes what it opens, on each of its
    paths: the X11 connection, the DRM descriptor and the array of
    profiles are given back before it returns, and so is the VA display,
    but for one path: when [vaInitialize] fails on the display that
    [vaGetDisplay] returned, [vaTerminate] is not called (on the DRM
    backend it is).  The answer is the same on both backends: true
    exactly when a VA display is found and initialized, the array is
    allocated, the query succeeds and reports one of the three H.264
    profiles. *)
Theorem vaapi_is_available_closes os :
  let '(events, available) := vaapi_decoder_is_available os in
  (forall r, r <> VaDisplay -> held r events = 0) /\
  held VaDisplay events
  = (if av_x_open_ok os && av_va_x11_ok os && negb (av_va_initialize_ok os)
     then 1 else 0) /\
  available
  = av_x_open_ok os &&
    (av_va_x11_ok os || (0 <=? av_drm_open os) && av_va_drm_ok os) &&
    av_va_initialize_ok os && av_profiles_malloc_ok os && has_h264 os.
Proof.
  unfold vaapi_decoder_is_available.
  rewrite (drm_tests (av_drm_open os)).
  destruct (av_x_open_ok os), (av_va_x11_ok os), (av_drm_open os <? 0),
    (av_va_drm_ok os), (av_va_initialize_ok os), (av_profiles_malloc_ok os);
    simpl;
    (split; [intros r Hr; destruct r; count_held
            |split; reflexivity]).
Qed.

End VaapiFacts.

(** ** The Media Foundation decoder *)

Module MediaFoundationFacts.
Import MediaFoundation.

Lemma held_app r e1 e2 : held r (e1 ++ e2) = held r e1 + held r e2.
Proof.
  induction e1 as [|[r'|r'|] e1 IH]; simpl; rewrite ?IH; lia.
Qed.

(** The loop over the output types gives back every type it is handed. *)
Lemma offered_held types r : held r (fst (offered types)) = 0.
Proof.
  induction types as [|t types IH]; simpl; [reflexivity|].
  destruct (is_nv12 t && accepted t); simpl; [now destruct r|].
  destruct (offered types) as [events ok]. simpl in *.
  rewrite IH. now destruct r.
Qed.

Lemma offered_true types :
  snd (offered types) = true <->
  Exists (fun t => is_nv12 t = true /\ accepted t = true) types.
Proof.
  induction types as [|t types IH]; simpl.
  - split; [discriminate|]. intros H. inversion H.
  - destruct (is_nv12 t && accepted t) eqn:E; simpl.
    + split; [|reflexivity]. intros _. constructor.
      now apply andb_true_iff in E.
    + destruct (offered types) as [events ok]. simpl in *.
      rewrite IH. split; [intros H; now apply Exists_cons_tl|].
      intros H. inversion H as [? ? [H1 H2]|]; subst; [|assumption].
      rewrite H1, H2 in E. discriminate.
Qed.

Lemma ConfigureDecoder_held os r : held r (fst (ConfigureDecoder os)) = 0.
Proof.
  unfold ConfigureDecoder.
  destruct (input_type_ok os); simpl; [|reflexivity].
  destruct (set_input_ok os); simpl; [|now destruct r].
  pose proof (offered_held (available os) r) as H.
  destruct (offered (available os)) as [events ok]. simpl in H.
  destruct ok; [|destruct (manual_type_ok os)]; simpl;
    rewrite ?held_app, H; now destruct r.
Qed.

(** X29: the media types of [ConfigureDecoder].  Every media type that it
    creates or that the transform hands out is released exactly once,
    whatever the transform answers and however many types it offers.  It
    returns true exactly when the input type is created and accepted and
    either one of the offered types is NV12 and accepted, or the NV12
    type made by hand is created and accepted. *)
Theorem ConfigureDecoder_media_types os :
  (forall r, held r (fst (ConfigureDecoder os)) = 0) /\
  (snd (ConfigureDecoder os) = true <->
   input_type_ok os = true /\ set_input_ok os = true /\
   (Exists (fun t => is_nv12 t = true /\ accepted t = true) (available os) \/
    manual_type_ok os = true /\ set_manual_ok os = true)).
Proof.
  split; [intros r; apply ConfigureDecoder_held|].
  unfold ConfigureDecoder.
  destruct (input_type_ok os); simpl; [|split; [discriminate|intros [? _]; discriminate]].
  destruct (set_input_ok os); simpl;
    [|split; [discriminate|intros (_ & ? & _); discriminate]].
  pose proof (offered_true (available os)) as H.
  destruct (offered (available os)) as [events ok]. simpl in H.
  destruct ok; simpl.
  - split; [|reflexivity]. intros _. repeat split. left. now apply H.
  - assert (Hn : ~ Exists (fun t => is_nv12 t = true /\ accepted t = true)
                     (available os)).
    { intros He. apply H in He. discriminate. }
    destruct (manual_type_ok os); simpl.
    + split.
      * intros ->. repeat split. now right.
      * intros (_ & _ & [He|[_ He]]); [contradiction|exact He].
    + split; [discriminate|].
      intros (_ & _ & [He|[He _]]); [contradiction|discriminate].
Qed.

Ltac all_or_nothing Hcfg :=
  split; [repeat split|];
  split; [intros r; simpl; rewrite ?held_app, ?Hcfg; now destruct r|];
  split; [intros r; simpl; rewrite ?held_app, ?Hcfg; now destruct r
         |repeat split].

(** X17: [Initialize] of the Media Foundation decoder is all or nothing.
    On a decoder that holds nothing, whichever of its nine steps fails,
    it returns false with every reference it took given back
    ([MFShutdown] for [MFStartup], [Release] for each COM object, the
    renderer destroyed) and every pointer null again, so that it can be
    called again; when it returns true the decoder holds each resource
    exactly once, and the destructor gives them all back. *)
Theorem Initialize_all_or_nothing os width height sps pps d :
  clean d ->
  let '(events, ok, d') := Initialize os width height sps pps d in
  (if ok then ready d' else clean d') /\
  (forall r, held r events = if ok && member r then 1 else 0) /\
  (forall r, held r (events ++ fst (Cleanup d')) = 0) /\
  clean (snd (Cleanup d')).
Proof.
  intros (H1 & H2 & H3 & H4 & H5 & H6 & H7).
  destruct d as [i mf dev ctx mgr dec rend w h s p]. simpl in *. subst.
  unfold Initialize, CreateD3D11Device, CreateDecoder, fail. simpl.
  pose proof (ConfigureDecoder_held (configure os)) as Hcfg.
  destruct (ConfigureDecoder (configure os)) as [types configured].
  simpl in Hcfg.
  destruct (startup_ok os); simpl; [|all_or_nothing Hcfg].
  destruct (create_device_ok os); simpl; [|all_or_nothing Hcfg].
  destruct (device_manager_ok os); simpl; [|all_or_nothing Hcfg].
  destruct (reset_device_ok os); simpl; [|all_or_nothing Hcfg].
  destruct (decoder_found os); simpl; [|all_or_nothing Hcfg].
  destruct (activate_ok os); simpl; [|all_or_nothing Hcfg].
  destruct configured; simpl; [|all_or_nothing Hcfg].
  destruct (renderer_ok os); simpl; [|all_or_nothing Hcfg].
  destruct (streaming_ok os); simpl; all_or_nothing Hcfg.
Qed.

Lemma Initialize_all_or_nothing_witness :
  clean (snd (Initialize unconfigurable 640 480 [x67] [x68] nothing)) /\
  forall r, held r (fst (fst (Initialize unconfigurable 640 480 [x67] [x68] nothing)))
            = 0.
Proof.
  pose proof (Initialize_all_or_nothing unconfigurable 640 480 [x67] [x68] nothing
                ltac:(repeat split)) as H.
  simpl in H. destruct H as (Hc & Hh & _). split; [exact Hc|exact Hh].
Defined.

Ltac references :=
  let H := fresh in
  intros H; injection H as <- <-;
  split; [intros []; reflexivity|];
  split; [simpl; lia|];
  split; [intros ?; first [reflexivity|discriminate]|];
  split; [intros ?; first [reflexivity|discriminate]|];
  split; [intros ?; first [reflexivity|discriminate]|];
  intros; split; intros; congruence.

(** X18: the samples of [DecodeAndRender].  Whenever it returns, every
    buffer and sample it created or received has been released exactly
    once, on each of its paths and for every answer of the transform; it
    renders at most one texture, none when it returns false, none when
    the transform wants more input and none when the decoded sample
    holds no DXGI buffer (the software path of [RenderFrame] renders
    nothing).  Once the call has got as far as [ProcessOutput] (the
    decoder is initialized, the input sample is built and [ProcessInput]
    succeeds or answers [MF_E_NOTACCEPTING]), it returns true unless
    [ProcessOutput] fails with an error other than
    [MF_E_TRANSFORM_NEED_MORE_INPUT] and [MF_E_TRANSFORM_STREAM_CHANGE]:
    so it returns true without rendering anything when the transform
    wants more input, and when the sample it produces holds no DXGI
    buffer. *)
Theorem DecodeAndRender_references os d events r :
  DecodeAndRender os d = (events, Done r) ->
  (forall x, held x events = 0) /\
  (renders events <= 1)%nat /\
  (r = false -> renders events = O) /\
  (process_output os = NeedMoreInput -> renders events = O) /\
  (dxgi_ok (frame os) = false -> renders events = O) /\
  (m_initialized d = true -> m_decoder d = true ->
   memory_buffer_ok os = true -> lock_ok os = true -> sample_ok os = true ->
   process_input os <> InputFailed ->
   (r = true <-> process_output os <> OutputFailed)).
Proof.
  unfold DecodeAndRender, CreateSampleFromNAL, RenderFrame.
  destruct (m_initialized d), (m_decoder d); simpl; try references.
  destruct (memory_buffer_ok os); simpl; [|references].
  destruct (lock_ok os); simpl; [|references].
  destruct (sample_ok os); simpl; [|references].
  destruct (process_input os); simpl; [| |references];
    destruct (decoder_allocates os), (output_sample_ok os),
      (output_buffer_ok os); simpl; try discriminate;
    destruct (process_output os) as [| | |[]]; simpl; try references;
    destruct (m_renderer d), (buffer_ok (frame os)), (dxgi_ok (frame os)),
      (texture_ok (frame os)); simpl; references.
Qed.

Lemma DecodeAndRender_references_witness :
  DecodeAndRender wants_more
    (snd (Initialize all_ok 640 480 [x67] [x68] nothing))
  = ([Acquire InputBuffer; Acquire InputSample; Release InputBuffer;
      Release InputSample; Acquire OutputSample; Acquire OutputBuffer;
      Release OutputBuffer; Release OutputSample], Done true) /\
  renders (fst (DecodeAndRender wants_more
                  (snd (Initialize all_ok 640 480 [x67] [x68] nothing)))) = O.
Proof.
  split; [reflexivity|].
  refine (proj1 (proj2 (proj2 (proj2
            (DecodeAndRender_references wants_more
               (snd (Initialize all_ok 640 480 [x67] [x68] nothing))
               _ true eq_refl)))) _).
  reflexivity.
Defined.

(** *** The AVCC length prefix *)

Lemma byte_at_byte_of buf k z :
  0 <= k < Z.of_nat (length buf) ->
  buf !! Z.to_nat k = Some (byte_of z) ->
  Audio.byte_at buf k = z mod 256.
Proof.
  intros Hk Hb. unfold Audio.byte_at, Vec.get.
  destruct (0 <=? k) eqn:E0; [|apply Z.leb_gt in E0; lia].
  destruct (k <? Z.of_nat (length buf)) eqn:E1; [|apply Z.ltb_ge in E1; lia].
  simpl. rewrite Hb. simpl. unfold byte_of.
  pose proof (Z.mod_pos_bound z 256 ltac:(lia)) as Hm.
  destruct (Byte.of_N (Z.to_N (z mod 256))) as [b|] eqn:Eb.
  - simpl. apply Byte.to_of_N in Eb. rewrite Eb. lia.
  - apply Byte.of_N_None_iff in Eb. lia.
Qed.

Lemma land_255 z k : 0 <= k -> Z.land (Z.shiftr z k) 255 = (z / 2 ^ k) mod 256.
Proof.
  intros Hk. change 255 with (Z.ones 8).
  rewrite Z.land_ones by lia. now rewrite Z.shiftr_div_pow2 by lia.
Qed.

Lemma be32_length_prefix nalLen rest :
  be32 (length_prefix nalLen ++ rest) = Int.u32 nalLen.
Proof.
  unfold be32, length_prefix.
  rewrite (byte_at_byte_of _ 0 (Z.land (Z.shiftr nalLen 24) 255));
    [|simpl; lia|reflexivity].
  rewrite (byte_at_byte_of _ 1 (Z.land (Z.shiftr nalLen 16) 255));
    [|simpl; lia|reflexivity].
  rewrite (byte_at_byte_of _ 2 (Z.land (Z.shiftr nalLen 8) 255));
    [|simpl; lia|reflexivity].
  rewrite (byte_at_byte_of _ 3 (Z.land nalLen 255));
    [|simpl; lia|reflexivity].
  rewrite !land_255 by lia.
  replace (Z.land nalLen 255) with (nalLen mod 256)
    by (change 255 with (Z.ones 8); now rewrite Z.land_ones by lia).
  rewrite !Z.mod_mod by lia.
  unfold Int.u32, Int.wrap.
  change (2 ^ 24) with 16777216. change (2 ^ 16) with 65536.
  change (2 ^ 8) with 256. change (2 ^ 32) with 4294967296.
  pose proof (Z.div_mod nalLen 256 ltac:(lia)).
  pose proof (Z.mod_pos_bound nalLen 256 ltac:(lia)).
  pose proof (Z.div_mod (nalLen / 256) 256 ltac:(lia)).
  pose proof (Z.mod_pos_bound (nalLen / 256) 256 ltac:(lia)).
  pose proof (Z.div_mod (nalLen / 65536) 256 ltac:(lia)).
  pose proof (Z.mod_pos_bound (nalLen / 65536) 256 ltac:(lia)).
  pose proof (Z.div_mod (nalLen / 16777216) 256 ltac:(lia)).
  pose proof (Z.mod_pos_bound (nalLen / 16777216) 256 ltac:(lia)).
  assert (E1 : nalLen / 256 / 256 = nalLen / 65536)
    by (rewrite Z.div_div by lia; reflexivity).
  assert (E2 : nalLen / 65536 / 256 = nalLen / 16777216)
    by (rewrite Z.div_div by lia; reflexivity).
  apply Z.mod_unique with (q := nalLen / 16777216 / 256); lia.
Qed.

(** X19: the framing of [CreateSampleFromNAL].  The media buffer holds
    the four-byte big-endian length of the NAL unit and then the NAL unit
    itself, [nalLen + 4] bytes in all: an AVCC reader that takes the first
    four bytes as a length finds exactly the unit behind them. *)
Theorem sample_is_length_prefixed nalData :
  Z.of_nat (length nalData) < 2 ^ 31 - 4 ->
  let nalLen := Z.of_nat (length nalData) in
  let buf := sample_bytes nalData nalLen in
  Z.of_nat (length buf) = totalLength nalLen /\
  be32 buf = nalLen /\
  take (Z.to_nat (be32 buf)) (drop 4 buf) = nalData.
Proof.
  intros Hlen nalLen buf. subst buf. unfold sample_bytes.
  assert (Hbe : be32 (length_prefix nalLen ++ take (Z.to_nat nalLen) nalData)
                = nalLen).
  { rewrite be32_length_prefix. unfold Int.u32. apply wrap_small. lia. }
  split; [|split; [exact Hbe|]].
  - rewrite length_app, length_take. simpl.
    unfold totalLength, Int.i32, Int.swrap, Int.wrap.
    rewrite Z.mod_small by lia. change (2 ^ (32 - 1)) with (2 ^ 31).
    destruct (_ <? _) eqn:E; [lia|apply Z.ltb_ge in E; lia].
  - rewrite Hbe. simpl. subst nalLen. rewrite Nat2Z.id.
    now rewrite !firstn_all.
Qed.

Lemma sample_is_length_prefixed_witness :
  sample_bytes [x65; x88; x84] 3 = [x00; x00; x00; x03; x65; x88; x84] /\
  be32 (sample_bytes [x65; x88; x84] 3) = 3.
Proof.
  split; [reflexivity|].
  apply (sample_is_length_prefixed [x65; x88; x84]). simpl. lia.
Defined.

End MediaFoundationFacts.

(** ** The instance list of the Linux renderer *)

Module CapiFacts.
Import Capi.

Lemma find_decoder_found (objects0 : gmap Z Vaapi.VaapiDecoder) nodes h :
  Forall (fun node => handle node <> 0 /\ decoder node = handle node /\
                      is_Some (objects0 !! decoder node)) nodes ->
  find_decoder nodes h <> 0 ->
  find_decoder nodes h = h /\ is_Some (objects0 !! find_decoder nodes h).
Proof.
  induction 1 as [|node nodes (Hn & Hd & Hl) _ IH]; simpl; [congruence|].
  destruct (handle node =? h) eqn:E; [|exact IH].
  apply Z.eqb_eq in E. intros _. split; [congruence|exact Hl].
Qed.

Lemma find_decoder_absent nodes h :
  h ∉ map handle nodes -> find_decoder nodes h = 0.
Proof.
  induction nodes as [|node nodes IH]; simpl; [reflexivity|].
  intros Hn. apply not_elem_of_cons in Hn as [Hne Hn].
  destruct (handle node =? h) eqn:E; [apply Z.eqb_eq in E; congruence|].
  now apply IH.
Qed.

Lemma remove_instance_spec nodes h d nodes' :
  remove_instance nodes h = (d, nodes') ->
  d = find_decoder nodes h /\
  nodes' ⊆ nodes /\
  (NoDup (map handle nodes) ->
   NoDup (map handle nodes') /\ h ∉ map handle nodes').
Proof.
  revert d nodes'. induction nodes as [|node nodes IH]; intros d nodes'; simpl.
  - intros H. injection H as <- <-.
    split; [reflexivity|]. split; [reflexivity|]. intros _.
    split; [constructor|apply not_elem_of_nil].
  - destruct (handle node =? h) eqn:E.
    + apply Z.eqb_eq in E. intros H. injection H as <- <-.
      split; [reflexivity|]. split; [apply list_subseteq_cons; reflexivity|].
      intros Hnd. apply NoDup_cons in Hnd as [Hni Hnd]. split; [exact Hnd|].
      now rewrite <- E.
    + apply Z.eqb_neq in E.
      destruct (remove_instance nodes h) as [d1 nodes1] eqn:E1.
      intros H. injection H as <- <-.
      destruct (IH d1 nodes1 eq_refl) as (Hd & Hsub & Hnd).
      split; [exact Hd|]. split.
      * intros x Hx. apply elem_of_cons in Hx as [->|Hx];
          [apply list_elem_of_here|apply list_elem_of_further, Hsub, Hx].
      * intros Hn. simpl. apply NoDup_cons in Hn as [Hni Hn].
        destruct (Hnd Hn) as [Hnd1 Hh]. split.
        -- apply NoDup_cons. split; [|exact Hnd1].
           intros Hin. apply Hni.
           apply list_elem_of_fmap in Hin as (x & -> & Hx).
           apply list_elem_of_fmap. exists x. split; [reflexivity|].
           apply Hsub, Hx.
        -- apply not_elem_of_cons. split; [congruence|exact Hh].
Qed.

Lemma with_decoder_consistent {R : Type} (none : R) f h lib :
  consistent lib ->
  exists r lib', with_decoder none f h lib = Valid (r, lib') /\ consistent lib' /\
                 s_instances lib' = s_instances lib /\
                 (forall p, objects lib !! p = None -> objects lib' !! p = None).
Proof.
  intros [Hall Hnd]. unfold with_decoder.
  destruct (h =? 0);
    [exists none, lib; split; [reflexivity|]; split; [split; assumption|];
     split; [reflexivity|auto]|].
  destruct (find_decoder (s_instances lib) h =? 0) eqn:E;
    [exists none, lib; split; [reflexivity|]; split; [split; assumption|];
     split; [reflexivity|auto]|].
  apply Z.eqb_neq in E.
  destruct (find_decoder_found _ _ _ Hall E) as [Hd [obj Hobj]].
  rewrite Hobj. destruct (f obj) as [r obj'].
  eexists r, _. split; [reflexivity|]. split; [split|split]; simpl.
  - eapply Forall_impl; [exact Hall|]. intros node (H1 & H2 & H3).
    split; [exact H1|]. split; [exact H2|].
    destruct (Z.eq_dec (find_decoder (s_instances lib) h) (decoder node)) as [->|Hne].
    + rewrite lookup_insert_eq. eauto.
    + rewrite lookup_insert_ne by exact Hne. exact H3.
  - exact Hnd.
  - reflexivity.
  - intros p Hp. rewrite lookup_insert_ne; [exact Hp|].
    intros <-. rewrite Hp in Hobj. discriminate.
Qed.

Lemma remove_instance_absent nodes h :
  h ∉ map handle nodes -> remove_instance nodes h = (0, nodes).
Proof.
  induction nodes as [|node nodes IH]; simpl; [reflexivity|].
  intros Hn. apply not_elem_of_cons in Hn as [Hne Hn].
  destruct (handle node =? h) eqn:E; [apply Z.eqb_eq in E; congruence|].
  now rewrite IH.
Qed.

Lemma destroy_consistent h lib :
  consistent lib ->
  exists lib', va_decoder_destroy h lib = Valid lib' /\ consistent lib' /\
               h ∉ map handle (s_instances lib').
Proof.
  intros [Hall Hnd]. unfold va_decoder_destroy.
  destruct (h =? 0) eqn:Eh.
  { apply Z.eqb_eq in Eh. subst h. exists lib. split; [reflexivity|].
    split; [split; assumption|].
    intros Hin. apply list_elem_of_fmap in Hin as (x & Hx & Hin).
    destruct (proj1 (Forall_forall _ _) Hall x Hin) as (H1 & _). congruence. }
  destruct (remove_instance (s_instances lib) h) as [d nodes] eqn:Er.
  destruct (remove_instance_spec _ _ _ _ Er) as (Hd & Hsub & Hnodup).
  destruct (Hnodup Hnd) as [Hnd' Hh].
  assert (Hall' : Forall (fun node => handle node <> 0 /\
                                      decoder node = handle node /\
                                      is_Some (objects lib !! decoder node)) nodes).
  { apply Forall_forall. intros x Hx.
    apply (proj1 (Forall_forall _ _) Hall x), Hsub, Hx. }
  destruct (d =? 0) eqn:Ed.
  { eexists. split; [reflexivity|]. split; [split; assumption|exact Hh]. }
  apply Z.eqb_neq in Ed. rewrite Hd in Ed.
  destruct (find_decoder_found _ _ _ Hall Ed) as [Hdh [obj Hobj]].
  rewrite Hd, Hobj. eexists. split; [reflexivity|]. split; [split; simpl|].
  - apply Forall_forall. intros x Hx.
    destruct (proj1 (Forall_forall _ _) Hall' x Hx) as (H1 & H2 & H3).
    split; [exact H1|]. split; [exact H2|].
    rewrite lookup_delete_ne; [exact H3|].
    rewrite Hdh, H2. intros Heq. apply Hh.
    apply list_elem_of_fmap. exists x. split; [exact Heq|exact Hx].
  - exact Hnd'.
  - exact Hh.
Qed.

Lemma call_consistent c lib :
  consistent lib ->
  match c with Create p _ => objects lib !! p = None | _ => True end ->
  exists lib', call c lib = Valid lib' /\ consistent lib'.
Proof.
  intros Hc Hfresh. destruct c as [p ok|h|os w ht s q h|os h|x_window h]; simpl.
  - eexists. split; [reflexivity|]. unfold va_decoder_create.
    destruct (p =? 0) eqn:Ep; [exact Hc|]. apply Z.eqb_neq in Ep.
    destruct Hc as [Hall Hnd]. simpl.
    assert (Hall' : Forall (fun node => handle node <> 0 /\
                              decoder node = handle node /\
                              is_Some (<[p := Vaapi.vaapi_decoder_create]>
                                         (objects lib) !! decoder node))
                           (s_instances lib)).
    { eapply Forall_impl; [exact Hall|]. intros node (H1 & H2 & H3).
      split; [exact H1|]. split; [exact H2|].
      destruct (Z.eq_dec p (decoder node)) as [->|Hne].
      - rewrite lookup_insert_eq. eauto.
      - rewrite lookup_insert_ne by exact Hne. exact H3. }
    unfold add_instance. destruct ok; split; simpl; try assumption.
    + constructor; [|exact Hall']. simpl.
      split; [exact Ep|]. split; [reflexivity|].
      rewrite lookup_insert_eq. eauto.
    + apply NoDup_cons. split; [|exact Hnd]. intros Hin.
      apply list_elem_of_fmap in Hin as (x & Hx & Hin).
      destruct (proj1 (Forall_forall _ _) Hall x Hin) as (_ & H2 & [obj H3]).
      rewrite H2, <- Hx, Hfresh in H3. discriminate.
  - destruct (destroy_consistent h lib Hc) as (lib' & -> & Hc' & _). eauto.
  - destruct (with_decoder_consistent false
                (fun d => let '(_, ok, d') :=
                            Vaapi.vaapi_decoder_initialize os w ht s q d in
                          (ok, d'))
                h lib Hc) as (r & lib' & E & Hc' & _).
    unfold va_decoder_initialize. rewrite E. eauto.
  - destruct (with_decoder_consistent false
                (fun d => let '(_, ok, d') :=
                            Vaapi.vaapi_decoder_decode_and_render os d in (ok, d'))
                h lib Hc) as (r & lib' & E & Hc' & _).
    unfold va_decoder_decode_and_render. rewrite E. eauto.
  - destruct (with_decoder_consistent 0
                (fun d => (Vaapi.vaapi_decoder_get_view x_window d, d))
                h lib Hc)
      as (r & lib' & E & Hc' & _).
    unfold va_decoder_get_view. rewrite E. eauto.
Qed.

Lemma run_consistent calls : forall lib,
  consistent lib -> fresh_addresses calls lib ->
  exists lib', run calls lib = Valid lib' /\ consistent lib'.
Proof.
  induction calls as [|c calls IH]; intros lib Hc Hf; simpl; [eauto|].
  simpl in Hf. destruct Hf as [Hf1 Hf2].
  destruct (call_consistent c lib Hc) as (lib1 & E & Hc1).
  { destruct c; try exact I. exact Hf1. }
  rewrite E in *. apply IH; assumption.
Qed.

(** X20: the instance list of the Linux renderer.  In any sequence of
    calls of [va_decoder_create], [va_decoder_destroy],
    [va_decoder_initialize], [va_decoder_decode_and_render] and
    [va_decoder_get_view], with any handles (null, never created,
    already destroyed) and any answers of the system, no call reaches a
    decoder that has been freed; the list keeps every handle once, mapped
    to the live decoder at that address; and once a handle has been
    destroyed every entry point rejects it and a second destroy does
    nothing.  (The calls are made one after the other; the allocator does
    not return the address of a decoder that is still allocated.) *)
Theorem instance_list_safe calls :
  fresh_addresses calls empty ->
  exists lib,
    run calls empty = Valid lib /\ consistent lib /\
    forall h, exists lib',
      va_decoder_destroy h lib = Valid lib' /\
      (forall os, va_decoder_decode_and_render os h lib' = Valid (false, lib')) /\
      (forall os w ht s p,
          va_decoder_initialize os w ht s p h lib' = Valid (false, lib')) /\
      (forall x_window,
          va_decoder_get_view x_window h lib' = Valid (0, lib')) /\
      va_decoder_destroy h lib' = Valid lib'.
Proof.
  intros Hf.
  destruct (run_consistent calls empty) as (lib & E & Hc); [|exact Hf|].
  { split; simpl; constructor. }
  exists lib. split; [exact E|]. split; [exact Hc|].
  intros h. destruct (destroy_consistent h lib Hc) as (lib' & Ed & Hc' & Hh).
  exists lib'. split; [exact Ed|].
  unfold va_decoder_decode_and_render, va_decoder_initialize,
    va_decoder_get_view, with_decoder, va_decoder_destroy.
  destruct (h =? 0); [repeat split|].
  rewrite (find_decoder_absent _ _ Hh), (remove_instance_absent _ _ Hh). simpl.
  repeat split. now destruct lib'.
Qed.

Lemma instance_list_safe_witness :
  exists lib,
    run [Create 4096 true;
         Initialize Vaapi.working_init 640 480 [x67] [x68] 4096;
         Decode Vaapi.decode_ok 4096; Destroy 4096;
         Decode Vaapi.decode_ok 4096; Destroy 4096;
         Create 4096 false; GetView 4194305 4096] empty
    = Valid lib.
Proof.
  destruct (instance_list_safe
              [Create 4096 true;
               Initialize Vaapi.working_init 640 480 [x67] [x68] 4096;
               Decode Vaapi.decode_ok 4096; Destroy 4096;
               Decode Vaapi.decode_ok 4096; Destroy 4096;
               Create 4096 false; GetView 4194305 4096]) as (lib & E & _).
  - vm_compute. repeat split.
  - exists lib. exact E.
Defined.

End CapiFacts.

(** ** The instance map of the Windows renderer *)

Module MfApiFacts.
Import MediaFoundation MfApi.

Lemma mf_with_decoder_consistent {R : Type} (none : R) f h lib :
  consistent lib ->
  exists r lib', with_decoder none f h lib = Valid (r, lib') /\ consistent lib' /\
                 s_instances lib' = s_instances lib.
Proof.
  intros Hc. unfold with_decoder.
  destruct (h =? 0); [exists none, lib; split; [reflexivity|split; [exact Hc|reflexivity]]|].
  destruct (s_instances lib !! h) as [d|] eqn:E;
    [|exists none, lib; split; [reflexivity|split; [exact Hc|reflexivity]]].
  destruct (Hc h d E) as (Hh & -> & [obj Hobj]).
  rewrite Hobj. destruct (f obj) as [r obj'].
  eexists r, _. split; [reflexivity|]. split; [|reflexivity].
  intros h' d' E'. simpl in *. destruct (Hc h' d' E') as (H1 & H2 & H3).
  split; [exact H1|]. split; [exact H2|].
  destruct (Z.eq_dec h d') as [->|Hne].
  - rewrite lookup_insert_eq. eauto.
  - rewrite lookup_insert_ne by exact Hne. exact H3.
Qed.

Lemma mf_destroy_consistent h lib :
  consistent lib ->
  exists events lib',
    mf_decoder_destroy h lib = Valid (events, lib') /\ consistent lib' /\
    s_instances lib' !! h = None.
Proof.
  intros Hc. unfold mf_decoder_destroy.
  destruct (h =? 0) eqn:Eh.
  { apply Z.eqb_eq in Eh. subst h. exists [], lib.
    split; [reflexivity|]. split; [exact Hc|].
    destruct (s_instances lib !! 0) as [d|] eqn:E; [|reflexivity].
    destruct (Hc 0 d E) as (H0 & _). congruence. }
  destruct (s_instances lib !! h) as [d|] eqn:E;
    [|exists [], lib; split; [reflexivity|split; [exact Hc|exact E]]].
  destruct (Hc h d E) as (Hh & -> & [obj Hobj]).
  apply Z.eqb_neq in Eh. rewrite (proj2 (Z.eqb_neq h 0) Eh), Hobj.
  eexists _, _. split; [reflexivity|]. split; simpl.
  - intros h' d' E'. simpl in *.
    destruct (Z.eq_dec h' h) as [->|Hne];
      [rewrite lookup_delete_eq in E'; discriminate|].
    rewrite lookup_delete_ne in E' by congruence.
    destruct (Hc h' d' E') as (H1 & H2 & H3).
    split; [exact H1|]. split; [exact H2|].
    rewrite lookup_delete_ne by congruence. exact H3.
  - apply lookup_delete_eq.
Qed.

Lemma mf_call_consistent c lib :
  consistent lib ->
  match c with
  | Create (Some (p, _)) _ => p <> 0 /\ objects lib !! p = None
  | _ => True
  end ->
  exists lib', call c lib = Valid lib' /\ consistent lib'.
Proof.
  intros Hc Hfresh.
  destruct c as [[[p obj]|] ok|h|os w ht s q h|os h|h]; simpl.
  - eexists. split; [reflexivity|]. destruct Hfresh as [Hp Hnone].
    assert (Hold : forall h d, s_instances lib !! h = Some d ->
                     h <> 0 /\ d = h /\ is_Some (<[p := obj]> (objects lib) !! d)).
    { intros h d E. destruct (Hc h d E) as (H1 & H2 & H3).
      split; [exact H1|]. split; [exact H2|].
      destruct (Z.eq_dec p d) as [->|Hne].
      - rewrite lookup_insert_eq. eauto.
      - rewrite lookup_insert_ne by exact Hne. exact H3. }
    destruct ok; simpl; [|exact Hold].
    intros h d E. simpl in *.
    destruct (Z.eq_dec p h) as [->|Hne].
    + rewrite lookup_insert_eq in E. injection E as <-.
      split; [exact Hp|]. split; [reflexivity|].
      rewrite lookup_insert_eq. eauto.
    + rewrite lookup_insert_ne in E by exact Hne. now apply Hold.
  - eexists. split; [reflexivity|exact Hc].
  - destruct (mf_destroy_consistent h lib Hc) as (events & lib' & -> & Hc' & _).
    eauto.
  - destruct (mf_with_decoder_consistent false
                (fun d => let '(_, ok, d') := Initialize os w ht s q d in (ok, d'))
                h lib Hc) as (r & lib' & E & Hc' & _).
    unfold mf_decoder_initialize. rewrite E. eauto.
  - destruct (mf_with_decoder_consistent (Done false)
                (fun d => (snd (DecodeAndRender os d), d)) h lib Hc)
      as (r & lib' & E & Hc' & _).
    unfold mf_decoder_decode_and_render. rewrite E. eauto.
  - destruct (mf_with_decoder_consistent false (fun d => (m_renderer d, d))
                h lib Hc) as (r & lib' & E & Hc' & _).
    unfold mf_decoder_get_view. rewrite E. eauto.
Qed.

Lemma mf_run_consistent calls : forall lib,
  consistent lib -> fresh_addresses calls lib ->
  exists lib', run calls lib = Valid lib' /\ consistent lib'.
Proof.
  induction calls as [|c calls IH]; intros lib Hc Hf; simpl; [eauto|].
  simpl in Hf. destruct Hf as [Hf1 Hf2].
  destruct (mf_call_consistent c lib Hc) as (lib1 & E & Hc1).
  { destruct c as [[[p obj]|] ok| | | |]; try exact I. exact Hf1. }
  rewrite E in *. apply IH; assumption.
Qed.

(** X21: the instance map of the Windows renderer.  In any sequence of
    calls of [mf_decoder_create], [mf_decoder_destroy],
    [mf_decoder_initialize], [mf_decoder_decode_and_render] and
    [mf_decoder_get_view], with any handles and any answers of the system
    (also when [new] or the insertion into the map throws), no call
    reaches a decoder that has been deleted, and every handle of the map
    is the address of a live decoder; once a handle has been destroyed
    every entry point rejects it and a second destroy does nothing.  (The
    calls are made one after the other; [new] does not return the address
    of a decoder that is still allocated.) *)
Theorem instance_map_safe calls :
  fresh_addresses calls empty ->
  exists lib,
    run calls empty = Valid lib /\ consistent lib /\
    forall h, exists events lib',
      mf_decoder_destroy h lib = Valid (events, lib') /\
      (forall os, mf_decoder_decode_and_render os h lib' = Valid (Done false, lib')) /\
      (forall os w ht s p,
          mf_decoder_initialize os w ht s p h lib' = Valid (false, lib')) /\
      mf_decoder_get_view h lib' = Valid (false, lib') /\
      mf_decoder_destroy h lib' = Valid ([], lib').
Proof.
  intros Hf.
  destruct (mf_run_consistent calls empty) as (lib & E & Hc); [|exact Hf|].
  { intros h d H. simpl in H. rewrite lookup_empty in H. discriminate. }
  exists lib. split; [exact E|]. split; [exact Hc|].
  intros h.
  destruct (mf_destroy_consistent h lib Hc) as (events & lib' & Ed & Hc' & Hh).
  exists events, lib'. split; [exact Ed|].
  unfold mf_decoder_decode_and_render, mf_decoder_initialize,
    mf_decoder_get_view, with_decoder, mf_decoder_destroy.
  destruct (h =? 0); [repeat split|].
  rewrite Hh. repeat split.
Qed.

Lemma instance_map_safe_witness :
  exists lib,
    run [Create (Some (4096, nothing)) true;
         Init all_ok 640 480 [x67] [x68] 4096;
         Decode wants_more 4096; Destroy 4096;
         Decode wants_more 4096; Destroy 4096;
         Create None true; Create (Some (4096, nothing)) false;
         GetView 4096] empty
    = Valid lib.
Proof.
  destruct (instance_map_safe
              [Create (Some (4096, nothing)) true;
               Init all_ok 640 480 [x67] [x68] 4096;
               Decode wants_more 4096; Destroy 4096;
               Decode wants_more 4096; Destroy 4096;
               Create None true; Create (Some (4096, nothing)) false;
               GetView 4096]) as (lib & E & _).
  - vm_compute. repeat split; discriminate.
  - exists lib. exact E.
Defined.

End MfApiFacts.

(** ** The EGL renderer *)

Module EglFacts.
Import Egl.

Lemma egl_held_app r e1 e2 : held r (e1 ++ e2) = held r e1 + held r e2.
Proof.
  induction e1 as [|[r'|r'| |] e1 IH]; simpl; rewrite ?IH; lia.
Qed.

Lemma held_replicate_acquire r r' n :
  held r (replicate n (Acquire r'))
  = if bool_decide (r' = r) then Z.of_nat n else 0.
Proof.
  induction n as [|n IH]; simpl replicate; [now destruct (bool_decide _)|].
  cbn [held]. rewrite IH. destruct (bool_decide _); lia.
Qed.

Lemma held_replicate_release r r' n :
  held r (replicate n (Release r'))
  = if bool_decide (r' = r) then - Z.of_nat n else 0.
Proof.
  induction n as [|n IH]; simpl replicate; [now destruct (bool_decide _)|].
  cbn [held]. rewrite IH. destruct (bool_decide _); lia.
Qed.

Lemma draws_app e1 e2 : draws (e1 ++ e2) = (draws e1 + draws e2)%nat.
Proof.
  induction e1 as [|[r'|r'| |] e1 IH]; simpl; rewrite ?IH; reflexivity.
Qed.

Lemma draws_replicate_acquire r n : draws (replicate n (Acquire r)) = O.
Proof. induction n; simpl; auto. Qed.

Lemma draws_replicate_release r n : draws (replicate n (Release r)) = O.
Proof. induction n; simpl; auto. Qed.

(** [x11_create_overlay_window] leaves a window and its colormap, or
    nothing. *)
Lemma x11_create_overlay_window_held os display res :
  held res (fst (x11_create_overlay_window os display))
  = match res with
    | Window | Colormap =>
        if snd (x11_create_overlay_window os display) =? 0 then 0 else 1
    | _ => 0
    end.
Proof.
  unfold x11_create_overlay_window, x11_set_click_through.
  destruct display; simpl; [|now destruct res].
  destruct (visual_ok os); simpl; [|now destruct res].
  destruct (created_window os =? 0) eqn:Ew; simpl; [now destruct res|].
  rewrite Ew. destruct (xfixes_ok os); simpl; now destruct res.
Qed.

Lemma x11_create_overlay_window_display os display :
  snd (x11_create_overlay_window os display) <> 0 -> display = true.
Proof.
  unfold x11_create_overlay_window. destruct display; [reflexivity|].
  simpl. intros H. now elim H.
Qed.

(** [create_program] deletes every shader it creates, and leaves a
    program exactly when it returns one. *)
Lemma create_program_held os res :
  held res (fst (create_program os))
  = match res with
    | Program => if snd (create_program os) =? 0 then 0 else 1
    | _ => 0
    end.
Proof.
  unfold create_program, compile_shader.
  destruct (vertex_shader os =? 0) eqn:Ev, (vertex_compiled os); simpl;
    rewrite ?Ev; simpl; try (now destruct res).
  destruct (fragment_shader os =? 0) eqn:Ef, (fragment_compiled os); simpl;
    rewrite ?Ef; simpl; try (now destruct res).
  destruct (program os =? 0) eqn:Ep, (linked os); simpl; rewrite ?Ep; simpl;
    now destruct res.
Qed.

(** The counts of a resource in a list of events built from the events of
    [x11_create_overlay_window] and [create_program]. *)
Ltac egl_count Hwin Hprog :=
  rewrite ?egl_held_app; cbn [held]; rewrite ?Hwin, ?Hprog; simpl;
  repeat match goal with
         | |- context [bool_decide ?P] =>
             destruct (bool_decide_reflect P); [try subst|]; simpl
         end;
  first [reflexivity | congruence | lia].

Ltac egl_path Hwin Hprog :=
  simpl;
  repeat match goal with
         | H : (?x =? 0) = _ |- context [?x =? 0] => rewrite H; simpl
         end;
  (split; [|split; [|split; [|split]]]);
  [ let res := fresh "res" in let Hr := fresh "Hr" in
    intros res Hr; rewrite !elem_of_cons, elem_of_nil in Hr;
    destruct Hr as [->|[->|[->|[]]]]; egl_count Hwin Hprog
  | egl_count Hwin Hprog
  | first [discriminate
          | let res := fresh "res" in let Hr := fresh "Hr" in
            intros _ res Hr; destruct res; egl_count Hwin Hprog]
  | first [discriminate
          | let res := fresh "res" in let Hr := fresh "Hr" in
            intros _ res Hr; destruct res; egl_count Hwin Hprog]
  | first [discriminate
          | intros _; (split; [|split]);
            [egl_count Hwin Hprog | egl_count Hwin Hprog
            |first [discriminate | intros _; egl_count Hwin Hprog]]] ].

(** X26: [egl_renderer_destroy] after [egl_renderer_initialize] on a new
    renderer.  The overlay window is destroyed whenever it was created,
    and the region of the click-through setting and the shaders are gone
    when [egl_renderer_initialize] returns.  After an initialization that
    succeeded, the program, the textures, the surface, the context and
    the EGL connection are given back as well.  After one that failed,
    [egl_renderer_destroy] gives back the window and nothing else: the
    surface and the context that had been created stay, and with them the
    EGL connection.  The colormap of the window is freed only when
    [XCreateWindow] fails. *)
Theorem egl_destroy_after_initialize os w h ext display :
  let '(taken, ok, ext', r) :=
    egl_renderer_initialize os w h ext (egl_renderer_create display) in
  let events := taken ++ egl_renderer_destroy r in
  (forall res, res ∈ [Window; Region; Shader] -> held res events = 0) /\
  held Colormap events = (if x_window r =? 0 then 0 else 1) /\
  (ok = true -> forall res, res <> Colormap -> held res events = 0) /\
  (ok = false ->
   forall res, res <> Window -> held res events = held res taken) /\
  (ok = false ->
   held EglSurface events = (if egl_surface r then 1 else 0) /\
   held EglContext events = (if egl_context r then 1 else 0) /\
   (egl_context r = true -> held EglDisplay events = 1)).
Proof.
  unfold egl_renderer_initialize, egl_renderer_create. simpl.
  pose proof (x11_create_overlay_window_held (window_os os) display) as Hwin.
  pose proof (x11_create_overlay_window_display (window_os os) display) as Hd.
  pose proof (create_program_held (program_os os)) as Hprog.
  destruct (x11_create_overlay_window (window_os os) display) as [e1 win].
  destruct (create_program (program_os os)) as [e5 prog].
  simpl in Hwin, Hd, Hprog.
  unfold egl_renderer_destroy, x11_destroy_overlay_window.
  destruct (win =? 0) eqn:Ew; [egl_path Hwin Hprog|].
  rewrite Hd in * by (intros ->; discriminate). clear Hd.
  destruct (get_display_ok os); simpl; rewrite ?Ew; [|egl_path Hwin Hprog].
  destruct (egl_initialize_ok os); simpl; rewrite ?Ew; [|egl_path Hwin Hprog].
  destruct (choose_config_ok os); simpl; rewrite ?Ew; [|egl_path Hwin Hprog].
  destruct (create_context_ok os); simpl; rewrite ?Ew; [|egl_path Hwin Hprog].
  destruct (create_surface_ok os); simpl; rewrite ?Ew; [|egl_path Hwin Hprog].
  destruct (make_current_ok os); simpl; rewrite ?Ew; [|egl_path Hwin Hprog].
  destruct (prog =? 0) eqn:Ep; simpl; rewrite ?Ew, ?Ep;
    [egl_path Hwin Hprog|].
  destruct (y_texture_name os =? 0) eqn:Ey,
           (uv_texture_name os =? 0) eqn:Eu; simpl;
    egl_path Hwin Hprog.
Qed.

Ltac frame_count :=
  rewrite ?egl_held_app, ?draws_app; cbn [held draws];
  rewrite ?held_replicate_acquire, ?held_replicate_release,
    ?draws_replicate_acquire, ?draws_replicate_release;
  simpl;
  first [reflexivity | congruence | lia | tauto].

(** X27: the descriptors and images of one [egl_renderer_render_surface]
    on an initialized renderer.  On the zero-copy path (the export
    succeeds and the two functions it tests are there) every EGL image
    that was created is destroyed and every DMA-BUF descriptor of the
    exported surface is closed; the call returns true, also when an image
    could not be created and nothing was drawn.  On the [vaPutSurface]
    path the descriptors of an export that succeeded are never closed:
    without the two functions every frame leaves [num_objects] open
    descriptors behind.  And [s_eglDestroyImageKHR], which is not tested,
    is called through a null pointer when it is missing and an image was
    created. *)
Theorem egl_render_surface_frame os ext r :
  initialized r = true ->
  render_current_ok os = true ->
  let zero_copy :=
    export_ok os && s_eglCreateImageKHR ext
    && s_glEGLImageTargetTexture2DOES ext in
  match egl_renderer_render_surface os ext r with
  | (events, Done ret) =>
      held Image events = 0 /\
      held DmaBuf events
      = (if export_ok os && negb zero_copy then Z.of_nat (num_objects os)
         else 0) /\
      (zero_copy = true ->
       ret = true /\
       draws events = (if y_image_ok os && uv_image_ok os then 1%nat else O) /\
       (y_image_ok os || uv_image_ok os = true ->
        s_eglDestroyImageKHR ext = true)) /\
      (zero_copy = false ->
       ret = put_surface_ok os /\ draws events = O /\ PutSurface ∈ events)
  | (events, NullDereference) =>
      zero_copy = true /\ s_eglDestroyImageKHR ext = false /\
      y_image_ok os || uv_image_ok os = true
  end.
Proof.
  intros Hi Hc. unfold egl_renderer_render_surface. rewrite Hi, Hc. simpl.
  destruct (export_ok os), (s_eglCreateImageKHR ext),
    (s_glEGLImageTargetTexture2DOES ext); simpl;
    try (repeat split; intros; repeat split; try frame_count;
         rewrite ?elem_of_app, ?elem_of_cons; tauto).
  destruct (y_image_ok os), (uv_image_ok os), (s_eglDestroyImageKHR ext);
    simpl; repeat split; intros; repeat split; frame_count.
Qed.

Lemma egl_render_surface_frame_witness :
  held DmaBuf
    (fst (egl_renderer_render_surface exports_two no_extensions
            (snd (egl_renderer_initialize working 640 480 no_extensions
                    (egl_renderer_create true))))) = 2.
Proof.
  pose proof (egl_render_surface_frame exports_two no_extensions
                (snd (egl_renderer_initialize working 640 480 no_extensions
                        (egl_renderer_create true)))
                eq_refl eq_refl) as H.
  exact (proj1 (proj2 H)).
Defined.

End EglFacts.
